(** * Vinylzz: the price-estimation pipeline and its job queue

    A shallow embedding of [lib/estimate.js], [queue.js] and [worker.js].

    - [JS] holds the fragment of JavaScript the three files rely on: JSON
      values, truthiness, property reads, [?.], [??], [||], the Number
      operations on IEEE-754 binary64 and [Math.round].
    - [Async] is the effect layer: an [async] function is a tree of [fetch],
      [setTimeout] and [pool.query] calls that either returns or throws, and
      [run] answers the calls from a [World] while recording a trace.
    - [Estimate], [JobQueue] and [Worker] follow the source files function by
      function.
    - [Spec] names the notions the specification uses and the objects the
      pipeline builds; [Scenario] holds concrete hosts, worlds and records.
    - [Boot] and [Server] follow [db.js], the start-up guard and the routes
      of [server.js]; [Text] has [trim] and [slice] on strings of any
      UTF-16 code units; [Runs] lists the calls a run can make; [Routes] holds
      the notions and scenarios of the routes.
    - [Facts], [EstimateSpec], [WorkerSpec] and [QueueSpec] hold the
      theorems; [Cases] evaluates them on the scenarios.
    - [PipelineRuns], [WorkerRuns], [BootSpec] and [ServerSpec] say what the
      code does beyond that, and what it never does; [MoreCases] evaluates
      them. *)

From Stdlib Require Import ZArith Lia List String Bool.
From Stdlib Require Import Floats.
Import ListNotations.
Set Warnings "-register-all".
Open Scope string_scope.
Open Scope list_scope.
Open Scope Z_scope.

(* ================================================================== *)
(** ** JavaScript values and operators *)

Module JS.

(** What [JSON.parse] and [res.json()] can produce, plus [undefined] for an
    absent property.  Numbers are binary64 floats, as in the language. *)
Inductive value : Type :=
| VUndefined
| VNull
| VBool (b : bool)
| VNum (n : float)
| VStr (s : string)
| VArr (items : list value)
| VObj (fields : list (string * value)).

(** Errors the code can raise or receive. *)
Inductive error : Type :=
| TypeError                                   (* read of a property of null/undefined, call of a non-function *)
| SyntaxError                                 (* JSON.parse / res.json() on text that is not JSON *)
| FetchFailed                                 (* fetch() rejected: no HTTP response at all *)
| QueryFailed                                 (* pool.query() rejected *)
| DiscogsSearchError (status : Z) (txt : string)  (* new Error(`Discogs search ${res.status}: ${txt}`) *)
| RecordNotFound (recordId : value).          (* new Error(`record ${recordId} not found`) *)

(** The 1.3 of the source is the double nearest to 13/10. *)
Definition num_1_3 : float := 0x1.4cccccccccccdp+0%float.
Definition num_0 : float := 0%float.
Definition num_5 : float := 5%float.
Definition num_100 : float := 100%float.

(** ToBoolean. *)
Definition truthy (v : value) : bool :=
  match v with
  | VUndefined | VNull => false
  | VBool b => b
  | VNum n => negb (PrimFloat.is_zero n || PrimFloat.is_nan n)
  | VStr s => negb (String.eqb s "")
  | VArr _ | VObj _ => true
  end.

(** [v == null], true of [null] and [undefined] only. *)
Definition nullish (v : value) : bool :=
  match v with
  | VUndefined | VNull => true
  | _ => false
  end.

(** [a || b] and [a ?? b]. *)
Definition js_or (a b : value) : value := if truthy a then a else b.
Definition js_coalesce (a b : value) : value := if nullish a then b else a.

Fixpoint lookup (k : string) (fields : list (string * value)) : value :=
  match fields with
  | [] => VUndefined
  | (k', v) :: rest => if String.eqb k k' then v else lookup k rest
  end.

(** [o.k] for a name [k] that no built-in prototype defines (every property
    name read in the three source files is of that kind): an own property of
    an object, [undefined] on any other non-null value, a TypeError on
    [null] and [undefined]. *)
Definition get (o : value) (k : string) : error + value :=
  match o with
  | VUndefined | VNull => inl TypeError
  | VObj fields => inr (lookup k fields)
  | _ => inr VUndefined
  end.

(** [o?.k]: no read, and [undefined], when [o] is null or undefined. *)
Definition opt_get (o : value) (k : string) : value :=
  match o with
  | VObj fields => lookup k fields
  | _ => VUndefined
  end.

(** [a?.[0]]. *)
Definition opt_index0 (a : value) : value :=
  match a with
  | VArr (x :: _) => x
  | VStr (String c _) => VStr (String c EmptyString)
  | VObj fields => lookup "0" fields
  | _ => VUndefined
  end.

(** [Math.round]: the integer nearest to [x], ties towards +infinity, the
    sign of [x] kept on a zero result; NaN, infinities and zeros unchanged.
    Computed exactly on the mantissa and exponent of [x]. *)
Definition Z2float (n : Z) : float :=
  match n with
  | Z0 => PrimFloat.zero
  | Zpos _ => PrimFloat.of_uint63 (Uint63.of_Z n)
  | Zneg p => PrimFloat.opp (PrimFloat.of_uint63 (Uint63.of_Z (Zpos p)))
  end.

Definition Math_round (x : float) : float :=
  match Prim2SF x with
  | S754_finite s m e =>
      if 0 <=? e then x
      else
        let sm := if s then Zneg m else Zpos m in
        let d := Z.pow 2 (- e) in
        let n := (2 * sm + d) / (2 * d) in
        if n =? 0 then (if s then PrimFloat.neg_zero else PrimFloat.zero)
        else Z2float n
  | _ => x
  end.

(** Conversions the language performs implicitly.  On primitives other than
    strings they are fixed here; number-to-string, string-to-number and the
    conversions of arrays and objects are left to the host, like the JSON
    grammar. *)
Record Builtins : Type := {
  JSON_parse : string -> option value;    (* None: throws SyntaxError *)
  ToNumber_host : value -> float;         (* on strings, arrays, objects *)
  ToString_host : value -> string         (* on numbers, arrays, objects *)
}.

Definition ToNumber (B : Builtins) (v : value) : float :=
  match v with
  | VUndefined => PrimFloat.nan
  | VNull => num_0
  | VBool true => 1%float
  | VBool false => num_0
  | VNum n => n
  | _ => ToNumber_host B v
  end.

Definition ToString (B : Builtins) (v : value) : string :=
  match v with
  | VUndefined => "undefined"
  | VNull => "null"
  | VBool true => "true"
  | VBool false => "false"
  | VStr s => s
  | _ => ToString_host B v
  end.

(** [a > b] and [a * b] where the right operand is a Number. *)
Definition js_gt (B : Builtins) (a : value) (b : float) : bool :=
  PrimFloat.ltb b (ToNumber B a).
Definition js_mul (B : Builtins) (a : value) (b : float) : float :=
  PrimFloat.mul (ToNumber B a) b.

End JS.
Export JS.

(* ================================================================== *)
(** ** Asynchronous code as call trees *)

Module Async.

(** A record's metadata, the argument of [estimateFromMetadata]; a field
    the object lacks reads as [undefined]. *)
Record Meta : Type := {
  artist : value;
  title : value;
  label : value;
  catno : value;
  barcode : value
}.

(** The three HTTP requests of [lib/estimate.js], by what varies in them. *)
Inductive Request : Type :=
| DiscogsSearchReq (query : list (string * string)) (token : option string)
| DiscogsStatsReq (releaseId : string) (token : option string)
| OpenAIChatReq (key : string) (raw : Meta).

(** An HTTP response: [res.status], the body as [res.text()] gives it and as
    [res.json()] decodes it ([None]: the body is not JSON). *)
Record Response : Type := {
  status : Z;
  text : string;
  json : option value
}.

(** [res.ok]. *)
Definition ok (res : Response) : bool :=
  (200 <=? status res) && (status res <=? 299).

Inductive FetchResult : Type :=
| Rejected                      (* no response: DNS, connection, TLS ... *)
| Resolved (res : Response).

Inductive QueryResult : Type :=
| QRejected
| QRows (rows : list value).

Inductive Event : Type :=
| EvFetch (rq : Request) (ans : FetchResult)
| EvSleep (ms : Z)
| EvQuery (sql : string) (params : list value) (ans : QueryResult).

(** The outside world answers each call knowing everything that happened
    before it. *)
Record World : Type := {
  net : list Event -> Request -> FetchResult;
  db : list Event -> string -> list value -> QueryResult
}.

Inductive Prog (A : Type) : Type :=
| Ret (a : A)
| Throw (e : error)
| Fetch (rq : Request) (k : FetchResult -> Prog A)
| Sleep (ms : Z) (k : Prog A)
| Query (sql : string) (params : list value) (k : QueryResult -> Prog A).
Arguments Ret {A} a.
Arguments Throw {A} e.
Arguments Fetch {A} rq k.
Arguments Sleep {A} ms k.
Arguments Query {A} sql params k.

Fixpoint bind {A B : Type} (p : Prog A) (f : A -> Prog B) : Prog B :=
  match p with
  | Ret a => f a
  | Throw e => Throw e
  | Fetch rq k => Fetch rq (fun ans => bind (k ans) f)
  | Sleep ms k => Sleep ms (bind k f)
  | Query sql ps k => Query sql ps (fun ans => bind (k ans) f)
  end.

(** [try { p } catch { h }]. *)
Fixpoint try_catch {A : Type} (p : Prog A) (h : error -> Prog A) : Prog A :=
  match p with
  | Ret a => Ret a
  | Throw e => h e
  | Fetch rq k => Fetch rq (fun ans => try_catch (k ans) h)
  | Sleep ms k => Sleep ms (try_catch k h)
  | Query sql ps k => Query sql ps (fun ans => try_catch (k ans) h)
  end.

Declare Scope prog_scope.
Delimit Scope prog_scope with prog.
Notation "x <- p ;; q" := (bind p (fun x => q))
  (at level 61, p at next level, right associativity) : prog_scope.
Notation "p ;; q" := (bind p (fun _ => q))
  (at level 61, right associativity) : prog_scope.
Open Scope prog_scope.

(** A synchronous expression that may throw. *)
Definition lift {A : Type} (r : error + A) : Prog A :=
  match r with
  | inl e => Throw e
  | inr a => Ret a
  end.

(** [await fetch(...)], [await sleep(ms)], [await res.text()],
    [await res.json()], [await pool.query(...)]. *)
Definition fetch (rq : Request) : Prog Response :=
  Fetch rq (fun ans =>
    match ans with
    | Rejected => Throw FetchFailed
    | Resolved res => Ret res
    end).

Definition sleep (ms : Z) : Prog unit := Sleep ms (Ret tt).

Definition res_text (res : Response) : Prog string := Ret (text res).

Definition res_json (res : Response) : Prog value :=
  match json res with
  | Some v => Ret v
  | None => Throw SyntaxError
  end.

Definition pool_query (sql : string) (params : list value) : Prog (list value) :=
  Query sql params (fun ans =>
    match ans with
    | QRejected => Throw QueryFailed
    | QRows rows => Ret rows
    end).

Inductive Outcome (A : Type) : Type :=
| Returned (a : A)
| Thrown (e : error).
Arguments Returned {A} a.
Arguments Thrown {A} e.

(** Running a call tree in a world, from the history [tr]; the result comes
    with the history extended by the calls made. *)
Fixpoint run {A : Type} (w : World) (tr : list Event) (p : Prog A)
  : Outcome A * list Event :=
  match p with
  | Ret a => (Returned a, tr)
  | Throw e => (Thrown e, tr)
  | Fetch rq k =>
      let ans := net w tr rq in
      run w (tr ++ [EvFetch rq ans]) (k ans)
  | Sleep ms k => run w (tr ++ [EvSleep ms]) k
  | Query sql ps k =>
      let ans := db w tr sql ps in
      run w (tr ++ [EvQuery sql ps ans]) (k ans)
  end.

End Async.
Export Async.

(* ================================================================== *)
(** ** lib/estimate.js *)

Module Estimate.

(** [process.env], as far as the file reads it. *)
Record Env : Type := {
  OPENAI_API_KEY : option string;
  DISCOGS_TOKEN : option string
}.

(** [URLSearchParams]: an ordered list of name/value pairs; [set] replaces
    the first pair of that name and drops the others, or appends. *)
Definition URLSearchParams : Type := list (string * string).

Definition usp_delete (name : string) (q : URLSearchParams) : URLSearchParams :=
  filter (fun p => negb (String.eqb (fst p) name)) q.

Fixpoint usp_set (q : URLSearchParams) (name val : string) : URLSearchParams :=
  match q with
  | [] => [(name, val)]
  | (n, v) :: rest =>
      if String.eqb n name then (name, val) :: usp_delete name rest
      else (n, v) :: usp_set rest name val
  end.

Definition usp_keys (q : URLSearchParams) : list string := map fst q.

(** The object [estimateFromMetadata] returns.  [extras] has one of two
    shapes. *)
Record NoResultExtras : Type := {
  note : string;
  query : Meta;
  search_count : value
}.

Module Matched.
Record t : Type := {
  release_id : value;
  title : value;
  country : value;
  year : value;
  label : value;
  catno : value;
  community_have : value;
  community_want : value;
  num_for_sale : value
}.
End Matched.

Inductive Extras : Type :=
| ExtrasNone (x : NoResultExtras)
| ExtrasMatch (x : Matched.t).

Record Estimate : Type := {
  source : string;
  lowest_price : value;
  median_price : value;
  estimated_price : value;
  extras : Extras
}.

Section WithHost.

Variable B : Builtins.
Variable env : Env.

(** Lines 10-16: the query [discogsSearch] assembles. *)
Definition search_params (m : Meta) : URLSearchParams :=
  let q := [] in
  let q := if truthy (artist m) then usp_set q "artist" (ToString B (artist m)) else q in
  let q := if truthy (title m) then usp_set q "release_title" (ToString B (title m)) else q in
  let q := if truthy (catno m) then usp_set q "catno" (ToString B (catno m)) else q in
  let q := if truthy (barcode m) then usp_set q "barcode" (ToString B (barcode m)) else q in
  q.

(** Lines 10-32. *)
Definition discogsSearch (m : Meta) : Prog value :=
  let q := search_params m in
  if (List.length (usp_keys q) =? 0)%nat then Ret (VObj [("results", VArr [])])
  else
    res <- fetch (DiscogsSearchReq q (DISCOGS_TOKEN env)) ;;
    if negb (ok res) then
      txt <- res_text res ;;
      Throw (DiscogsSearchError (status res) txt)
    else res_json res.

(** Lines 34-45. *)
Definition discogsReleaseStats (releaseId : value) : Prog value :=
  if negb (truthy releaseId) then Ret VNull
  else
    res <- fetch (DiscogsStatsReq (ToString B releaseId) (DISCOGS_TOKEN env)) ;;
    if negb (ok res) then Ret VNull
    else res_json res.

(** [!key] on [process.env.OPENAI_API_KEY]. *)
Definition no_key (key : option string) : bool :=
  match key with
  | None => true
  | Some k => String.eqb k ""
  end.

(** Lines 67-75, the body of the [try]. *)
Definition read_reply (meta : Meta) (data : value) : Prog Meta :=
  choices <- lift (get data "choices") ;;
  let content :=
    js_or (opt_get (opt_get (opt_index0 choices) "message") "content") (VStr "{}") in
  parsed <- match JSON_parse B (ToString B content) with
            | Some v => Ret v
            | None => Throw SyntaxError
            end ;;
  p_artist <- lift (get parsed "artist") ;;
  p_title <- lift (get parsed "title") ;;
  Ret {| artist := js_or p_artist (artist meta);
         title := js_or p_title (title meta);
         label := label meta;
         catno := catno meta;
         barcode := barcode meta |}.

(** Lines 48-77. *)
Definition aiNormalize (meta : Meta) : Prog Meta :=
  let key := OPENAI_API_KEY env in
  if no_key key then Ret meta
  else
    res <- fetch (OpenAIChatReq (match key with Some k => k | None => "" end) meta) ;;
    if negb (ok res) then Ret meta
    else
      data <- res_json res ;;
      try_catch (read_reply meta data) (fun _ => Ret meta).

(** [results.find(r => r.type === 'release')] on an array. *)
Definition is_release (r : value) : error + bool :=
  match get r "type" with
  | inl e => inl e
  | inr (VStr s) => inr (String.eqb s "release")
  | inr _ => inr false
  end.

Fixpoint find_release (items : list value) : error + value :=
  match items with
  | [] => inr VUndefined
  | r :: rest =>
      match is_release r with
      | inl e => inl e
      | inr true => inr r
      | inr false => find_release rest
      end
  end.

(** [results?.find(...)]: nothing on null/undefined, the search on an
    array; any other value has no callable [find]. *)
Definition opt_find_release (results : value) : error + value :=
  match results with
  | VUndefined | VNull => inr VUndefined
  | VArr items => find_release items
  | _ => inl TypeError
  end.

(** Line 89. *)
Definition pick_first (search : value) : error + value :=
  match get search "results" with
  | inl e => inl e
  | inr results =>
      match opt_find_release results with
      | inl e => inl e
      | inr found =>
          if truthy found then inr found
          else
            match get search "results" with
            | inl e => inl e
            | inr results' => inr (opt_index0 results')
            end
      end
  end.

(** Lines 104-109. *)
Definition lowest_of (stats : value) : value :=
  js_coalesce (opt_get (opt_get stats "lowest_price") "value") VNull.

Definition count_of (stats : value) : value :=
  js_coalesce (opt_get stats "num_for_sale") (VNum num_0).

Definition estimated_of (lowest count : value) : value :=
  if negb (nullish lowest) then
    if js_gt B count num_5
    then VNum (PrimFloat.div (Math_round (PrimFloat.mul (js_mul B lowest num_1_3) num_100)) num_100)
    else lowest
  else VNull.

(** Lines 90-98. *)
Definition no_results (clean : Meta) (search : value) : Prog Estimate :=
  pagination <- lift (get search "pagination") ;;
  Ret {| source := "discogs";
         lowest_price := VNull;
         median_price := VNull;
         estimated_price := VNull;
         extras := ExtrasNone
           {| note := "no results";
              query := clean;
              search_count := js_or (opt_get pagination "items") (VNum num_0) |} |}.

(** Lines 100-127. *)
Definition price_candidate (first : value) : Prog Estimate :=
  sleep 150 ;;
  first_id <- lift (get first "id") ;;
  stats <- discogsReleaseStats first_id ;;
  let lowest := lowest_of stats in
  let count := count_of stats in
  let estimated := estimated_of lowest count in
  f_id <- lift (get first "id") ;;
  f_title <- lift (get first "title") ;;
  f_country <- lift (get first "country") ;;
  f_year <- lift (get first "year") ;;
  f_label <- lift (get first "label") ;;
  f_catno <- lift (get first "catno") ;;
  f_community <- lift (get first "community") ;;
  Ret {| source := "discogs";
         lowest_price := lowest;
         median_price := VNull;
         estimated_price := estimated;
         extras := ExtrasMatch
           {| Matched.release_id := f_id;
              Matched.title := f_title;
              Matched.country := f_country;
              Matched.year := f_year;
              Matched.label := f_label;
              Matched.catno := f_catno;
              Matched.community_have := opt_get f_community "have";
              Matched.community_want := opt_get f_community "want";
              Matched.num_for_sale := js_coalesce (opt_get stats "num_for_sale") VNull |} |}.

(** Lines 84-127: the pipeline once the metadata to search with is fixed. *)
Definition estimateFromClean (clean : Meta) : Prog Estimate :=
  sleep 150 ;;
  search <- discogsSearch clean ;;
  first <- lift (pick_first search) ;;
  if negb (truthy first) then no_results clean search
  else price_candidate first.

(** Lines 80-128. *)
Definition estimateFromMetadata (meta : Meta) : Prog Estimate :=
  clean <- aiNormalize meta ;;
  estimateFromClean clean.

End WithHost.

End Estimate.

(* ================================================================== *)
(** ** queue.js *)

Module JobQueue.

Record Backoff : Type := {
  backoff_type : string;
  delay : Z
}.

Record KeepJobs : Type := {
  age : Z;
  count : Z
}.

Record JobsOptions : Type := {
  attempts : Z;
  backoff : Backoff;
  removeOnComplete : KeepJobs;
  removeOnFail : KeepJobs
}.

Record Job : Type := {
  id : Z;
  name : string;
  data : value;
  opts : JobsOptions
}.

(** The BullMQ queue [q], by the jobs added to it; [add] stores the job
    under a fresh id with the options it was given and resolves to it. *)
Record Queue : Type := {
  queue_name : string;
  jobs : list Job
}.

Definition JOB_QUEUE : string := "vinyl-jobs".

Definition new_Queue (nm : string) : Queue :=
  {| queue_name := nm; jobs := [] |}.

Definition add (q : Queue) (nm : string) (d : value) (o : JobsOptions) : Job * Queue :=
  let job := {| id := Z.of_nat (List.length (jobs q)) + 1; name := nm; data := d; opts := o |} in
  (job, {| queue_name := queue_name q; jobs := jobs q ++ [job] |}).

(** Lines 149-156 of the listing. *)
Definition enqueue (q : Queue) (nm : string) (d : value) : Job * Queue :=
  add q nm d
    {| attempts := 5;
       backoff := {| backoff_type := "exponential"; delay := 2000 |};
       removeOnComplete := {| age := 3600; count := 5000 |};
       removeOnFail := {| age := 86400; count := 1000 |} |}.

End JobQueue.

(* ================================================================== *)
(** ** worker.js *)

Module Worker.

Import Estimate.

Definition meta_value (m : Meta) : value :=
  VObj [("artist", artist m); ("title", title m); ("label", label m);
        ("catno", catno m); ("barcode", barcode m)].

Definition extras_value (x : Extras) : value :=
  match x with
  | ExtrasNone n =>
      VObj [("note", VStr (note n)); ("query", meta_value (query n));
            ("search_count", search_count n)]
  | ExtrasMatch m =>
      VObj [("release_id", Matched.release_id m); ("title", Matched.title m);
            ("country", Matched.country m); ("year", Matched.year m);
            ("label", Matched.label m); ("catno", Matched.catno m);
            ("community_have", Matched.community_have m);
            ("community_want", Matched.community_want m);
            ("num_for_sale", Matched.num_for_sale m)]
  end.

(** The two statements; the line breaks of the second are written as
    single spaces. *)
Definition select_record : string := "select * from records where id=$1".
Definition insert_estimate : string :=
  "insert into price_estimates (record_id, source, lowest_price, median_price, estimated_price, extras) values ($1,$2,$3,$4,$5,$6)".

Section WithHost.

Variable B : Builtins.
Variable env : Env.

(** Lines 22-58: the processor handed to [new Worker]. *)
Definition processor (job : JobQueue.Job) : Prog value :=
  let kind := JobQueue.name job in
  let data := JobQueue.data job in
  if String.eqb kind "estimate" then
    recordId <- lift (get data "recordId") ;;
    rows <- pool_query select_record [recordId] ;;
    match rows with
    | [] => Throw (RecordNotFound recordId)
    | record :: _ =>
        r_artist <- lift (get record "artist") ;;
        r_title <- lift (get record "title") ;;
        r_label <- lift (get record "label") ;;
        r_catno <- lift (get record "catno") ;;
        r_barcode <- lift (get record "barcode") ;;
        let meta := {| artist := r_artist; title := r_title; label := r_label;
                       catno := r_catno; barcode := r_barcode |} in
        out <- estimateFromMetadata B env meta ;;
        pool_query insert_estimate
          [recordId; VStr (source out); lowest_price out; median_price out;
           estimated_price out; extras_value (extras out)] ;;
        Ret (VObj [("recordId", recordId); ("done", VBool true);
                   ("est", estimated_price out)])
    end
  else Ret (VObj [("ok", VBool true)]).

End WithHost.

End Worker.

(* ================================================================== *)
(** ** db.js and the start-up guard of queue.js and worker.js *)

Module Boot.

Import Ascii.

(** Strings hold their code units; the ones written here are those below
    256.  [toLowerCase] on them: A-Z and the capital letters of Latin-1. *)
Definition toLowerCase_char (c : Ascii.ascii) : Ascii.ascii :=
  let n := Ascii.N_of_ascii c in
  if ((65 <=? n) && (n <=? 90))%N then Ascii.ascii_of_N (n + 32)
  else if ((192 <=? n) && (n <=? 222) && negb (n =? 215))%N then Ascii.ascii_of_N (n + 32)
  else c.

Fixpoint toLowerCase (s : string) : string :=
  match s with
  | EmptyString => EmptyString
  | String c rest => String (toLowerCase_char c) (toLowerCase rest)
  end.

(** [s.startsWith(p)]. *)
Definition startsWith (s p : string) : bool := String.prefix p s.

(** db.js, lines 5-6. *)
Definition needsSSL (DATABASE_SSL : option string) : bool :=
  match DATABASE_SSL with
  | None => true
  | Some v => String.eqb v "" || negb (String.eqb (toLowerCase v) "false")
  end.

(** db.js, lines 8-13: the options of the pool. *)
Inductive SslOption : Type :=
| SslOff                                   (* ssl: false *)
| SslUnverified.                           (* ssl: { rejectUnauthorized: false } *)

Record PoolConfig : Type := {
  connectionString : option string;
  ssl : SslOption;
  max : Z;
  idleTimeoutMillis : Z
}.

Definition pool (DATABASE_URL DATABASE_SSL : option string) : PoolConfig :=
  {| connectionString := DATABASE_URL;
     ssl := if needsSSL DATABASE_SSL then SslUnverified else SslOff;
     max := 10;
     idleTimeoutMillis := 30000 |}.

(** queue.js lines 138-143 and worker.js lines 11-16: the module throws
    unless REDIS_URL starts with rediss://, and connects to it otherwise. *)
Inductive boot_error : Type :=
| RedisUrlNotTLS.          (* new Error('REDIS_URL must start with rediss:// (Upstash TLS).') *)

Definition connection (REDIS_URL : option string) : boot_error + string :=
  let url := match REDIS_URL with Some u => u | None => "" end in
  if negb (startsWith url "rediss://") then inl RedisUrlNotTLS
  else inr url.

(** The word false in any mix of capitals and small letters. *)
Definition either (lo up c : Ascii.ascii) : bool := Ascii.eqb c lo || Ascii.eqb c up.

Definition spells_false (s : string) : bool :=
  match s with
  | String f (String a (String l (String s' (String e EmptyString)))) =>
      either "f"%char "F"%char f && either "a"%char "A"%char a &&
      either "l"%char "L"%char l && either "s"%char "S"%char s' &&
      either "e"%char "E"%char e
  | _ => false
  end.

End Boot.

(* ================================================================== *)
(** ** server.js: the record and estimate routes *)

Module Server.

Import JobQueue.

(** White space and line terminators of the language, among the code units
    below 256: TAB, LF, VT, FF, CR, SP, NBSP. *)
Definition is_space (c : Ascii.ascii) : bool :=
  let n := Ascii.N_of_ascii c in
  ((n =? 9) || (n =? 10) || (n =? 11) || (n =? 12) || (n =? 13) || (n =? 32)
   || (n =? 160))%N.

Fixpoint trimStart (s : string) : string :=
  match s with
  | EmptyString => EmptyString
  | String c rest => if is_space c then trimStart rest else s
  end.

Fixpoint trimEnd (s : string) : string :=
  match s with
  | EmptyString => EmptyString
  | String c rest =>
      match trimEnd rest with
      | EmptyString => if is_space c then EmptyString else String c EmptyString
      | t => String c t
      end
  end.

(** [s.trim()] and [s.slice(0, n)]. *)
Definition trim (s : string) : string := trimEnd (trimStart s).
Definition slice0 (n : nat) (s : string) : string := String.substring 0 n s.

(** Lines 72-73. *)
Definition clean (v : value) : value :=
  match v with
  | VStr s => VStr (slice0 300 (trim s))
  | _ => js_coalesce v VNull
  end.

(** The request, as far as the routes read it, and the replies they
    send. *)
Record HttpRequest : Type := {
  body : value;                    (* req.body *)
  param_id : string;               (* req.params.id *)
  query : value;                   (* req.query *)
  header : string -> value         (* req.get(name) *)
}.

Inductive Reply : Type :=
| Json (code : Z) (payload : value)   (* res.status(code).json(payload), code 200 by default *)
| Enqueued (jobId : Z)                (* res.json({ enqueued: true, jobId: job.id }) *)
| InitFailed (e : error)              (* res.status(500).json({ error: 'init_failed', detail: String(e) }) *)
| NoContent.                          (* res.status(204).end() *)

Definition error_body (msg : string) : value := VObj [("error", VStr msg)].
Definition server_error : Reply := Json 500 (error_body "server_error").

(** The statements, line breaks written as single spaces. *)
Definition insert_record : string :=
  "insert into records (image_url, artist, title, label, catno, barcode) values ($1,$2,$3,$4,$5,$6) returning id".
Definition select_exists : string := "select 1 from records where id=$1".
Definition select_latest : string :=
  "select id, source, lowest_price, median_price, estimated_price, extras, created_at from price_estimates where record_id=$1 order by id desc limit 1".
Definition select_page : string :=
  "select id, image_url, artist, title, label, catno, barcode, created_at from records where id > $1 order by id limit $2".
Definition create_tables : string :=
  "create table if not exists records ( id serial primary key, image_url text not null, artist text, title text, label text, catno text, barcode text, created_at timestamptz default now() ); create table if not exists price_estimates ( id serial primary key, record_id int references records(id) on delete cascade, source text, lowest_price numeric, median_price numeric, estimated_price numeric, extras jsonb, created_at timestamptz default now() ); create index if not exists idx_price_estimates_record_id_created on price_estimates (record_id, created_at desc);".

Definition is_string (v : value) : bool :=
  match v with
  | VStr _ => true
  | _ => false
  end.

(** [Math.min(a, b)]. *)
Definition Math_min (a b : float) : float :=
  if PrimFloat.is_nan a || PrimFloat.is_nan b then PrimFloat.nan
  else if PrimFloat.ltb a b then a
  else if PrimFloat.ltb b a then b
  else if PrimFloat.is_zero a && PrimFloat.get_sign b then b
  else a.

(** [!Number.isFinite(recordId) || recordId <= 0]. *)
Definition bad_record_id (recordId : float) : bool :=
  negb (PrimFloat.is_finite recordId) || PrimFloat.leb recordId num_0.

(** [token !== process.env.INIT_TOKEN], the right side a string. *)
Definition differs (token : value) (expected : string) : bool :=
  match token with
  | VStr s => negb (String.eqb s expected)
  | _ => true
  end.

Section WithHost.

Variable B : Builtins.

(** Lines 65-87: POST /api/records. *)
Definition create_record (req : HttpRequest) : Prog Reply :=
  try_catch
    (let b := js_or (body req) (VObj []) in
     image_url <- lift (get b "image_url") ;;
     artist <- lift (get b "artist") ;;
     title <- lift (get b "title") ;;
     label <- lift (get b "label") ;;
     catno <- lift (get b "catno") ;;
     barcode <- lift (get b "barcode") ;;
     if negb (truthy image_url) || negb (is_string image_url) then
       Ret (Json 400 (error_body "image_url required"))
     else
       rows <- pool_query insert_record
                 [clean image_url; clean artist; clean title; clean label;
                  clean catno; clean barcode] ;;
       row_id <- lift (get (nth 0 rows VUndefined) "id") ;;
       Ret (Json 200 (VObj [("id", row_id)])))
    (fun _ => Ret server_error).

(** Lines 90-106: POST /api/records/:id/estimate.  [q] is the queue before
    the call, [redis] the error [q.add] rejects with when the queue cannot
    be reached; [rowCount] of a select is the number of rows returned. *)
Definition request_estimate (q : Queue) (redis : option error) (req : HttpRequest)
  : Prog (Reply * Queue) :=
  try_catch
    (let recordId := ToNumber B (VStr (param_id req)) in
     if bad_record_id recordId then Ret (Json 400 (error_body "bad_record_id"), q)
     else
       rows <- pool_query select_exists [VNum recordId] ;;
       if (List.length rows =? 0)%nat then
         Ret (Json 404 (error_body "record_not_found"), q)
       else
         match redis with
         | Some e => Throw e
         | None =>
             let added :=
               enqueue q "estimate"
                 (VObj [("kind", VStr "estimate"); ("recordId", VNum recordId)]) in
             Ret (Enqueued (id (fst added)), snd added)
         end)
    (fun _ => Ret (server_error, q)).

(** Lines 109-131: GET /api/records/:id/estimate. *)
Definition latest_estimate (req : HttpRequest) : Prog Reply :=
  try_catch
    (let recordId := ToNumber B (VStr (param_id req)) in
     if bad_record_id recordId then Ret (Json 400 (error_body "bad_record_id"))
     else
       rows <- pool_query select_latest [VNum recordId] ;;
       if (List.length rows =? 0)%nat then Ret NoContent
       else Ret (Json 200 (nth 0 rows VUndefined)))
    (fun _ => Ret server_error).

(** Lines 134-154: GET /api/records. *)
Definition list_records (req : HttpRequest) : Prog Reply :=
  try_catch
    (after <- lift (get (query req) "after") ;;
     let afterId := ToNumber B (js_or after (VNum num_0)) in
     lim <- lift (get (query req) "limit") ;;
     let limit := Math_min (ToNumber B (js_or lim (VNum 100%float))) 200%float in
     rows <- pool_query select_page [VNum afterId; VNum limit] ;;
     nextCursor <- (if (0 <? List.length rows)%nat
                    then lift (get (last rows VUndefined) "id")
                    else Ret VNull) ;;
     Ret (Json 200 (VObj [("items", VArr rows); ("nextCursor", nextCursor)])))
    (fun _ => Ret server_error).

(** Lines 157-194: POST /admin/init. *)
Definition admin_init (INIT_TOKEN : option string) (req : HttpRequest) : Prog Reply :=
  q_token <- (if truthy (header req "x-init-token") then Ret VUndefined
              else lift (get (query req) "token")) ;;
  let token := js_or (header req "x-init-token") q_token in
  if Estimate.no_key INIT_TOKEN
     || differs token (match INIT_TOKEN with Some t => t | None => "" end)
  then Ret (Json 403 (error_body "forbidden"))
  else
    try_catch
      (pool_query create_tables [] ;;
       Ret (Json 200 (VObj [("ok", VBool true)])))
      (fun e => Ret (InitFailed e)).

End WithHost.

End Server.


(* ================================================================== *)
(** ** Strings as sequences of UTF-16 code units *)

Module Text.

(** A string value of the language is a sequence of 16-bit code units;
    [trim] and [slice] work on code units.  [units] gives the code units of
    a string all of whose code units are below 256. *)
Definition text : Type := list N.

Definition units (s : string) : text :=
  map Ascii.N_of_ascii (list_ascii_of_string s).

(** WhiteSpace: TAB, VT, FF, ZWNBSP and the space separators SP, NBSP,
    U+1680, U+2000 to U+200A, U+202F, U+205F, U+3000. *)
Definition WhiteSpace (u : N) : bool :=
  ((u =? 0x9) || (u =? 0xB) || (u =? 0xC) || (u =? 0xFEFF)
   || (u =? 0x20) || (u =? 0xA0) || (u =? 0x1680)
   || ((0x2000 <=? u) && (u <=? 0x200A))
   || (u =? 0x202F) || (u =? 0x205F) || (u =? 0x3000))%N.

(** LineTerminator: LF, CR, LS, PS. *)
Definition LineTerminator (u : N) : bool :=
  ((u =? 0xA) || (u =? 0xD) || (u =? 0x2028) || (u =? 0x2029))%N.

(** The code units [trim] strips. *)
Definition is_space (u : N) : bool := WhiteSpace u || LineTerminator u.

Fixpoint trimStart (t : text) : text :=
  match t with
  | [] => []
  | u :: rest => if is_space u then trimStart rest else t
  end.

Fixpoint trimEnd (t : text) : text :=
  match t with
  | [] => []
  | u :: rest =>
      match trimEnd rest with
      | [] => if is_space u then [] else [u]
      | r => u :: r
      end
  end.

(** [t.trim()] and [t.slice(0, n)]. *)
Definition trim (t : text) : text := trimEnd (trimStart t).
Definition slice0 (n : nat) (t : text) : text := firstn n t.

(** [v.trim().slice(0, 300)] of lines 72-73, on a string [v]. *)
Definition clean (t : text) : text := slice0 300 (trim t).

(** Ideographic space, four katakana, em space: a title
    padded with white space outside Latin-1. *)
Definition padded_title : text := [0x3000; 0x30EC; 0x30B3; 0x30FC; 0x30C9; 0x2003]%N.

End Text.
(* ================================================================== *)
(** ** Notions of the specification, and what the pipeline builds *)

Module Spec.

Import Estimate.

(** "round(x, 2 decimal places)": scale by 100, round to the nearest
    integer, scale back; on binary64 numbers. *)
Definition round_2dp (x : float) : float :=
  PrimFloat.div (Math_round (PrimFloat.mul x num_100)) num_100.

(** Rounding to cents against exact arithmetic.  A price of [k] cents is
    the double nearest to [k/100]. *)
Definition cents (k : Z) : float := PrimFloat.div (Z2float k) num_100.

(** 1.3 times a price of [k] cents is [13k/10] cents exactly;
    [nearest_cents k] is the whole number of cents nearest to it, half a
    cent going up.  The product is at half a cent when [k] ends in 5. *)
Definition nearest_cents (k : Z) : Z := (13 * k + 5) / 10.

Definition at_half_cent (k : Z) : bool := k mod 10 =? 5.

(** The whole number of cents nearest to a positive finite double, half a
    cent going up, in exact arithmetic: the double is [m * 2^e]. *)
Definition to_cents (p : float) : Z :=
  match Prim2SF p with
  | S754_finite false m e =>
      if e <? 0 then (200 * Z.pos m + 2 ^ (- e)) / 2 ^ (1 - e)
      else 100 * Z.pos m * 2 ^ e
  | _ => 0
  end.

(** What line 108 computes on a price of [k] cents, against the nearest
    cent: the same amount, or, at half a cent, the cent below. *)
Definition uplift_checked (k : Z) : bool :=
  let e := round_2dp (PrimFloat.mul (cents k) num_1_3) in
  PrimFloat.Leibniz.eqb e (cents (nearest_cents k)) ||
  (at_half_cent k && PrimFloat.Leibniz.eqb e (cents (nearest_cents k - 1))).

Fixpoint checked_from (n : nat) (k : Z) : bool :=
  match n with
  | O => true
  | S n' => uplift_checked k && checked_from n' (k + 1)
  end.

(** The prices the comparison is run on: 0.01 to 300.00. *)
Definition price_bound : Z := 30000.

(** The object lines 111-127 build from the candidate and its statistics. *)
Definition priced (B : Builtins) (first stats : value) : Estimate :=
  {| source := "discogs";
     lowest_price := lowest_of stats;
     median_price := VNull;
     estimated_price := estimated_of B (lowest_of stats) (count_of stats);
     extras := ExtrasMatch
       {| Matched.release_id := opt_get first "id";
          Matched.title := opt_get first "title";
          Matched.country := opt_get first "country";
          Matched.year := opt_get first "year";
          Matched.label := opt_get first "label";
          Matched.catno := opt_get first "catno";
          Matched.community_have := opt_get (opt_get first "community") "have";
          Matched.community_want := opt_get (opt_get first "community") "want";
          Matched.num_for_sale := js_coalesce (opt_get stats "num_for_sale") VNull |} |}.

(** The object lines 91-97 build. *)
Definition unmatched (clean : Meta) (search : value) : Estimate :=
  {| source := "discogs";
     lowest_price := VNull;
     median_price := VNull;
     estimated_price := VNull;
     extras := ExtrasNone
       {| note := "no results";
          query := clean;
          search_count :=
            js_or (opt_get (opt_get search "pagination") "items") (VNum num_0) |} |}.

(** The text of the first choice of a chat completion, ['{}'] when there
    is none (line 67, once [data] is known not to be null). *)
Definition reply_content (data : value) : value :=
  js_or (opt_get (opt_get (opt_index0 (opt_get data "choices")) "message") "content")
        (VStr "{}").

(** The metadata lines 66-76 produce from a decoded response body. *)
Definition normalized (B : Builtins) (meta : Meta) (data : value) : Meta :=
  if nullish data then meta
  else
    match JSON_parse B (ToString B (reply_content data)) with
    | None => meta
    | Some parsed =>
        if nullish parsed then meta
        else {| artist := js_or (opt_get parsed "artist") (artist meta);
                title := js_or (opt_get parsed "title") (title meta);
                label := label meta;
                catno := catno meta;
                barcode := barcode meta |}
    end.

(** A value of a reply that is missing or an empty string. *)
Definition missing_or_empty (v : value) : Prop :=
  v = VUndefined \/ v = VStr "".

(** A response of the normalizer that cannot be parsed: its body is not
    JSON, or the body is and the text of the reply in it is not. *)
Definition body_undecodable (res : Response) : Prop := json res = None.

Definition reply_unparsable (B : Builtins) (res : Response) : Prop :=
  exists data, json res = Some data /\
               JSON_parse B (ToString B (reply_content data)) = None.

(** An external call that failed: no response at all, or a response with a
    non-success status. *)
Definition call_failed (ans : FetchResult) : Prop :=
  match ans with
  | Rejected => True
  | Resolved res => ok res = false
  end.

(** All three price fields of a result are null. *)
Definition null_prices (r : Estimate) : Prop :=
  lowest_price r = VNull /\ median_price r = VNull /\ estimated_price r = VNull.

(** The specification's reading of step 4: whenever the statistics call of
    a run fails, the run still returns, with null prices. *)
Definition stats_failure_swallowed (B : Builtins) (env : Env) (w : World) : Prop :=
  forall (meta clean : Meta) (search first : value) (tr0 tr1 tr2 : list Event),
    run w tr0 (aiNormalize B env meta) = (Returned clean, tr1) ->
    run w (tr1 ++ [EvSleep 150]) (discogsSearch B env clean) = (Returned search, tr2) ->
    pick_first search = inr first ->
    truthy first = true ->
    call_failed (net w (tr2 ++ [EvSleep 150])
                   (DiscogsStatsReq (ToString B (opt_get first "id")) (DISCOGS_TOKEN env))) ->
    exists r tr3,
      run w tr0 (estimateFromMetadata B env meta) = (Returned r, tr3) /\ null_prices r.

(** The specification's reading of step 1 for a response that cannot be
    parsed: the normalizer hands back its input. *)
Definition unparsable_falls_back (B : Builtins) (env : Env) (w : World) : Prop :=
  forall (meta : Meta) (tr : list Event) (k : string) (res : Response),
    OPENAI_API_KEY env = Some k ->
    net w tr (OpenAIChatReq k meta) = Resolved res ->
    body_undecodable res \/ reply_unparsable B res ->
    exists tr', run w tr (aiNormalize B env meta) = (Returned meta, tr').

(** The specification's readings of the uplift: with more than 5 listings
    the estimate is the whole number of cents nearest to 1.3 times the
    lowest price; the product taken exactly, on a price of whole cents, or
    taken as the double the multiplication gives. *)
Definition uplift_of_exact_product (B : Builtins) (env : Env) (w : World) : Prop :=
  forall (meta : Meta) (tr tr' : list Event) (r : Estimate) (x : Matched.t)
         (k : Z) (C : float),
    run w tr (estimateFromMetadata B env meta) = (Returned r, tr') ->
    extras r = ExtrasMatch x ->
    lowest_price r = VNum (cents k) ->
    Matched.num_for_sale x = VNum C ->
    PrimFloat.ltb num_5 C = true ->
    estimated_price r = VNum (cents (nearest_cents k)).

Definition uplift_of_double_product (B : Builtins) (env : Env) (w : World) : Prop :=
  forall (meta : Meta) (tr tr' : list Event) (r : Estimate) (x : Matched.t)
         (L C : float),
    run w tr (estimateFromMetadata B env meta) = (Returned r, tr') ->
    extras r = ExtrasMatch x ->
    lowest_price r = VNum L ->
    Matched.num_for_sale x = VNum C ->
    PrimFloat.ltb num_5 C = true ->
    estimated_price r = VNum (cents (to_cents (PrimFloat.mul L num_1_3))).

(** The metadata [worker.js] reads off a row of [records] (lines 34-40). *)
Definition meta_of_row (record : value) : Meta :=
  {| artist := opt_get record "artist";
     title := opt_get record "title";
     label := opt_get record "label";
     catno := opt_get record "catno";
     barcode := opt_get record "barcode" |}.

(** The search fields of a record under the names the query gives them. *)
Definition named_fields (m : Meta) : list (string * value) :=
  [("artist", artist m); ("release_title", title m);
   ("catno", catno m); ("barcode", barcode m)].

(** A metadata field as records carry it: a text, or nothing. *)
Definition text_or_absent (v : value) : Prop :=
  match v with
  | VUndefined | VNull | VStr _ => True
  | _ => False
  end.

Definition text_fields (m : Meta) : Prop :=
  text_or_absent (artist m) /\ text_or_absent (title m) /\
  text_or_absent (catno m) /\ text_or_absent (barcode m).

(** "Whichever of artist/title/catno/barcode are non-empty". *)
Definition nonempty_text (v : value) : option string :=
  match v with
  | VStr (String c s) => Some (String c s)
  | _ => None
  end.

Definition expected_query (m : Meta) : list (string * string) :=
  flat_map (fun p => match nonempty_text (snd p) with
                     | Some s => [(fst p, s)]
                     | None => []
                     end)
           (named_fields m).

(** An entry of the result list that is a release. *)
Definition release_entry (r : value) : Prop := opt_get r "type" = VStr "release".

(** An entry that is an object or another non-null value, and no release. *)
Definition other_entry (r : value) : Prop :=
  nullish r = false /\ opt_get r "type" <> VStr "release".

End Spec.

(* ================================================================== *)
(** ** Concrete hosts, worlds and records *)

Module Scenario.

Import Estimate.

(** A world that answers by kind of request, whatever happened before. *)
Definition serve (ai search stats : FetchResult) (rows : list value) : World :=
  {| net := fun _ rq =>
       match rq with
       | OpenAIChatReq _ _ => ai
       | DiscogsSearchReq _ _ => search
       | DiscogsStatsReq _ _ => stats
       end;
     db := fun _ _ _ => QRows rows |}.

Definition http (code : Z) (body : string) (decoded : option value) : FetchResult :=
  Resolved {| status := code; text := body; json := decoded |}.

(** The text of a reply, as JSON: an artist and an empty title. *)
Definition dquote : string := String (Ascii.ascii_of_nat 34) EmptyString.

Definition json_member (k v : string) : string :=
  String.append dquote
    (String.append k
       (String.append dquote
          (String.append ":"
             (String.append dquote (String.append v dquote))))).

Definition reply_text : string :=
  String.append "{"
    (String.append (json_member "artist" "Miles Davis")
       (String.append ","
          (String.append (json_member "title" "") "}"))).

Definition reply_object : value :=
  VObj [("artist", VStr "Miles Davis"); ("title", VStr "")].

(** A host that parses the two JSON texts met below and rejects any other
    text, and prints the few numbers met below. *)
Definition host : Builtins :=
  {| JSON_parse := fun s =>
       if String.eqb s reply_text then Some reply_object
       else if String.eqb s "{}" then Some (VObj [])
       else None;
     ToNumber_host := fun _ => PrimFloat.nan;
     ToString_host := fun v =>
       match v with
       | VNum n =>
           if PrimFloat.eqb n 42%float then "42"
           else if PrimFloat.eqb n 7%float then "7"
           else if PrimFloat.eqb n 1%float then "1"
           else "0"
       | _ => "[object Object]"
       end |}.

Definition env_plain : Env :=
  {| OPENAI_API_KEY := None; DISCOGS_TOKEN := Some "token" |}.
Definition env_ai : Env :=
  {| OPENAI_API_KEY := Some "sk-test"; DISCOGS_TOKEN := Some "token" |}.

Definition meta_ab : Meta :=
  {| artist := VStr "Artist A"; title := VStr "Title B";
     label := VUndefined; catno := VUndefined; barcode := VUndefined |}.

Definition meta_unknown : Meta :=
  {| artist := VStr "Unknown"; title := VUndefined;
     label := VUndefined; catno := VUndefined; barcode := VUndefined |}.

Definition meta_noisy : Meta :=
  {| artist := VStr "miles davis "; title := VStr "Kind Of Blue";
     label := VStr "Columbia"; catno := VStr "CL 1355"; barcode := VNull |}.

Definition meta_blank : Meta :=
  {| artist := VStr ""; title := VNull;
     label := VStr "Columbia"; catno := VUndefined; barcode := VStr "" |}.

Definition release42 : value :=
  VObj [("id", VNum 42%float); ("type", VStr "release"); ("title", VStr "Title B")].
Definition master7 : value :=
  VObj [("id", VNum 7%float); ("type", VStr "master"); ("title", VStr "Title B")].
Definition entry_no_id : value :=
  VObj [("type", VStr "release"); ("title", VStr "Title B")].

Definition search_body (items : list value) (total : float) : value :=
  VObj [("pagination", VObj [("items", VNum total)]); ("results", VArr items)].

Definition stats_body (lowest listings : float) : value :=
  VObj [("lowest_price", VObj [("currency", VStr "USD"); ("value", VNum lowest)]);
        ("num_for_sale", VNum listings)].

Definition stats_unpriced : value :=
  VObj [("lowest_price", VNull); ("num_for_sale", VNum 0%float)].

Definition chat_body (content : string) : value :=
  VObj [("choices", VArr [VObj [("message", VObj [("content", VStr content)])]])].

Definition found42 : FetchResult := http 200 "" (Some (search_body [release42] 1%float)).

(** The scenario of the specification: one release, id 42, lowest price 10,
    8 listings. *)
Definition w_priced : World :=
  serve Rejected found42 (http 200 "" (Some (stats_body 10%float 8%float))) [].

Definition w_few_listings : World :=
  serve Rejected found42 (http 200 "" (Some (stats_body 10%float 3%float))) [].

(** Lowest prices 0.35 and 0.85, 8 listings: 1.3 times the price is at
    half a cent. *)
Definition w_half_cent : World :=
  serve Rejected found42 (http 200 "" (Some (stats_body (Spec.cents 35) 8%float))) [].

Definition w_half_cent_up : World :=
  serve Rejected found42 (http 200 "" (Some (stats_body (Spec.cents 85) 8%float))) [].

Definition w_unpriced : World :=
  serve Rejected found42 (http 200 "" (Some stats_unpriced)) [].

Definition w_nothing_found : World :=
  serve Rejected (http 200 "" (Some (search_body [] 0%float))) Rejected [].

Definition w_search_refused : World :=
  serve Rejected (http 500 "internal error" None) Rejected [].

Definition w_stats_refused : World :=
  serve Rejected found42 (http 404 "not found" None) [].

Definition w_stats_unreachable : World :=
  serve Rejected found42 Rejected [].

Definition w_no_id : World :=
  serve Rejected (http 200 "" (Some (search_body [entry_no_id] 1%float))) Rejected [].

Definition w_ai_refused : World :=
  serve (http 429 "rate limited" None) found42
        (http 200 "" (Some (stats_body 10%float 8%float))) [].

Definition w_ai_not_json : World :=
  serve (http 200 "<html>gateway</html>" None) found42
        (http 200 "" (Some (stats_body 10%float 8%float))) [].

Definition w_ai_bad_content : World :=
  serve (http 200 "" (Some (chat_body "Sure! Here you go"))) found42
        (http 200 "" (Some (stats_body 10%float 8%float))) [].

Definition w_ai_reply : World :=
  serve (http 200 "" (Some (chat_body reply_text))) found42
        (http 200 "" (Some (stats_body 10%float 8%float))) [].

(** The histories the runs below leave behind. *)
Definition searched (q : list (string * string)) (ans : FetchResult) : list Event :=
  [EvSleep 150; EvFetch (DiscogsSearchReq q (Some "token")) ans].

Definition query_ab : list (string * string) :=
  [("artist", "Artist A"); ("release_title", "Title B")].

Definition looked_up (releaseId : string) (ans : FetchResult) : list Event :=
  [EvSleep 150; EvFetch (DiscogsStatsReq releaseId (Some "token")) ans].

Definition asked_ai (m : Meta) (ans : FetchResult) : list Event :=
  [EvFetch (OpenAIChatReq "sk-test" m) ans].

Definition record_row : value :=
  VObj [("id", VNum 1%float); ("image_url", VStr "http://img");
        ("artist", VStr "Artist A"); ("title", VStr "Title B");
        ("label", VNull); ("catno", VNull); ("barcode", VNull)].

Definition w_worker_search_refused : World :=
  serve Rejected (http 500 "internal error" None) Rejected [record_row].

Definition estimate_job : JobQueue.Job :=
  fst (JobQueue.enqueue (JobQueue.new_Queue JobQueue.JOB_QUEUE) "estimate"
         (VObj [("kind", VStr "estimate"); ("recordId", VNum 1%float)])).

End Scenario.

(* ================================================================== *)
(** ** The calls a run can make *)

Module Runs.

Import Estimate Spec.

(** Kinds of events. *)
Definition is_openai (ev : Event) : bool :=
  match ev with
  | EvFetch (OpenAIChatReq _ _) _ => true
  | _ => false
  end.

Definition is_search (ev : Event) : bool :=
  match ev with
  | EvFetch (DiscogsSearchReq _ _) _ => true
  | _ => false
  end.

Definition is_stats (ev : Event) : bool :=
  match ev with
  | EvFetch (DiscogsStatsReq _ _) _ => true
  | _ => false
  end.

Definition is_discogs (ev : Event) : bool := is_search ev || is_stats ev.

Definition is_query (ev : Event) : bool :=
  match ev with
  | EvQuery _ _ _ => true
  | _ => false
  end.

Definition is_rejected (ev : Event) : bool :=
  match ev with
  | EvFetch _ Rejected => true
  | _ => false
  end.


Definition count (f : Event -> bool) (evs : list Event) : nat :=
  List.length (filter f evs).



(** The events of [evs] of kind [f] all stand before those of kind [g]. *)
Fixpoint before (f g : Event -> bool) (evs : list Event) : bool :=
  match evs with
  | [] => true
  | ev :: rest => (negb (g ev) || negb (existsb f rest)) && before f g rest
  end.

Definition outcome_map {A C : Type} (f : A -> C) (o : Outcome A) : Outcome C :=
  match o with
  | Returned a => Returned (f a)
  | Thrown e => Thrown e
  end.

Section WithHost.

Variable B : Builtins.
Variable env : Env.

(** The events a call of [aiNormalize], [discogsSearch] and
    [discogsReleaseStats] adds to the history, with its outcome. *)
Inductive ai_run (meta : Meta) : list Event -> Outcome Meta -> Prop :=
| ai_skipped :
    no_key (OPENAI_API_KEY env) = true ->
    ai_run meta [] (Returned meta)
| ai_unreachable (k : string) :
    OPENAI_API_KEY env = Some k -> k <> "" ->
    ai_run meta [EvFetch (OpenAIChatReq k meta) Rejected] (Thrown FetchFailed)
| ai_refused (k : string) (res : Response) :
    OPENAI_API_KEY env = Some k -> k <> "" -> ok res = false ->
    ai_run meta [EvFetch (OpenAIChatReq k meta) (Resolved res)] (Returned meta)
| ai_undecodable (k : string) (res : Response) :
    OPENAI_API_KEY env = Some k -> k <> "" -> ok res = true -> json res = None ->
    ai_run meta [EvFetch (OpenAIChatReq k meta) (Resolved res)] (Thrown SyntaxError)
| ai_replied (k : string) (res : Response) (data : value) :
    OPENAI_API_KEY env = Some k -> k <> "" -> ok res = true -> json res = Some data ->
    ai_run meta [EvFetch (OpenAIChatReq k meta) (Resolved res)]
      (Returned (normalized B meta data)).

Definition search_request (clean : Meta) : Request :=
  DiscogsSearchReq (search_params B clean) (DISCOGS_TOKEN env).

Inductive search_run (clean : Meta) : list Event -> Outcome value -> Prop :=
| search_skipped :
    search_params B clean = [] ->
    search_run clean [] (Returned (VObj [("results", VArr [])]))
| search_unreachable :
    search_params B clean <> [] ->
    search_run clean [EvFetch (search_request clean) Rejected] (Thrown FetchFailed)
| search_refused (res : Response) :
    search_params B clean <> [] -> ok res = false ->
    search_run clean [EvFetch (search_request clean) (Resolved res)]
      (Thrown (DiscogsSearchError (status res) (text res)))
| search_undecodable (res : Response) :
    search_params B clean <> [] -> ok res = true -> json res = None ->
    search_run clean [EvFetch (search_request clean) (Resolved res)] (Thrown SyntaxError)
| search_answered (res : Response) (v : value) :
    search_params B clean <> [] -> ok res = true -> json res = Some v ->
    search_run clean [EvFetch (search_request clean) (Resolved res)] (Returned v).

Definition stats_request (releaseId : value) : Request :=
  DiscogsStatsReq (ToString B releaseId) (DISCOGS_TOKEN env).

Inductive stats_run (releaseId : value) : list Event -> Outcome value -> Prop :=
| stats_no_id :
    truthy releaseId = false ->
    stats_run releaseId [] (Returned VNull)
| stats_unreachable :
    truthy releaseId = true ->
    stats_run releaseId [EvFetch (stats_request releaseId) Rejected] (Thrown FetchFailed)
| stats_refused (res : Response) :
    truthy releaseId = true -> ok res = false ->
    stats_run releaseId [EvFetch (stats_request releaseId) (Resolved res)] (Returned VNull)
| stats_undecodable (res : Response) :
    truthy releaseId = true -> ok res = true -> json res = None ->
    stats_run releaseId [EvFetch (stats_request releaseId) (Resolved res)] (Thrown SyntaxError)
| stats_answered (res : Response) (v : value) :
    truthy releaseId = true -> ok res = true -> json res = Some v ->
    stats_run releaseId [EvFetch (stats_request releaseId) (Resolved res)] (Returned v).

(** The events a run of [estimateFromMetadata] adds, with its outcome. *)
Inductive pipeline_run (meta : Meta) : list Event -> Outcome Estimate -> Prop :=
| run_normalizer_threw (a : list Event) (e : error) :
    ai_run meta a (Thrown e) ->
    pipeline_run meta a (Thrown e)
| run_search_threw (a s : list Event) (clean : Meta) (e : error) :
    ai_run meta a (Returned clean) ->
    search_run clean s (Thrown e) ->
    pipeline_run meta (a ++ EvSleep 150 :: s) (Thrown e)
| run_selection_threw (a s : list Event) (clean : Meta) (search : value) (e : error) :
    ai_run meta a (Returned clean) ->
    search_run clean s (Returned search) ->
    pick_first search = inl e ->
    pipeline_run meta (a ++ EvSleep 150 :: s) (Thrown e)
| run_unmatched (a s : list Event) (clean : Meta) (search first : value) :
    ai_run meta a (Returned clean) ->
    search_run clean s (Returned search) ->
    pick_first search = inr first ->
    truthy first = false ->
    pipeline_run meta (a ++ EvSleep 150 :: s) (Returned (unmatched clean search))
| run_matched (a s t : list Event) (clean : Meta) (search first : value)
    (o : Outcome value) :
    ai_run meta a (Returned clean) ->
    search_run clean s (Returned search) ->
    pick_first search = inr first ->
    truthy first = true ->
    stats_run (opt_get first "id") t o ->
    pipeline_run meta (a ++ EvSleep 150 :: s ++ EvSleep 150 :: t)
      (outcome_map (priced B first) o).

End WithHost.

(** *** The worker *)

Definition is_select (ev : Event) : bool :=
  match ev with
  | EvQuery sql _ _ => String.eqb sql Worker.select_record
  | _ => false
  end.

Definition is_insert (ev : Event) : bool :=
  match ev with
  | EvQuery sql _ _ => String.eqb sql Worker.insert_estimate
  | _ => false
  end.

Definition is_fetch (ev : Event) : bool :=
  match ev with
  | EvFetch _ _ => true
  | _ => false
  end.

(** The parameters of the insert of lines 46-51 and the value the
    processor resolves to (line 53). *)
Definition snapshot_params (recordId : value) (out : Estimate) : list value :=
  [recordId; VStr (source out); lowest_price out; median_price out;
   estimated_price out; Worker.extras_value (extras out)].

Definition job_done (recordId : value) (out : Estimate) : value :=
  VObj [("recordId", recordId); ("done", VBool true); ("est", estimated_price out)].

Section Jobs.

Variable B : Builtins.
Variable env : Env.

(** The events a run of the processor adds on a job of kind 'estimate',
    with its outcome. *)
Inductive job_run (job : JobQueue.Job) : list Event -> Outcome value -> Prop :=
| job_no_payload (e : error) :
    get (JobQueue.data job) "recordId" = inl e ->
    job_run job [] (Thrown e)
| job_select_failed (rid : value) :
    get (JobQueue.data job) "recordId" = inr rid ->
    job_run job [EvQuery Worker.select_record [rid] QRejected] (Thrown QueryFailed)
| job_record_missing (rid : value) :
    get (JobQueue.data job) "recordId" = inr rid ->
    job_run job [EvQuery Worker.select_record [rid] (QRows [])]
      (Thrown (RecordNotFound rid))
| job_row_unreadable (rid record : value) (rest : list value) :
    get (JobQueue.data job) "recordId" = inr rid ->
    nullish record = true ->
    job_run job [EvQuery Worker.select_record [rid] (QRows (record :: rest))]
      (Thrown TypeError)
| job_pipeline_threw (rid record : value) (rest : list value)
    (pevs : list Event) (e : error) :
    get (JobQueue.data job) "recordId" = inr rid ->
    nullish record = false ->
    pipeline_run B env (meta_of_row record) pevs (Thrown e) ->
    job_run job (EvQuery Worker.select_record [rid] (QRows (record :: rest)) :: pevs)
      (Thrown e)
| job_insert_failed (rid record : value) (rest : list value)
    (pevs : list Event) (out : Estimate) :
    get (JobQueue.data job) "recordId" = inr rid ->
    nullish record = false ->
    pipeline_run B env (meta_of_row record) pevs (Returned out) ->
    job_run job
      (EvQuery Worker.select_record [rid] (QRows (record :: rest)) :: pevs ++
       [EvQuery Worker.insert_estimate (snapshot_params rid out) QRejected])
      (Thrown QueryFailed)
| job_stored (rid record : value) (rest : list value)
    (pevs : list Event) (out : Estimate) (rows : list value) :
    get (JobQueue.data job) "recordId" = inr rid ->
    nullish record = false ->
    pipeline_run B env (meta_of_row record) pevs (Returned out) ->
    job_run job
      (EvQuery Worker.select_record [rid] (QRows (record :: rest)) :: pevs ++
       [EvQuery Worker.insert_estimate (snapshot_params rid out) (QRows rows)])
      (Returned (job_done rid out)).

End Jobs.

End Runs.

(* ================================================================== *)
(** ** Notions and scenarios for the routes *)

Module Routes.

Import Estimate Spec Scenario Server.

(** A field of the posted body, as line 67 reads it. *)
Definition posted (req : HttpRequest) (k : string) : value :=
  opt_get (js_or (body req) (VObj [])) k.

(** The six parameters of the insert of POST /api/records. *)
Definition record_params (req : HttpRequest) : list value :=
  map (fun k => clean (posted req k))
      ["image_url"; "artist"; "title"; "label"; "catno"; "barcode"].

(** The test of line 68, passed. *)
Definition acceptable_image_url (v : value) : bool := truthy v && is_string v.

(** The record id of a route, [Number(req.params.id)]. *)
Definition record_id (B : Builtins) (req : HttpRequest) : float :=
  ToNumber B (VStr (param_id req)).

(** The payload of an estimate job (line 100). *)
Definition estimate_payload (recordId : float) : value :=
  VObj [("kind", VStr "estimate"); ("recordId", VNum recordId)].

(** The two parameters of the page query (lines 136-137). *)
Definition page_after (B : Builtins) (req : HttpRequest) : float :=
  ToNumber B (js_or (opt_get (query req) "after") (VNum num_0)).

Definition page_limit (B : Builtins) (req : HttpRequest) : float :=
  Math_min (ToNumber B (js_or (opt_get (query req) "limit") (VNum 100%float))) 200%float.

(** The page the route answers with (lines 148-149). *)
Definition page (rows : list value) : Reply :=
  Json 200
    (VObj [("items", VArr rows);
           ("nextCursor",
            match rows with
            | [] => VNull
            | _ :: _ => opt_get (last rows VUndefined) "id"
            end)]).

(** The token a request to /admin/init presents (line 158). *)
Definition presented_token (req : HttpRequest) : value :=
  js_or (header req "x-init-token") (opt_get (query req) "token").

(** The events of a list that are queries, as (statement, parameters). *)
Definition queries (evs : list Event) : list (string * list value) :=
  flat_map (fun ev => match ev with
                      | EvQuery sql ps _ => [(sql, ps)]
                      | _ => []
                      end) evs.

(** A text of [n] spaces, and one that does not fit the 300 characters:
    a letter, 299 spaces, a letter. *)
Fixpoint spaces (n : nat) : string :=
  match n with
  | O => EmptyString
  | S n' => String (Ascii.ascii_of_nat 32) (spaces n')
  end.

Definition long_text : string :=
  String.append "a" (String.append (spaces 299) "b").

(** Requests. *)
Definition no_header : string -> value := fun _ => VUndefined.

Definition request (b : value) (id : string) (q : value) : HttpRequest :=
  {| body := b; param_id := id; query := q; header := no_header |}.

Definition post_cover : HttpRequest :=
  request (VObj [("image_url", VStr " http://img/1.jpg "); ("artist", VStr "Artist A");
                 ("title", VStr "Title B")]) "" (VObj []).

Definition post_blank_url : HttpRequest :=
  request (VObj [("image_url", VStr "   ")]) "" (VObj []).

Definition post_nothing : HttpRequest := request VUndefined "" (VObj []).

Definition for_record (id : string) : HttpRequest := request VUndefined id (VObj []).

Definition page_request (lim : value) : HttpRequest :=
  request VUndefined "" (VObj [("limit", lim)]).

Definition init_request (token : value) : HttpRequest :=
  {| body := VUndefined; param_id := ""; query := VObj [];
     header := fun name => if String.eqb name "x-init-token" then token else VUndefined |}.

(** A host that reads the decimal texts met below. *)
Definition host_numbers : Builtins :=
  {| JSON_parse := JSON_parse host;
     ToNumber_host := fun v =>
       match v with
       | VStr s =>
           if String.eqb s "1" then 1%float
           else if String.eqb s "1.5" then 1.5%float
           else if String.eqb s "0" then 0%float
           else if String.eqb s "-3" then (-3)%float
           else if String.eqb s "5000" then 5000%float
           else PrimFloat.nan
       | _ => PrimFloat.nan
       end;
     ToString_host := ToString_host host |}.

(** Worlds that answer every query with the same rows, or not at all. *)
Definition db_rows (rows : list value) : World :=
  {| net := fun _ _ => Rejected; db := fun _ _ _ => QRows rows |}.

Definition db_down : World :=
  {| net := fun _ _ => Rejected; db := fun _ _ _ => QRejected |}.

Definition row_id (n : float) : value := VObj [("id", VNum n)].

(** Further worlds and jobs for the pipeline and the worker. *)
Definition w_worker_priced : World :=
  serve Rejected found42 (http 200 "" (Some (stats_body 10%float 8%float))) [record_row].

Definition w_worker_no_record : World :=
  serve Rejected found42 (http 200 "" (Some (stats_body 10%float 8%float))) [].

Definition w_no_result_list : World :=
  serve Rejected (http 200 "" (Some (VObj [("message", VStr "try later")]))) Rejected [].

Definition cleanup_job : JobQueue.Job :=
  {| JobQueue.id := 9; JobQueue.name := "cleanup"; JobQueue.data := VNull;
     JobQueue.opts := JobQueue.opts estimate_job |}.

Definition priced_run : Outcome Estimate * list Event :=
  run w_priced [] (estimateFromMetadata host env_plain meta_ab).

Definition rewritten_run : Outcome Estimate * list Event :=
  run w_ai_reply [] (estimateFromMetadata host env_ai meta_noisy).

Definition unreachable_run : Outcome Estimate * list Event :=
  run w_stats_unreachable [] (estimateFromMetadata host env_plain meta_ab).

Definition refused_run : Outcome Estimate * list Event :=
  run w_search_refused [] (estimateFromMetadata host env_plain meta_ab).

Definition w_worker_ai : World :=
  serve (http 200 "" (Some (chat_body reply_text))) found42
        (http 200 "" (Some (stats_body 10%float 8%float))) [record_row].

Definition ai_job_run : Outcome value * list Event :=
  run w_worker_ai [] (Worker.processor host env_ai estimate_job).

Definition meta_label_only : Meta :=
  {| artist := VStr ""; title := VNull; label := VStr "Columbia";
     catno := VUndefined; barcode := VStr "" |}.

Definition stored_job_run : Outcome value * list Event :=
  run w_worker_priced [] (Worker.processor host env_plain estimate_job).

Definition missing_record_run : Outcome value * list Event :=
  run w_worker_no_record [] (Worker.processor host env_plain estimate_job).

End Routes.

(* ================================================================== *)
(** ** Facts about values and runs *)

Module Facts.

Import Spec.

Lemma get_truthy (v : value) (k : string) :
  truthy v = true -> get v k = inr (opt_get v k).
Proof. destruct v; simpl; intros H; try discriminate; reflexivity. Qed.

Lemma get_not_nullish (v : value) (k : string) :
  nullish v = false -> get v k = inr (opt_get v k).
Proof. destruct v; simpl; intros H; try discriminate; reflexivity. Qed.

Section Runs.

Context {A B : Type}.
Variable w : World.

(** A run of [p] followed by [f] is the run of [p], then of [f] from the
    history [p] left; a throw in [p] ends it. *)
Lemma run_bind (p : Prog A) (f : A -> Prog B) : forall tr,
  run w tr (bind p f) =
  match run w tr p with
  | (Returned a, tr') => run w tr' (f a)
  | (Thrown e, tr') => (Thrown e, tr')
  end.
Proof.
  induction p as [a | e | rq k IH | ms k IH | sql ps k IH]; intros tr; simpl.
  - reflexivity.
  - reflexivity.
  - apply IH.
  - apply IH.
  - apply IH.
Qed.

End Runs.

Section Catch.

Context {A : Type}.
Variable w : World.

Lemma run_try_catch (p : Prog A) (h : error -> Prog A) : forall tr,
  run w tr (try_catch p h) =
  match run w tr p with
  | (Returned a, tr') => (Returned a, tr')
  | (Thrown e, tr') => run w tr' (h e)
  end.
Proof.
  induction p as [a | e | rq k IH | ms k IH | sql ps k IH]; intros tr; simpl;
    try reflexivity; apply IH.
Qed.

Lemma run_lift (r : error + A) (tr : list Event) :
  run w tr (lift r) =
  match r with
  | inl e => (Thrown e, tr)
  | inr a => (Returned a, tr)
  end.
Proof. destruct r; reflexivity. Qed.

End Catch.

(** Comparisons of binary64 numbers, from their specification. *)
Lemma SFcompare_antisym (x y : spec_float) :
  SFcompare y x = option_map CompOpp (SFcompare x y).
Proof.
  destruct x as [sx | sx | | sx mx ex], y as [sy | sy | | sy my ey]; simpl;
    try reflexivity;
    try (destruct sx; reflexivity);
    try (destruct sy; reflexivity);
    try (destruct sx, sy; reflexivity).
  destruct sx, sy; simpl; try reflexivity;
    rewrite (Z.compare_antisym ex ey);
    destruct (ex ?= ey)%Z; simpl; try reflexivity;
    rewrite (Pos.compare_cont_antisym mx my Eq); simpl;
    try rewrite CompOpp_involutive; reflexivity.
Qed.

Lemma leb_not_ltb (x y : float) :
  PrimFloat.leb x y = true -> PrimFloat.ltb y x = false.
Proof.
  rewrite leb_spec, ltb_spec. unfold SFleb, SFltb.
  rewrite (SFcompare_antisym (Prim2SF x) (Prim2SF y)).
  destruct (SFcompare (Prim2SF x) (Prim2SF y)) as [[ | | ] | ]; simpl;
    intros H; try discriminate; reflexivity.
Qed.

(** [Math.round] at and around the ties. *)
Example Math_round_half_up : Math_round 2.5%float = 3%float.
Proof. reflexivity. Qed.

Example Math_round_negative_half : Math_round (-2.5)%float = (-2)%float.
Proof. reflexivity. Qed.

Example Math_round_below_half :
  Math_round 0x1.fffffffffffffp-2%float = 0%float.
Proof. reflexivity. Qed.

Example Math_round_integer : Math_round 1300%float = 1300%float.
Proof. reflexivity. Qed.

Example Math_round_nan : PrimFloat.is_nan (Math_round PrimFloat.nan) = true.
Proof. reflexivity. Qed.

Example num_1_3_nearest : PrimFloat.div 13%float 10%float = num_1_3.
Proof. reflexivity. Qed.

(** On every price from 0.01 to 300.00 the binary64 computation gives the
    double of the nearest amount of cents, or, when 1.3 times the price is
    at half a cent, of the cent below: there the last bit decides. *)
Lemma checked_from_spec (n : nat) : forall k0 : Z,
  checked_from n k0 = true ->
  forall k : Z, k0 <= k < k0 + Z.of_nat n -> uplift_checked k = true.
Proof.
  induction n as [ | n IH]; intros k0 H k Hk.
  - simpl in Hk. lia.
  - simpl in H. apply andb_true_iff in H. destruct H as [H0 H1].
    destruct (Z.eq_dec k k0) as [-> | Hne]; [exact H0 | ].
    apply (IH (k0 + 1) H1). lia.
Qed.

Lemma uplift_checked_prices : checked_from (Z.to_nat price_bound) 1 = true.
Proof. vm_compute. reflexivity. Qed.

Lemma uplift_on_cent_prices (k : Z) :
  1 <= k <= price_bound ->
  let e := round_2dp (PrimFloat.mul (cents k) num_1_3) in
  e = cents (nearest_cents k) \/
  (k mod 10 = 5 /\ e = cents (nearest_cents k - 1)).
Proof.
  intros Hk e.
  assert (H : uplift_checked k = true).
  { apply (checked_from_spec _ 1 uplift_checked_prices).
    rewrite Z2Nat.id; unfold price_bound in *; lia. }
  unfold uplift_checked in H. fold e in H.
  apply orb_true_iff in H. destruct H as [H | H].
  - left. apply FloatAxioms.Leibniz.eqb_spec. exact H.
  - right. apply andb_true_iff in H. destruct H as [Ht H].
    split; [apply Z.eqb_eq; exact Ht | ].
    apply FloatAxioms.Leibniz.eqb_spec. exact H.
Qed.

Lemma float_differ (x y : float) :
  PrimFloat.Leibniz.eqb x y = false -> x <> y.
Proof.
  intros H E. apply FloatAxioms.Leibniz.eqb_spec in E. congruence.
Qed.

Lemma VNum_inj (x y : float) : VNum x = VNum y -> x = y.
Proof.
  intros E.
  exact (f_equal (fun v => match v with VNum z => z | _ => x end) E).
Qed.

Example round_2dp_at_half_cent :
  round_2dp (PrimFloat.mul (cents 35) num_1_3) = cents 45.
Proof. vm_compute. reflexivity. Qed.

End Facts.

(* ================================================================== *)
(** ** The estimation pipeline *)

Module EstimateSpec.

Import Estimate Spec Scenario Facts.

Section Pipeline.

Variable B : Builtins.
Variable env : Env.
Variable w : World.

Lemma run_price_candidate (first : value) (tr : list Event) :
  truthy first = true ->
  run w tr (price_candidate B env first) =
  match run w (tr ++ [EvSleep 150]) (discogsReleaseStats B env (opt_get first "id")) with
  | (Returned stats, tr') => (Returned (priced B first stats), tr')
  | (Thrown e, tr') => (Thrown e, tr')
  end.
Proof.
  intros Ht. unfold price_candidate. simpl.
  rewrite !(get_truthy first) by exact Ht. simpl.
  rewrite run_bind.
  destruct (run w (tr ++ [EvSleep 150])
              (discogsReleaseStats B env (opt_get first "id"))) as [[stats | e] tr'];
    reflexivity.
Qed.

Lemma pick_first_search_not_nullish (search first : value) :
  pick_first search = inr first -> nullish search = false.
Proof.
  unfold pick_first. destruct search; simpl; intros H; try discriminate; reflexivity.
Qed.

Lemma run_no_results (clean : Meta) (search : value) (tr : list Event) :
  nullish search = false ->
  run w tr (no_results clean search) = (Returned (unmatched clean search), tr).
Proof.
  intros Hs. unfold no_results.
  rewrite (get_not_nullish search "pagination" Hs). reflexivity.
Qed.

Lemma run_estimateFromClean (clean : Meta) (tr : list Event) :
  run w tr (estimateFromClean B env clean) =
  match run w (tr ++ [EvSleep 150]) (discogsSearch B env clean) with
  | (Thrown e, tr') => (Thrown e, tr')
  | (Returned search, tr') =>
      match pick_first search with
      | inl e => (Thrown e, tr')
      | inr first =>
          if truthy first then run w tr' (price_candidate B env first)
          else (Returned (unmatched clean search), tr')
      end
  end.
Proof.
  unfold estimateFromClean. simpl. rewrite run_bind.
  destruct (run w (tr ++ [EvSleep 150]) (discogsSearch B env clean))
    as [[search | e] tr']; [ | reflexivity].
  rewrite run_bind, run_lift.
  destruct (pick_first search) as [e | first] eqn:Hp; [reflexivity | ].
  destruct (truthy first); simpl; [reflexivity | ].
  apply run_no_results. exact (pick_first_search_not_nullish _ _ Hp).
Qed.

Lemma run_estimateFromMetadata (meta : Meta) (tr : list Event) :
  run w tr (estimateFromMetadata B env meta) =
  match run w tr (aiNormalize B env meta) with
  | (Returned clean, tr') => run w tr' (estimateFromClean B env clean)
  | (Thrown e, tr') => (Thrown e, tr')
  end.
Proof. unfold estimateFromMetadata. apply run_bind. Qed.

(** Every way a run of the pipeline can return. *)
Lemma returned_inv (meta : Meta) (tr tr' : list Event) (r : Estimate) :
  run w tr (estimateFromMetadata B env meta) = (Returned r, tr') ->
  (exists clean search, r = unmatched clean search) \/
  (exists first stats, r = priced B first stats).
Proof.
  rewrite run_estimateFromMetadata.
  destruct (run w tr (aiNormalize B env meta)) as [[clean | e] tr1]; [ | discriminate].
  rewrite run_estimateFromClean.
  destruct (run w (tr1 ++ [EvSleep 150]) (discogsSearch B env clean))
    as [[search | e] tr2]; [ | discriminate].
  destruct (pick_first search) as [e | first]; [discriminate | ].
  destruct (truthy first) eqn:Ht.
  - rewrite (run_price_candidate first tr2 Ht).
    destruct (run w (tr2 ++ [EvSleep 150])
                (discogsReleaseStats B env (opt_get first "id"))) as [[stats | e] tr3];
      [ | discriminate].
    intros H. inversion H. right. eauto.
  - intros H. inversion H. left. eauto.
Qed.

(** A run whose normalizer and search return, and whose selection finds a
    candidate, is decided by the statistics lookup. *)
Lemma run_to_stats (meta clean : Meta) (search first : value)
    (tr0 tr1 tr2 : list Event) :
  run w tr0 (aiNormalize B env meta) = (Returned clean, tr1) ->
  run w (tr1 ++ [EvSleep 150]) (discogsSearch B env clean) = (Returned search, tr2) ->
  pick_first search = inr first ->
  truthy first = true ->
  run w tr0 (estimateFromMetadata B env meta) =
  match run w (tr2 ++ [EvSleep 150]) (discogsReleaseStats B env (opt_get first "id")) with
  | (Returned stats, tr3) => (Returned (priced B first stats), tr3)
  | (Thrown e, tr3) => (Thrown e, tr3)
  end.
Proof.
  intros Hn Hs Hp Ht.
  rewrite run_estimateFromMetadata, Hn, run_estimateFromClean, Hs, Hp, Ht.
  apply (run_price_candidate first tr2 Ht).
Qed.

(** C1: when the statistics lookup of a run answers with a lowest price [L]
    and a listing count [C], the run returns, with [L] as lowest price.
    With [C <= 5] the estimate is [L] itself.  With [C > 5] it is
    [Math.round(L * 1.3 * 100) / 100] on doubles: for a price of whole
    cents up to 300.00 that is the amount of cents nearest to the exact
    product, or, when the exact product is at half a cent, possibly the
    cent below.  A lowest price of 10 with 8 listings gives 13. *)
Theorem price_uplift (meta clean : Meta) (search first stats : value)
    (tr0 tr1 tr2 tr3 : list Event) (L C : float) :
  run w tr0 (aiNormalize B env meta) = (Returned clean, tr1) ->
  run w (tr1 ++ [EvSleep 150]) (discogsSearch B env clean) = (Returned search, tr2) ->
  pick_first search = inr first ->
  truthy first = true ->
  run w (tr2 ++ [EvSleep 150]) (discogsReleaseStats B env (opt_get first "id"))
    = (Returned stats, tr3) ->
  opt_get (opt_get stats "lowest_price") "value" = VNum L ->
  opt_get stats "num_for_sale" = VNum C ->
  exists r,
    run w tr0 (estimateFromMetadata B env meta) = (Returned r, tr3) /\
    lowest_price r = VNum L /\
    (PrimFloat.leb C num_5 = true -> estimated_price r = VNum L) /\
    (PrimFloat.ltb num_5 C = true ->
       estimated_price r =
       VNum (PrimFloat.div
               (Math_round (PrimFloat.mul (PrimFloat.mul L num_1_3) num_100))
               num_100)) /\
    (forall k : Z,
       PrimFloat.ltb num_5 C = true ->
       1 <= k <= price_bound ->
       L = cents k ->
       estimated_price r = VNum (cents (nearest_cents k)) \/
       (k mod 10 = 5 /\ estimated_price r = VNum (cents (nearest_cents k - 1)))) /\
    (L = 10%float -> C = 8%float -> estimated_price r = VNum 13%float).
Proof.
  intros Hn Hs Hp Ht Hst HL HC.
  exists (priced B first stats).
  split.
  { rewrite (run_to_stats meta clean search first tr0 tr1 tr2 Hn Hs Hp Ht), Hst.
    reflexivity. }
  unfold priced; simpl.
  unfold lowest_of, count_of. rewrite HL, HC. simpl.
  unfold estimated_of, js_gt, js_mul. simpl.
  split; [reflexivity | ].
  split; [intros Hle; rewrite (leb_not_ltb _ _ Hle); reflexivity | ].
  split; [intros Hgt; rewrite Hgt; reflexivity | ].
  split.
  - intros k Hgt Hk ->. rewrite Hgt.
    destruct (uplift_on_cent_prices k Hk) as [E | [Hm E]]; unfold round_2dp in E.
    + left. rewrite E. reflexivity.
    + right. split; [exact Hm | ]. rewrite E. reflexivity.
  - intros -> ->. vm_compute. reflexivity.
Qed.

(** The same rule read off the result alone: a returned result that
    reports a lowest price [L] and [C] listings carries the estimate the
    rule gives. *)
Lemma price_rule_on_results (meta : Meta) (tr tr' : list Event) (r : Estimate)
    (x : Matched.t) (L C : float) :
  run w tr (estimateFromMetadata B env meta) = (Returned r, tr') ->
  extras r = ExtrasMatch x ->
  lowest_price r = VNum L ->
  Matched.num_for_sale x = VNum C ->
  estimated_price r =
  VNum (if PrimFloat.ltb num_5 C then round_2dp (PrimFloat.mul L num_1_3) else L).
Proof.
  intros Hrun Hx HL HC.
  destruct (returned_inv meta tr tr' r Hrun) as [(clean & search & ->) | (first & stats & ->)];
    [discriminate | ].
  simpl in *. inversion Hx; subst x; clear Hx. simpl in HC.
  assert (Hc : count_of stats = VNum C).
  { unfold count_of. unfold js_coalesce in *.
    destruct (nullish (opt_get stats "num_for_sale")); [discriminate | exact HC]. }
  unfold estimated_of. rewrite HL, Hc. simpl.
  unfold js_gt, js_mul, round_2dp. simpl.
  destruct (PrimFloat.ltb num_5 C); reflexivity.
Qed.

(** C2: a result the pipeline returns has a null median price, and a null
    estimate whenever its lowest price is null; and a run whose statistics
    lookup yields no lowest price returns such a result. *)
Theorem null_propagation :
  (forall (meta : Meta) (tr tr' : list Event) (r : Estimate),
     run w tr (estimateFromMetadata B env meta) = (Returned r, tr') ->
     median_price r = VNull /\
     (lowest_price r = VNull -> estimated_price r = VNull)) /\
  (forall (meta clean : Meta) (search first stats : value)
          (tr0 tr1 tr2 tr3 : list Event),
     run w tr0 (aiNormalize B env meta) = (Returned clean, tr1) ->
     run w (tr1 ++ [EvSleep 150]) (discogsSearch B env clean) = (Returned search, tr2) ->
     pick_first search = inr first ->
     truthy first = true ->
     run w (tr2 ++ [EvSleep 150]) (discogsReleaseStats B env (opt_get first "id"))
       = (Returned stats, tr3) ->
     nullish (opt_get (opt_get stats "lowest_price") "value") = true ->
     exists r,
       run w tr0 (estimateFromMetadata B env meta) = (Returned r, tr3) /\
       lowest_price r = VNull /\ median_price r = VNull /\
       estimated_price r = VNull).
Proof.
  split.
  - intros meta tr tr' r Hrun.
    destruct (returned_inv meta tr tr' r Hrun) as [(clean & search & ->) | (first & stats & ->)];
      simpl.
    + split; reflexivity.
    + split; [reflexivity | ].
      intros Hl. unfold estimated_of. rewrite Hl. reflexivity.
  - intros meta clean search first stats tr0 tr1 tr2 tr3 Hn Hs Hp Ht Hst Hnull.
    exists (priced B first stats). split.
    { rewrite (run_to_stats meta clean search first tr0 tr1 tr2 Hn Hs Hp Ht), Hst.
      reflexivity. }
    assert (Hl : lowest_of stats = VNull).
    { unfold lowest_of, js_coalesce. rewrite Hnull. reflexivity. }
    simpl. unfold estimated_of. rewrite Hl. simpl. auto.
Qed.

(** C3: when the search comes back with an empty candidate list the run
    ends there, with no statistics request, and returns null prices, the
    note "no results", the metadata searched with and the total count the
    search reported (0 when it reported none). *)
Theorem no_candidate_path (meta clean : Meta) (search : value)
    (tr0 tr1 tr2 : list Event) :
  run w tr0 (aiNormalize B env meta) = (Returned clean, tr1) ->
  run w (tr1 ++ [EvSleep 150]) (discogsSearch B env clean) = (Returned search, tr2) ->
  get search "results" = inr (VArr []) ->
  exists r x,
    run w tr0 (estimateFromMetadata B env meta) = (Returned r, tr2) /\
    lowest_price r = VNull /\ median_price r = VNull /\ estimated_price r = VNull /\
    extras r = ExtrasNone x /\
    note x = "no results" /\
    query x = clean /\
    search_count x = js_or (opt_get (opt_get search "pagination") "items") (VNum num_0).
Proof.
  intros Hn Hs Hr.
  assert (Hp : pick_first search = inr VUndefined).
  { unfold pick_first. rewrite Hr. reflexivity. }
  exists (unmatched clean search). eexists.
  split.
  { rewrite run_estimateFromMetadata, Hn, run_estimateFromClean, Hs, Hp. reflexivity. }
  simpl. repeat split; reflexivity.
Qed.

(** *** The normalizer *)

Lemma run_read_reply (meta : Meta) (data : value) (tr : list Event) :
  run w tr (try_catch (read_reply B meta data) (fun _ => Ret meta))
  = (Returned (normalized B meta data), tr).
Proof.
  rewrite run_try_catch. unfold read_reply, normalized.
  destruct (nullish data) eqn:Hd.
  - destruct data; try discriminate; reflexivity.
  - rewrite (get_not_nullish data "choices" Hd).
    cbn [lift bind]. fold (reply_content data).
    destruct (JSON_parse B (ToString B (reply_content data))) as [parsed | ];
      [ | reflexivity].
    cbn [bind].
    destruct (nullish parsed) eqn:Hp.
    + destruct parsed; try discriminate; reflexivity.
    + rewrite !(get_not_nullish parsed _ Hp). reflexivity.
Qed.

(** What a run of [aiNormalize] does, case by case. *)
Lemma run_aiNormalize (meta : Meta) (tr : list Event) :
  run w tr (aiNormalize B env meta) =
  match OPENAI_API_KEY env with
  | None => (Returned meta, tr)
  | Some k =>
      if String.eqb k "" then (Returned meta, tr)
      else
        let ans := net w tr (OpenAIChatReq k meta) in
        let tr' := tr ++ [EvFetch (OpenAIChatReq k meta) ans] in
        match ans with
        | Rejected => (Thrown FetchFailed, tr')
        | Resolved res =>
            if ok res then
              match json res with
              | Some data => (Returned (normalized B meta data), tr')
              | None => (Thrown SyntaxError, tr')
              end
            else (Returned meta, tr')
        end
  end.
Proof.
  unfold aiNormalize.
  destruct (OPENAI_API_KEY env) as [k | ]; simpl; [ | reflexivity].
  destruct (String.eqb k ""); simpl; [reflexivity | ].
  destruct (net w tr (OpenAIChatReq k meta)) as [ | res]; simpl; [reflexivity | ].
  destruct (ok res); simpl; [ | reflexivity].
  unfold res_json. destruct (json res) as [data | ]; simpl; [ | reflexivity].
  apply run_read_reply.
Qed.

Lemma normalized_frame (meta : Meta) (data : value) :
  label (normalized B meta data) = label meta /\
  catno (normalized B meta data) = catno meta /\
  barcode (normalized B meta data) = barcode meta.
Proof.
  unfold normalized.
  destruct (nullish data); [auto | ].
  destruct (JSON_parse B (ToString B (reply_content data))) as [parsed | ]; [ | auto].
  destruct (nullish parsed); simpl; auto.
Qed.

Ltac returned_input := let H := fresh in intros H; inversion H; auto.

(** C7: whatever [aiNormalize] returns has the label, catalogue number and
    barcode of its input. *)
Theorem normalizer_frame (meta out : Meta) (tr tr' : list Event) :
  run w tr (aiNormalize B env meta) = (Returned out, tr') ->
  label out = label meta /\ catno out = catno meta /\ barcode out = barcode meta.
Proof.
  rewrite run_aiNormalize.
  destruct (OPENAI_API_KEY env) as [k | ]; [ | returned_input].
  destruct (String.eqb k ""); [returned_input | ].
  cbv zeta.
  destruct (net w tr (OpenAIChatReq k meta)) as [ | res]; [discriminate | ].
  destruct (ok res); [ | returned_input].
  destruct (json res) as [data | ]; [ | discriminate].
  intros H; inversion H. apply normalized_frame.
Qed.

(** C10: when the reply parses, a field of it that is missing or an empty
    string falls back to the input's field, each field on its own: the
    output can carry the reply's artist next to the input's title (or the
    reverse). *)
Theorem normalizer_field_fallback (meta : Meta) (k : string) (res : Response)
    (data parsed : value) (tr : list Event) :
  OPENAI_API_KEY env = Some k ->
  k <> "" ->
  net w tr (OpenAIChatReq k meta) = Resolved res ->
  ok res = true ->
  json res = Some data ->
  JSON_parse B (ToString B (reply_content data)) = Some parsed ->
  exists out,
    run w tr (aiNormalize B env meta)
      = (Returned out, tr ++ [EvFetch (OpenAIChatReq k meta) (Resolved res)]) /\
    (missing_or_empty (opt_get parsed "artist") -> artist out = artist meta) /\
    (missing_or_empty (opt_get parsed "title") -> title out = title meta) /\
    (nullish data = false -> nullish parsed = false ->
     truthy (opt_get parsed "artist") = true ->
     missing_or_empty (opt_get parsed "title") ->
       artist out = opt_get parsed "artist" /\ title out = title meta) /\
    (nullish data = false -> nullish parsed = false ->
     missing_or_empty (opt_get parsed "artist") ->
     truthy (opt_get parsed "title") = true ->
       artist out = artist meta /\ title out = opt_get parsed "title").
Proof.
  intros Hk Hne Hnet Hok Hjson Hparse.
  exists (normalized B meta data). split.
  { rewrite run_aiNormalize, Hk.
    destruct (String.eqb_spec k "") as [-> | _]; [contradiction | ].
    cbv zeta. rewrite Hnet, Hok, Hjson. reflexivity. }
  unfold normalized. rewrite Hparse.
  destruct (nullish data) eqn:Hd; [repeat split; intros; (reflexivity || discriminate) | ].
  destruct (nullish parsed) eqn:Hp; simpl;
    [repeat split; intros; (reflexivity || discriminate) | ].
  unfold js_or. split; [ | split; [ | split]].
  - intros [-> | ->]; reflexivity.
  - intros [-> | ->]; reflexivity.
  - intros _ _ Ha [-> | ->]; rewrite Ha; split; reflexivity.
  - intros _ _ [-> | ->] Ht; rewrite Ht; split; reflexivity.
Qed.

(** C6, as the code has it: without a key, on a non-success status, and
    when the body decodes but the text of the reply does not parse,
    [aiNormalize] returns its input and the pipeline goes on to search with
    exactly that. *)
Theorem normalizer_fallback (meta : Meta) (tr : list Event) :
  no_key (OPENAI_API_KEY env) = true \/
  (exists k res,
     OPENAI_API_KEY env = Some k /\
     net w tr (OpenAIChatReq k meta) = Resolved res /\
     (ok res = false \/ reply_unparsable B res)) ->
  exists tr',
    run w tr (aiNormalize B env meta) = (Returned meta, tr') /\
    run w tr (estimateFromMetadata B env meta) = run w tr' (estimateFromClean B env meta).
Proof.
  intros H.
  assert (Hn : exists tr', run w tr (aiNormalize B env meta) = (Returned meta, tr')).
  { rewrite run_aiNormalize.
    destruct H as [Hno | (k & res & Hk & Hnet & Hres)].
    - unfold no_key in Hno. destruct (OPENAI_API_KEY env) as [k | ]; [ | eauto].
      rewrite Hno. eauto.
    - rewrite Hk. destruct (String.eqb k ""); [eauto | ].
      cbv zeta. rewrite Hnet.
      destruct Hres as [Hok | (data & Hjson & Hparse)].
      + rewrite Hok. eauto.
      + destruct (ok res); [ | eauto].
        rewrite Hjson. unfold normalized. rewrite Hparse.
        destruct (nullish data); eauto. }
  destruct Hn as [tr' Hn]. exists tr'. split; [exact Hn | ].
  rewrite run_estimateFromMetadata, Hn. reflexivity.
Qed.

(** *** The two Discogs calls *)

Lemma run_discogsSearch (m : Meta) (tr : list Event) :
  run w tr (discogsSearch B env m) =
  match search_params B m with
  | [] => (Returned (VObj [("results", VArr [])]), tr)
  | _ :: _ =>
      let rq := DiscogsSearchReq (search_params B m) (DISCOGS_TOKEN env) in
      let ans := net w tr rq in
      let tr' := tr ++ [EvFetch rq ans] in
      match ans with
      | Rejected => (Thrown FetchFailed, tr')
      | Resolved res =>
          if ok res then
            match json res with
            | Some v => (Returned v, tr')
            | None => (Thrown SyntaxError, tr')
            end
          else (Thrown (DiscogsSearchError (status res) (text res)), tr')
      end
  end.
Proof.
  unfold discogsSearch, usp_keys.
  destruct (search_params B m) as [ | p q] eqn:Hq; simpl; [reflexivity | ].
  destruct (net w tr (DiscogsSearchReq (p :: q) (DISCOGS_TOKEN env))) as [ | res];
    simpl; [reflexivity | ].
  destruct (ok res); simpl; [ | reflexivity].
  unfold res_json. destruct (json res); reflexivity.
Qed.

Lemma run_discogsReleaseStats (releaseId : value) (tr : list Event) :
  run w tr (discogsReleaseStats B env releaseId) =
  if truthy releaseId then
    let rq := DiscogsStatsReq (ToString B releaseId) (DISCOGS_TOKEN env) in
    let ans := net w tr rq in
    let tr' := tr ++ [EvFetch rq ans] in
    match ans with
    | Rejected => (Thrown FetchFailed, tr')
    | Resolved res =>
        if ok res then
          match json res with
          | Some v => (Returned v, tr')
          | None => (Thrown SyntaxError, tr')
          end
        else (Returned VNull, tr')
    end
  else (Returned VNull, tr).
Proof.
  unfold discogsReleaseStats.
  destruct (truthy releaseId); simpl; [ | reflexivity].
  destruct (net w tr (DiscogsStatsReq (ToString B releaseId) (DISCOGS_TOKEN env)))
    as [ | res]; simpl; [reflexivity | ].
  destruct (ok res); simpl; [ | reflexivity].
  unfold res_json. destruct (json res); reflexivity.
Qed.

(** The query, field by field. *)
Lemma search_params_truthy (m : Meta) :
  search_params B m =
  map (fun p => (fst p, ToString B (snd p)))
      (filter (fun p => truthy (snd p)) (named_fields m)).
Proof.
  unfold search_params, named_fields. simpl.
  destruct (truthy (artist m)), (truthy (title m)), (truthy (catno m)),
    (truthy (barcode m)); reflexivity.
Qed.

Lemma text_entry (k : string) (v : value) :
  text_or_absent v ->
  (if truthy v then [(k, ToString B v)] else []) =
  match nonempty_text v with
  | Some s => [(k, s)]
  | None => []
  end.
Proof.
  destruct v as [ | | b | n | s | l | f]; simpl; intros H; try contradiction;
    try reflexivity.
  destruct s; reflexivity.
Qed.

Lemma search_params_expected (m : Meta) :
  text_fields m -> search_params B m = expected_query m.
Proof.
  intros (Ha & Ht & Hc & Hb).
  rewrite search_params_truthy. unfold expected_query, named_fields. simpl.
  rewrite <- (text_entry "artist" _ Ha), <- (text_entry "release_title" _ Ht),
    <- (text_entry "catno" _ Hc), <- (text_entry "barcode" _ Hb).
  destruct (truthy (artist m)), (truthy (title m)), (truthy (catno m)),
    (truthy (barcode m)); reflexivity.
Qed.

(** C8: the search request carries the non-empty ones among artist, title
    (as release_title), catno and barcode, and nothing else; when all four
    are empty no request is made and the search answers with an empty
    result list. *)
Theorem search_query (m : Meta) (tr : list Event) :
  text_fields m ->
  search_params B m = expected_query m /\
  (expected_query m = [] ->
     run w tr (discogsSearch B env m) = (Returned (VObj [("results", VArr [])]), tr)) /\
  (expected_query m <> [] ->
     exists out ans,
       run w tr (discogsSearch B env m)
         = (out, tr ++ [EvFetch (DiscogsSearchReq (expected_query m) (DISCOGS_TOKEN env)) ans])).
Proof.
  intros Hm. pose proof (search_params_expected m Hm) as Hq.
  split; [exact Hq | ].
  split.
  - intros He. rewrite run_discogsSearch, Hq, He. reflexivity.
  - intros Hne. rewrite run_discogsSearch, Hq.
    destruct (expected_query m) as [ | p q]; [contradiction | ].
    cbv zeta.
    destruct (net w tr (DiscogsSearchReq (p :: q) (DISCOGS_TOKEN env))) as [ | res].
    + eauto.
    + destruct (ok res); [destruct (json res) | ]; eauto.
Qed.

(** *** Candidate selection *)

Lemma is_release_other (r : value) : other_entry r -> is_release r = inr false.
Proof.
  intros [Hn Ht]. unfold is_release. rewrite (get_not_nullish r "type" Hn).
  destruct (opt_get r "type") as [ | | b | n | s | l | f]; try reflexivity.
  destruct (String.eqb_spec s "release") as [-> | _]; [ | reflexivity].
  exfalso. apply Ht. reflexivity.
Qed.

Lemma is_release_entry (r : value) :
  release_entry r -> is_release r = inr true /\ truthy r = true.
Proof.
  unfold release_entry, is_release.
  destruct r; simpl; intros H; try discriminate.
  rewrite H. split; reflexivity.
Qed.

Lemma find_release_first (pre : list value) (r : value) (post : list value) :
  Forall other_entry pre -> release_entry r ->
  find_release (pre ++ r :: post) = inr r.
Proof.
  intros Hpre Hr. induction Hpre as [ | x pre Hx _ IH]; simpl.
  - destruct (is_release_entry r Hr) as [-> _]. reflexivity.
  - rewrite (is_release_other x Hx). exact IH.
Qed.

Lemma find_release_none (items : list value) :
  Forall other_entry items -> find_release items = inr VUndefined.
Proof.
  intros H. induction H as [ | x items Hx _ IH]; simpl.
  - reflexivity.
  - rewrite (is_release_other x Hx). exact IH.
Qed.

(** C5: of the result list, the first entry of type 'release' is picked;
    when no entry has that type, the first entry of the list. *)
Theorem candidate_selection (search : value) (items : list value) :
  get search "results" = inr (VArr items) ->
  (forall pre r post,
     items = pre ++ r :: post -> Forall other_entry pre -> release_entry r ->
     pick_first search = inr r) /\
  (Forall other_entry items -> pick_first search = inr (hd VUndefined items)).
Proof.
  intros Hres. split.
  - intros pre r post -> Hpre Hr.
    unfold pick_first. rewrite Hres. simpl.
    rewrite (find_release_first pre r post Hpre Hr).
    destruct (is_release_entry r Hr) as [_ ->]. reflexivity.
  - intros Hall. unfold pick_first. rewrite Hres. simpl.
    rewrite (find_release_none items Hall). simpl.
    destruct items; reflexivity.
Qed.

(** *** Failures *)

Lemma priced_without_stats (first : value) : null_prices (priced B first VNull).
Proof. repeat split. Qed.

(** A non-success answer to the search request ends the run with the error
    [discogsSearch] throws. *)
Lemma search_refused_throws (meta clean : Meta) (tr0 tr1 : list Event) (res : Response) :
  run w tr0 (aiNormalize B env meta) = (Returned clean, tr1) ->
  search_params B clean <> [] ->
  net w (tr1 ++ [EvSleep 150])
      (DiscogsSearchReq (search_params B clean) (DISCOGS_TOKEN env)) = Resolved res ->
  ok res = false ->
  run w tr0 (estimateFromMetadata B env meta) =
  (Thrown (DiscogsSearchError (status res) (text res)),
   (tr1 ++ [EvSleep 150]) ++
   [EvFetch (DiscogsSearchReq (search_params B clean) (DISCOGS_TOKEN env)) (Resolved res)]).
Proof.
  intros Hn Hq Hnet Hok.
  rewrite run_estimateFromMetadata, Hn, run_estimateFromClean, run_discogsSearch.
  destruct (search_params B clean) as [ | p q]; [contradiction | ].
  cbv zeta. rewrite Hnet, Hok. reflexivity.
Qed.

(** A candidate without an identifier, or a non-success answer to the
    statistics request, leaves the run with a result without prices. *)
Lemma stats_refused_degrades (meta clean : Meta) (search first : value)
    (tr0 tr1 tr2 : list Event) :
  run w tr0 (aiNormalize B env meta) = (Returned clean, tr1) ->
  run w (tr1 ++ [EvSleep 150]) (discogsSearch B env clean) = (Returned search, tr2) ->
  pick_first search = inr first ->
  truthy first = true ->
  truthy (opt_get first "id") = false \/
  (exists res,
     net w (tr2 ++ [EvSleep 150])
         (DiscogsStatsReq (ToString B (opt_get first "id")) (DISCOGS_TOKEN env))
       = Resolved res /\ ok res = false) ->
  exists r tr3,
    run w tr0 (estimateFromMetadata B env meta) = (Returned r, tr3) /\ null_prices r.
Proof.
  intros Hn Hs Hp Ht Hfail.
  exists (priced B first VNull).
  rewrite (run_to_stats meta clean search first tr0 tr1 tr2 Hn Hs Hp Ht).
  rewrite run_discogsReleaseStats.
  destruct Hfail as [Hid | (res & Hnet & Hok)].
  - rewrite Hid. eexists. split; [reflexivity | apply priced_without_stats].
  - destruct (truthy (opt_get first "id")).
    + cbv zeta. rewrite Hnet, Hok. eexists. split; [reflexivity | apply priced_without_stats].
    + eexists. split; [reflexivity | apply priced_without_stats].
Qed.

End Pipeline.

End EstimateSpec.

(* ================================================================== *)
(** ** The worker and the failure policy *)

Module WorkerSpec.

Import Estimate Worker Spec Scenario Facts EstimateSpec.

Section Processor.

Variable B : Builtins.
Variable env : Env.
Variable w : World.

(** An error thrown by the pipeline leaves the processor as it is: nothing
    in [worker.js] catches it, and no snapshot is written. *)
Lemma processor_rethrows (job : JobQueue.Job) (rid record : value)
    (rest : list value) (tr tr' : list Event) (e : error) :
  JobQueue.name job = "estimate" ->
  get (JobQueue.data job) "recordId" = inr rid ->
  db w tr select_record [rid] = QRows (record :: rest) ->
  nullish record = false ->
  run w (tr ++ [EvQuery select_record [rid] (QRows (record :: rest))])
      (estimateFromMetadata B env (meta_of_row record)) = (Thrown e, tr') ->
  run w tr (processor B env job) = (Thrown e, tr').
Proof.
  intros Hname Hrid Hdb Hrec Hrun.
  unfold processor. rewrite Hname, Hrid. simpl. rewrite Hdb. simpl.
  rewrite !(get_not_nullish record _ Hrec). simpl.
  fold (meta_of_row record).
  rewrite run_bind, Hrun. reflexivity.
Qed.

(** C4, as the code has it: a non-success answer to the search request
    makes [estimateFromMetadata] throw, and the worker's processor with it;
    a non-success answer to the statistics request, or a candidate without
    an identifier, does not: the run returns a result whose prices are
    null; nor does a non-success answer to the normalizer, which returns
    its input. *)
Theorem failure_policy :
  (forall (meta clean : Meta) (tr0 tr1 : list Event) (res : Response),
     run w tr0 (aiNormalize B env meta) = (Returned clean, tr1) ->
     search_params B clean <> [] ->
     net w (tr1 ++ [EvSleep 150])
         (DiscogsSearchReq (search_params B clean) (DISCOGS_TOKEN env)) = Resolved res ->
     ok res = false ->
     exists tr2,
       run w tr0 (estimateFromMetadata B env meta)
         = (Thrown (DiscogsSearchError (status res) (text res)), tr2)) /\
  (forall (job : JobQueue.Job) (rid record : value) (rest : list value)
          (tr tr' : list Event) (e : error),
     JobQueue.name job = "estimate" ->
     get (JobQueue.data job) "recordId" = inr rid ->
     db w tr select_record [rid] = QRows (record :: rest) ->
     nullish record = false ->
     run w (tr ++ [EvQuery select_record [rid] (QRows (record :: rest))])
         (estimateFromMetadata B env (meta_of_row record)) = (Thrown e, tr') ->
     run w tr (processor B env job) = (Thrown e, tr')) /\
  (forall (meta clean : Meta) (search first : value) (tr0 tr1 tr2 : list Event),
     run w tr0 (aiNormalize B env meta) = (Returned clean, tr1) ->
     run w (tr1 ++ [EvSleep 150]) (discogsSearch B env clean) = (Returned search, tr2) ->
     pick_first search = inr first ->
     truthy first = true ->
     truthy (opt_get first "id") = false \/
     (exists res,
        net w (tr2 ++ [EvSleep 150])
            (DiscogsStatsReq (ToString B (opt_get first "id")) (DISCOGS_TOKEN env))
          = Resolved res /\ ok res = false) ->
     exists r tr3,
       run w tr0 (estimateFromMetadata B env meta) = (Returned r, tr3) /\ null_prices r) /\
  (forall (meta : Meta) (tr : list Event) (k : string) (res : Response),
     OPENAI_API_KEY env = Some k ->
     net w tr (OpenAIChatReq k meta) = Resolved res ->
     ok res = false ->
     exists tr', run w tr (aiNormalize B env meta) = (Returned meta, tr')).
Proof.
  split; [ | split; [ | split]].
  - intros meta clean tr0 tr1 res Hn Hq Hnet Hok.
    eexists. apply (search_refused_throws B env w meta clean tr0 tr1 res Hn Hq Hnet Hok).
  - apply processor_rethrows.
  - apply (stats_refused_degrades B env w).
  - intros meta tr k res Hk Hnet Hok.
    rewrite run_aiNormalize, Hk. destruct (String.eqb k ""); [eauto | ].
    cbv zeta. rewrite Hnet, Hok. eauto.
Qed.

End Processor.

End WorkerSpec.

(* ================================================================== *)
(** ** The queue *)

Module QueueSpec.

Import JobQueue.

(** C9: a job created through [enqueue] is stored in the queue with at most
    5 attempts and an exponential backoff of base 2000 ms, that is 2 s. *)
Theorem enqueue_retry_policy (q : Queue) (nm : string) (d : value) :
  let job := fst (enqueue q nm d) in
  let q' := snd (enqueue q nm d) in
  In job (jobs q') /\
  name job = nm /\ data job = d /\
  attempts (opts job) = 5 /\
  backoff_type (backoff (opts job)) = "exponential" /\
  delay (backoff (opts job)) = 2000 /\
  delay (backoff (opts job)) = 2 * 1000.
Proof.
  simpl. split.
  - apply in_or_app. right. left. reflexivity.
  - repeat split.
Qed.

End QueueSpec.

(* ================================================================== *)
(** ** The statements at concrete runs *)

Module Cases.

Import Estimate Worker Spec Scenario Facts EstimateSpec WorkerSpec.

(** The specification's scenario: one release with id 42, lowest price 10,
    8 listings; the estimate is 13. *)
Lemma price_uplift_witness :
  exists r,
    run w_priced [] (estimateFromMetadata host env_plain meta_ab)
      = (Returned r,
         searched query_ab found42 ++
         looked_up "42" (http 200 "" (Some (stats_body 10%float 8%float)))) /\
    lowest_price r = VNum 10%float /\
    (PrimFloat.leb 8%float num_5 = true -> estimated_price r = VNum 10%float) /\
    (PrimFloat.ltb num_5 8%float = true ->
       estimated_price r =
       VNum (PrimFloat.div
               (Math_round (PrimFloat.mul (PrimFloat.mul 10%float num_1_3) num_100))
               num_100)) /\
    (forall k : Z,
       PrimFloat.ltb num_5 8%float = true ->
       1 <= k <= price_bound ->
       10%float = cents k ->
       estimated_price r = VNum (cents (nearest_cents k)) \/
       (k mod 10 = 5 /\ estimated_price r = VNum (cents (nearest_cents k - 1)))) /\
    (10%float = 10%float -> 8%float = 8%float -> estimated_price r = VNum 13%float).
Proof.
  apply (price_uplift host env_plain w_priced meta_ab meta_ab
           (search_body [release42] 1%float) release42
           (stats_body 10%float 8%float)
           [] [] (searched query_ab found42)); reflexivity.
Defined.

(** Counterexample to C1 as stated.  At a lowest price of 0.35 with 8
    listings the estimate is 0.45, while 0.35 times 1.3 is 0.455 and rounds
    to 0.46: the double the multiplication gives lies below 0.455.  Nor
    is the estimate that double rounded to cents: at 0.85 the product 1.105
    is a double below 1.105, nearest to 1.10, and the estimate is 1.11,
    because the scaling by 100 gives 110.5 exactly. *)
Lemma uplift_at_half_cent :
  (exists r,
     run w_half_cent [] (estimateFromMetadata host env_plain meta_ab)
       = (Returned r,
          searched query_ab found42 ++
          looked_up "42" (http 200 "" (Some (stats_body (cents 35) 8%float)))) /\
     lowest_price r = VNum (cents 35) /\
     estimated_price r = VNum (cents 45)) /\
  nearest_cents 35 = 46 /\
  cents 45 <> cents 46 /\
  ~ uplift_of_exact_product host env_plain w_half_cent /\
  (exists r,
     run w_half_cent_up [] (estimateFromMetadata host env_plain meta_ab)
       = (Returned r,
          searched query_ab found42 ++
          looked_up "42" (http 200 "" (Some (stats_body (cents 85) 8%float)))) /\
     lowest_price r = VNum (cents 85) /\
     estimated_price r = VNum (cents 111)) /\
  to_cents (PrimFloat.mul (cents 85) num_1_3) = 110 /\
  cents 111 <> cents 110 /\
  ~ uplift_of_double_product host env_plain w_half_cent_up.
Proof.
  assert (N1 : cents 45 <> cents 46) by (apply float_differ; reflexivity).
  assert (N2 : cents 111 <> cents 110) by (apply float_differ; reflexivity).
  split; [eexists; split; [reflexivity | split; reflexivity] | ].
  split; [reflexivity | ].
  split; [exact N1 | ].
  split.
  { intros H.
    pose proof (H meta_ab [] _ _ _ 35 8%float eq_refl eq_refl eq_refl eq_refl eq_refl)
      as E.
    apply N1. exact (VNum_inj _ _ E). }
  split; [eexists; split; [reflexivity | split; reflexivity] | ].
  split; [reflexivity | ].
  split; [exact N2 | ].
  intros H.
  pose proof (H meta_ab [] _ _ _ (cents 85) 8%float
                eq_refl eq_refl eq_refl eq_refl eq_refl) as E.
  apply N2. exact (VNum_inj _ _ E).
Qed.

(** A release that is listed but has no lowest price. *)
Lemma null_propagation_witness :
  exists r,
    run w_unpriced [] (estimateFromMetadata host env_plain meta_ab)
      = (Returned r,
         searched query_ab found42 ++ looked_up "42" (http 200 "" (Some stats_unpriced))) /\
    lowest_price r = VNull /\ median_price r = VNull /\ estimated_price r = VNull.
Proof.
  apply (proj2 (null_propagation host env_plain w_unpriced) meta_ab meta_ab
           (search_body [release42] 1%float) release42 stats_unpriced
           [] [] (searched query_ab found42)); reflexivity.
Defined.

(** A search that finds nothing. *)
Lemma no_candidate_path_witness :
  exists r x,
    run w_nothing_found [] (estimateFromMetadata host env_plain meta_ab)
      = (Returned r, searched query_ab (http 200 "" (Some (search_body [] 0%float)))) /\
    lowest_price r = VNull /\ median_price r = VNull /\ estimated_price r = VNull /\
    extras r = ExtrasNone x /\
    note x = "no results" /\
    query x = meta_ab /\
    search_count x = VNum 0%float.
Proof.
  apply (no_candidate_path host env_plain w_nothing_found meta_ab meta_ab
           (search_body [] 0%float) [] []); reflexivity.
Defined.

(** The specification's second scenario: nothing is known but an artist,
    and nothing is found. *)
Example unknown_artist :
  run w_nothing_found [] (estimateFromMetadata host env_plain meta_unknown)
    = (Returned (unmatched meta_unknown (search_body [] 0%float)),
       searched [("artist", "Unknown")] (http 200 "" (Some (search_body [] 0%float)))).
Proof. reflexivity. Qed.

(** Counterexample to C4 as stated: the search succeeds, the statistics request gets
    no response, and the run throws instead of returning null prices. *)
Lemma stats_unreachable_throws :
  call_failed (net w_stats_unreachable (searched query_ab found42 ++ [EvSleep 150])
                 (DiscogsStatsReq "42" (Some "token"))) /\
  run w_stats_unreachable [] (estimateFromMetadata host env_plain meta_ab)
    = (Thrown FetchFailed, searched query_ab found42 ++ looked_up "42" Rejected) /\
  ~ stats_failure_swallowed host env_plain w_stats_unreachable.
Proof.
  split; [exact I | ]. split; [reflexivity | ].
  intros H.
  destruct (H meta_ab meta_ab (search_body [release42] 1%float) release42
              [] [] (searched query_ab found42)
              eq_refl eq_refl eq_refl eq_refl I) as (r & tr3 & Hrun & _).
  discriminate Hrun.
Qed.

(** So does a normalizer that cannot be reached. *)
Example normalizer_unreachable_throws :
  run w_priced [] (estimateFromMetadata host env_ai meta_noisy)
    = (Thrown FetchFailed, asked_ai meta_noisy Rejected).
Proof. reflexivity. Qed.

(** A search answered 500 fails the run and the job; a statistics request
    answered 404, and a candidate without an id, do not. *)
Lemma failure_policy_witness :
  (exists tr2,
     run w_search_refused [] (estimateFromMetadata host env_plain meta_ab)
       = (Thrown (DiscogsSearchError 500 "internal error"), tr2)) /\
  run w_worker_search_refused [] (processor host env_plain estimate_job)
    = (Thrown (DiscogsSearchError 500 "internal error"),
       [EvQuery select_record [VNum 1%float] (QRows [record_row])] ++
       searched query_ab (http 500 "internal error" None)) /\
  (exists r tr3,
     run w_stats_refused [] (estimateFromMetadata host env_plain meta_ab)
       = (Returned r, tr3) /\ null_prices r) /\
  (exists r tr3,
     run w_no_id [] (estimateFromMetadata host env_plain meta_ab)
       = (Returned r, tr3) /\ null_prices r).
Proof.
  split; [ | split; [ | split]].
  - apply (proj1 (failure_policy host env_plain w_search_refused) meta_ab meta_ab
             [] [] {| status := 500; text := "internal error"; json := None |});
      [reflexivity | discriminate | reflexivity | reflexivity].
  - apply (proj1 (proj2 (failure_policy host env_plain w_worker_search_refused))
             estimate_job (VNum 1%float) record_row [] []); reflexivity.
  - apply (proj1 (proj2 (proj2 (failure_policy host env_plain w_stats_refused)))
             meta_ab meta_ab (search_body [release42] 1%float) release42
             [] [] (searched query_ab found42));
      try reflexivity.
    right. exists {| status := 404; text := "not found"; json := None |}.
    split; reflexivity.
  - apply (proj1 (proj2 (proj2 (failure_policy host env_plain w_no_id)))
             meta_ab meta_ab (search_body [entry_no_id] 1%float) entry_no_id
             [] [] (searched query_ab (http 200 "" (Some (search_body [entry_no_id] 1%float)))));
      try reflexivity.
    left. reflexivity.
Defined.

(** A master followed by a release: the release is picked; a master
    alone: the master. *)
Lemma candidate_selection_witness :
  pick_first (search_body [master7; release42] 2%float) = inr release42 /\
  pick_first (search_body [master7] 1%float) = inr master7.
Proof.
  split.
  - apply (proj1 (candidate_selection (search_body [master7; release42] 2%float)
                    [master7; release42] eq_refl) [master7] release42 []).
    + reflexivity.
    + constructor; [ | constructor]. split; [reflexivity | discriminate].
    + reflexivity.
  - apply (proj2 (candidate_selection (search_body [master7] 1%float) [master7] eq_refl)).
    constructor; [ | constructor]. split; [reflexivity | discriminate].
Defined.

(** Counterexample to C6 as stated: the normalizer answers 200 with a body that is
    not JSON, and the run throws before any search is made. *)
Lemma undecodable_body_throws :
  (exists res,
     net w_ai_not_json [] (OpenAIChatReq "sk-test" meta_noisy) = Resolved res /\
     ok res = true /\ body_undecodable res) /\
  run w_ai_not_json [] (estimateFromMetadata host env_ai meta_noisy)
    = (Thrown SyntaxError, asked_ai meta_noisy (http 200 "<html>gateway</html>" None)) /\
  ~ unparsable_falls_back host env_ai w_ai_not_json.
Proof.
  split; [ | split].
  - eexists. split; [reflexivity | split; reflexivity].
  - reflexivity.
  - intros H.
    destruct (H meta_noisy [] "sk-test"
                {| status := 200; text := "<html>gateway</html>"; json := None |}
                eq_refl eq_refl (or_introl eq_refl)) as (tr' & Hrun).
    discriminate Hrun.
Qed.

(** A reply that is prose, not JSON: the search is made with the input. *)
Lemma normalizer_fallback_witness :
  exists tr',
    run w_ai_bad_content [] (aiNormalize host env_ai meta_noisy) = (Returned meta_noisy, tr') /\
    run w_ai_bad_content [] (estimateFromMetadata host env_ai meta_noisy)
      = run w_ai_bad_content tr' (estimateFromClean host env_ai meta_noisy).
Proof.
  apply (normalizer_fallback host env_ai w_ai_bad_content meta_noisy []).
  right. exists "sk-test".
  exists {| status := 200; text := ""; json := Some (chat_body "Sure! Here you go") |}.
  split; [reflexivity | ]. split; [reflexivity | ].
  right. exists (chat_body "Sure! Here you go"). split; reflexivity.
Defined.

(** A reply that rewrites the artist: label, catno and barcode stay. *)
Lemma normalizer_frame_witness :
  label (normalized host meta_noisy (chat_body reply_text)) = VStr "Columbia" /\
  catno (normalized host meta_noisy (chat_body reply_text)) = VStr "CL 1355" /\
  barcode (normalized host meta_noisy (chat_body reply_text)) = VNull.
Proof.
  apply (normalizer_frame host env_ai w_ai_reply meta_noisy
           (normalized host meta_noisy (chat_body reply_text)) []
           (asked_ai meta_noisy (http 200 "" (Some (chat_body reply_text))))).
  reflexivity.
Defined.

(** Three fields filled, and none. *)
Lemma search_query_witness :
  (search_params host meta_noisy = expected_query meta_noisy /\
   (expected_query meta_noisy = [] ->
      run w_priced [] (discogsSearch host env_plain meta_noisy)
        = (Returned (VObj [("results", VArr [])]), [])) /\
   (expected_query meta_noisy <> [] ->
      exists out ans,
        run w_priced [] (discogsSearch host env_plain meta_noisy)
          = (out, [] ++ [EvFetch (DiscogsSearchReq (expected_query meta_noisy)
                                    (DISCOGS_TOKEN env_plain)) ans]))) /\
  expected_query meta_noisy
    = [("artist", "miles davis "); ("release_title", "Kind Of Blue"); ("catno", "CL 1355")] /\
  run w_priced [] (discogsSearch host env_plain meta_blank)
    = (Returned (VObj [("results", VArr [])]), []).
Proof.
  split; [ | split].
  - apply (search_query host env_plain w_priced meta_noisy []).
    repeat split.
  - reflexivity.
  - apply (proj1 (proj2 (search_query host env_plain w_priced meta_blank []
                           (conj I (conj I (conj I I)))))).
    reflexivity.
Defined.

(** A reply with an artist and an empty title: the artist is the reply's,
    the title the input's. *)
Lemma normalizer_field_fallback_witness :
  exists out,
    run w_ai_reply [] (aiNormalize host env_ai meta_noisy)
      = (Returned out, asked_ai meta_noisy (http 200 "" (Some (chat_body reply_text)))) /\
    artist out = VStr "Miles Davis" /\ title out = VStr "Kind Of Blue".
Proof.
  destruct (normalizer_field_fallback host env_ai w_ai_reply meta_noisy "sk-test"
              {| status := 200; text := ""; json := Some (chat_body reply_text) |}
              (chat_body reply_text) reply_object []
              eq_refl ltac:(discriminate) eq_refl eq_refl eq_refl eq_refl)
    as (out & Hrun & _ & _ & Hmix & _).
  exists out. split; [exact Hrun | ].
  apply Hmix; [reflexivity | reflexivity | reflexivity | right; reflexivity].
Defined.

End Cases.

(* ================================================================== *)
(** ** What a run of the pipeline does and never does *)

Module PipelineRuns.

Import Estimate Spec Scenario Runs Facts EstimateSpec.

Ltac invert_runs :=
  repeat match goal with
         | H : pipeline_run _ _ _ _ _ |- _ => inversion H; clear H; subst
         | H : ai_run _ _ _ _ _ |- _ => inversion H; clear H; subst
         | H : search_run _ _ _ _ _ |- _ => inversion H; clear H; subst
         | H : stats_run _ _ _ _ _ |- _ => inversion H; clear H; subst
         end;
  unfold search_request, stats_request in *.

Section Pipeline.

Variable B : Builtins.
Variable env : Env.
Variable w : World.

Lemma run_ai_run (meta : Meta) (tr tr' : list Event) (o : Outcome Meta) :
  run w tr (aiNormalize B env meta) = (o, tr') ->
  exists a, tr' = tr ++ a /\ ai_run B env meta a o.
Proof.
  rewrite run_aiNormalize.
  destruct (OPENAI_API_KEY env) as [k | ] eqn:Hk.
  2:{ intros H; inversion H; subst. exists []. rewrite app_nil_r. split; [reflexivity | ].
      constructor. rewrite Hk. reflexivity. }
  destruct (String.eqb_spec k "") as [-> | Hne].
  { intros H; inversion H; subst. exists []. rewrite app_nil_r. split; [reflexivity | ].
    constructor. rewrite Hk. reflexivity. }
  cbv zeta.
  destruct (net w tr (OpenAIChatReq k meta)) as [ | res].
  { intros H; inversion H; subst. eexists. split; [reflexivity | ].
    apply ai_unreachable; assumption. }
  destruct (ok res) eqn:Hok.
  2:{ intros H; inversion H; subst. eexists. split; [reflexivity | ].
      apply ai_refused; assumption. }
  destruct (json res) as [data | ] eqn:Hj.
  - intros H; inversion H; subst. eexists. split; [reflexivity | ].
    apply ai_replied; assumption.
  - intros H; inversion H; subst. eexists. split; [reflexivity | ].
    apply ai_undecodable; assumption.
Qed.

Lemma run_search_run (clean : Meta) (tr tr' : list Event) (o : Outcome value) :
  run w tr (discogsSearch B env clean) = (o, tr') ->
  exists s, tr' = tr ++ s /\ search_run B env clean s o.
Proof.
  rewrite run_discogsSearch.
  destruct (search_params B clean) as [ | p q] eqn:Hq.
  { intros H; inversion H; subst. exists []. rewrite app_nil_r. split; [reflexivity | ].
    apply search_skipped. exact Hq. }
  assert (Hne : search_params B clean <> []) by (rewrite Hq; discriminate).
  cbv zeta. rewrite <- Hq. fold (search_request B env clean).
  destruct (net w tr (search_request B env clean)) as [ | res].
  { intros H; inversion H; subst. eexists. split; [reflexivity | ].
    apply search_unreachable; assumption. }
  destruct (ok res) eqn:Hok.
  2:{ intros H; inversion H; subst. eexists. split; [reflexivity | ].
      apply search_refused; assumption. }
  destruct (json res) as [v | ] eqn:Hj.
  - intros H; inversion H; subst. eexists. split; [reflexivity | ].
    apply search_answered; assumption.
  - intros H; inversion H; subst. eexists. split; [reflexivity | ].
    apply search_undecodable; assumption.
Qed.

Lemma run_stats_run (releaseId : value) (tr tr' : list Event) (o : Outcome value) :
  run w tr (discogsReleaseStats B env releaseId) = (o, tr') ->
  exists t, tr' = tr ++ t /\ stats_run B env releaseId t o.
Proof.
  rewrite run_discogsReleaseStats.
  destruct (truthy releaseId) eqn:Hid.
  2:{ intros H; inversion H; subst. exists []. rewrite app_nil_r. split; [reflexivity | ].
      apply stats_no_id. exact Hid. }
  cbv zeta. fold (stats_request B env releaseId).
  destruct (net w tr (stats_request B env releaseId)) as [ | res].
  { intros H; inversion H; subst. eexists. split; [reflexivity | ].
    apply stats_unreachable; assumption. }
  destruct (ok res) eqn:Hok.
  2:{ intros H; inversion H; subst. eexists. split; [reflexivity | ].
      apply stats_refused; assumption. }
  destruct (json res) as [v | ] eqn:Hj.
  - intros H; inversion H; subst. eexists. split; [reflexivity | ].
    apply stats_answered; assumption.
  - intros H; inversion H; subst. eexists. split; [reflexivity | ].
    apply stats_undecodable; assumption.
Qed.

(** Every run of [estimateFromMetadata] extends the history by the events
    of one of the runs [pipeline_run] lists. *)
Lemma run_pipeline_run (meta : Meta) (tr tr' : list Event) (out : Outcome Estimate) :
  run w tr (estimateFromMetadata B env meta) = (out, tr') ->
  exists evs, tr' = tr ++ evs /\ pipeline_run B env meta evs out.
Proof.
  rewrite run_estimateFromMetadata.
  destruct (run w tr (aiNormalize B env meta)) as [[clean | e] tr1] eqn:Ha;
    destruct (run_ai_run meta tr tr1 _ Ha) as (a & -> & Hai).
  2:{ intros H; inversion H; subst. exists a. split; [reflexivity | ].
      apply run_normalizer_threw. exact Hai. }
  rewrite run_estimateFromClean.
  destruct (run w ((tr ++ a) ++ [EvSleep 150]) (discogsSearch B env clean))
    as [[search | e] tr2] eqn:Hs;
    destruct (run_search_run clean _ tr2 _ Hs) as (s & -> & Hsr).
  2:{ intros H; inversion H; subst. exists (a ++ EvSleep 150 :: s).
      split; [rewrite <- !app_assoc; reflexivity | ].
      eapply run_search_threw; eassumption. }
  destruct (pick_first search) as [e | first] eqn:Hp.
  { intros H; inversion H; subst. exists (a ++ EvSleep 150 :: s).
    split; [rewrite <- !app_assoc; reflexivity | ].
    eapply run_selection_threw; eassumption. }
  destruct (truthy first) eqn:Ht.
  2:{ intros H; inversion H; subst. exists (a ++ EvSleep 150 :: s).
      split; [rewrite <- !app_assoc; reflexivity | ].
      eapply run_unmatched; eassumption. }
  rewrite (run_price_candidate B env w first _ Ht).
  destruct (run w ((((tr ++ a) ++ [EvSleep 150]) ++ s) ++ [EvSleep 150])
              (discogsReleaseStats B env (opt_get first "id"))) as [o tr3] eqn:Hst.
  destruct (run_stats_run _ _ tr3 _ Hst) as (t & -> & Htr).
  intros H. exists (a ++ EvSleep 150 :: s ++ EvSleep 150 :: t).
  split.
  - destruct o; inversion H; subst; rewrite <- !app_assoc; reflexivity.
  - assert (out = outcome_map (priced B first) o) as ->
      by (destruct o; inversion H; reflexivity).
    eapply run_matched; eassumption.
Qed.

(** The only error candidate selection raises is a TypeError. *)
Lemma find_release_error (items : list value) (e : error) :
  find_release items = inl e -> e = TypeError.
Proof.
  induction items as [ | r rest IH]; simpl; [discriminate | ].
  unfold is_release.
  destruct (get r "type") as [e' | v] eqn:Hg.
  - destruct r; simpl in Hg; inversion Hg; subst; intros H; inversion H; reflexivity.
  - destruct v; try exact IH.
    destruct (String.eqb s "release"); [discriminate | exact IH].
Qed.

Lemma pick_first_error (search : value) (e : error) :
  pick_first search = inl e -> e = TypeError.
Proof.
  unfold pick_first.
  destruct (get search "results") as [e' | results] eqn:Hg.
  { destruct search; simpl in Hg; inversion Hg; subst; intros H; inversion H; reflexivity. }
  destruct (opt_find_release results) as [e' | found] eqn:Hf.
  - intros H; inversion H; subst.
    destruct results; simpl in Hf; try discriminate;
      try (inversion Hf; reflexivity).
    exact (find_release_error _ _ Hf).
  - destruct (truthy found); discriminate.
Qed.


(** X2: a run makes at most one request to the normalizer, one search and
    one statistics request, in that order, and never touches the
    database. *)
Theorem request_budget (meta : Meta) (tr tr' : list Event) (out : Outcome Estimate) :
  run w tr (estimateFromMetadata B env meta) = (out, tr') ->
  exists evs,
    tr' = tr ++ evs /\
    (count is_openai evs <= 1)%nat /\
    (count is_search evs <= 1)%nat /\
    (count is_stats evs <= 1)%nat /\
    count is_query evs = 0%nat /\
    before is_openai is_discogs evs = true /\
    before is_search is_stats evs = true.
Proof.
  intros H. destruct (run_pipeline_run meta tr tr' out H) as (evs & -> & Hp).
  exists evs. split; [reflexivity | ].
  invert_runs; cbv [count]; simpl; repeat split; auto.
Qed.

(** X3: a run throws the error of a failed [fetch] exactly when one of its
    requests got no response; a request without response is then the last
    thing the run did. *)
Theorem unanswered_request_throws (meta : Meta) (tr tr' : list Event)
    (out : Outcome Estimate) :
  run w tr (estimateFromMetadata B env meta) = (out, tr') ->
  exists evs,
    tr' = tr ++ evs /\
    (existsb is_rejected evs = true <-> out = Thrown FetchFailed) /\
    (existsb is_rejected evs = true ->
     exists rq, last evs (EvSleep 0) = EvFetch rq Rejected).
Proof.
  intros H. destruct (run_pipeline_run meta tr tr' out H) as (evs & -> & Hp).
  exists evs. split; [reflexivity | ].
  invert_runs;
    try match goal with
        | Hp : pick_first _ = inl _ |- _ => apply pick_first_error in Hp; subst
        end;
    simpl; split;
    try (split; intros; (reflexivity || discriminate));
    try (intros; discriminate);
    try (intros _; eexists; reflexivity).
Qed.

(** X4: without a key nothing is sent to the normalizer; with one, the only
    thing ever sent there is the input metadata, under that key. *)
Theorem normalizer_requests (meta : Meta) (tr tr' : list Event) (out : Outcome Estimate) :
  run w tr (estimateFromMetadata B env meta) = (out, tr') ->
  exists evs,
    tr' = tr ++ evs /\
    (no_key (OPENAI_API_KEY env) = true -> count is_openai evs = 0%nat) /\
    (forall k m ans,
       In (EvFetch (OpenAIChatReq k m) ans) evs ->
       m = meta /\ OPENAI_API_KEY env = Some k /\ k <> "").
Proof.
  intros H. destruct (run_pipeline_run meta tr tr' out H) as (evs & -> & Hp).
  exists evs. split; [reflexivity | ].
  assert (Hkey : forall k, OPENAI_API_KEY env = Some k -> k <> "" ->
                           no_key (OPENAI_API_KEY env) = true -> False).
  { intros k Hk Hne Hno. rewrite Hk in Hno. simpl in Hno.
    destruct (String.eqb_spec k ""); [contradiction | discriminate]. }
  split.
  - intros Hno.
    invert_runs; try reflexivity;
      match goal with
      | Hk : OPENAI_API_KEY env = Some ?k, Hne : ?k <> "" |- _ =>
          exfalso; exact (Hkey k Hk Hne Hno)
      end.
  - intros k m ans Hin.
    invert_runs; simpl in Hin;
      repeat match goal with
             | Hin : _ \/ _ |- _ => destruct Hin as [Hin | Hin]
             | Hin : False |- _ => contradiction
             | Hin : _ = EvFetch (OpenAIChatReq _ _) _ |- _ =>
                 inversion Hin; clear Hin; subst
             end;
      auto.
Qed.

Lemma last_snoc (evs : list Event) (ev d : Event) : last (evs ++ [ev]) d = ev.
Proof.
  induction evs as [ | x rest IH]; simpl; [reflexivity | ].
  destruct (rest ++ [ev]) eqn:Hr; [destruct rest; discriminate | exact IH].
Qed.

(** X5: the errors a run can end with are those of a request without
    response, of a body that is not JSON, of a malformed search result, and
    the search error; the search error carries the status and the body of
    the non-success answer the search just got. *)
Theorem thrown_errors (meta : Meta) (tr tr' : list Event) (e : error) :
  run w tr (estimateFromMetadata B env meta) = (Thrown e, tr') ->
  e = FetchFailed \/ e = SyntaxError \/ e = TypeError \/
  exists rq res,
    e = DiscogsSearchError (status res) (text res) /\
    ok res = false /\
    is_search (EvFetch rq (Resolved res)) = true /\
    last tr' (EvSleep 0) = EvFetch rq (Resolved res).
Proof.
  intros H. destruct (run_pipeline_run meta tr tr' _ H) as (evs & -> & Hp).
  inversion Hp; subst; clear Hp.
  - invert_runs; auto.
  - match goal with
    | Hs : search_run _ _ _ _ (Thrown _) |- _ => inversion Hs; subst; clear Hs
    end; auto.
    right; right; right. exists (search_request B env clean), res.
    repeat split; auto.
    rewrite app_assoc.
    change (EvSleep 150 :: [EvFetch (search_request B env clean) (Resolved res)])
      with ([EvSleep 150] ++ [EvFetch (search_request B env clean) (Resolved res)]).
    rewrite !app_assoc. apply last_snoc.
  - match goal with
    | Hk : pick_first _ = inl _ |- _ => apply pick_first_error in Hk; subst
    end; auto.
  - match goal with
    | Ho : outcome_map _ ?o = Thrown _ |- _ => destruct o; inversion Ho; subst
    | Ho : Thrown _ = outcome_map _ ?o |- _ => destruct o; inversion Ho; subst
    end.
    match goal with
    | Hs : stats_run _ _ _ _ (Thrown _) |- _ => inversion Hs; subst; clear Hs
    end; auto.
Qed.

(** X6: a search answer without a result list is treated like an empty
    list; a result list that is not an array makes the run throw a
    TypeError. *)
Theorem malformed_search_answer (meta clean : Meta) (search : value)
    (tr0 tr1 tr2 : list Event) :
  run w tr0 (aiNormalize B env meta) = (Returned clean, tr1) ->
  run w (tr1 ++ [EvSleep 150]) (discogsSearch B env clean) = (Returned search, tr2) ->
  nullish search = false ->
  (nullish (opt_get search "results") = true ->
     run w tr0 (estimateFromMetadata B env meta)
       = (Returned (unmatched clean search), tr2)) /\
  (nullish (opt_get search "results") = false ->
   (forall items, opt_get search "results" <> VArr items) ->
     run w tr0 (estimateFromMetadata B env meta) = (Thrown TypeError, tr2)).
Proof.
  intros Hn Hs Hnn.
  rewrite run_estimateFromMetadata, Hn, run_estimateFromClean, Hs.
  unfold pick_first. rewrite (get_not_nullish search "results" Hnn).
  split.
  - intros Hr. destruct (opt_get search "results"); try discriminate; reflexivity.
  - intros Hr Harr.
    destruct (opt_get search "results") as [ | | b | n | s | items | f];
      try discriminate; try reflexivity.
    exfalso. exact (Harr items eq_refl).
Qed.

(** X7: the normalizer never blanks a field: the artist and the title it
    returns are each the input's or a value that is not empty. *)
Theorem normalizer_never_blanks (meta out : Meta) (tr tr' : list Event) :
  run w tr (aiNormalize B env meta) = (Returned out, tr') ->
  (artist out = artist meta \/ truthy (artist out) = true) /\
  (title out = title meta \/ truthy (title out) = true).
Proof.
  intros H. destruct (run_ai_run meta tr tr' _ H) as (a & _ & Ha).
  inversion Ha; subst; auto.
  unfold normalized.
  destruct (nullish data); auto.
  destruct (JSON_parse B (ToString B (reply_content data))) as [parsed | ]; auto.
  destruct (nullish parsed); auto.
  simpl. unfold js_or.
  destruct (truthy (opt_get parsed "artist")) eqn:Hpa,
           (truthy (opt_get parsed "title")) eqn:Hpt; auto.
Qed.

(** X8: whatever the metadata holds, the search query has at most four
    parameters, with distinct names among artist, release_title, catno and
    barcode; the label is never sent. *)
Theorem search_query_names (m : Meta) :
  NoDup (map fst (search_params B m)) /\
  incl (map fst (search_params B m)) ["artist"; "release_title"; "catno"; "barcode"] /\
  ~ In "label" (map fst (search_params B m)) /\
  (List.length (search_params B m) <= 4)%nat.
Proof.
  rewrite search_params_truthy. unfold named_fields. simpl.
  destruct (truthy (artist m)), (truthy (title m)), (truthy (catno m)),
    (truthy (barcode m)); simpl;
    (split; [ | split; [ | split]]);
    try (repeat constructor; simpl; intuition discriminate);
    try (intros x Hx; simpl in *; intuition);
    try (simpl; intuition discriminate);
    try (repeat constructor).
Qed.

(** X13: the statistics a run asks for are those of the release its result
    reports: the id in the statistics request is the [release_id] of the
    result's extras. *)
Theorem stats_of_reported_release (meta : Meta) (tr tr' : list Event)
    (r : Estimate) (x : Matched.t) :
  run w tr (estimateFromMetadata B env meta) = (Returned r, tr') ->
  extras r = ExtrasMatch x ->
  exists evs,
    tr' = tr ++ evs /\
    forall id tok ans,
      In (EvFetch (DiscogsStatsReq id tok) ans) evs ->
      id = ToString B (Matched.release_id x) /\ tok = DISCOGS_TOKEN env.
Proof.
  intros H Hx. destruct (run_pipeline_run meta tr tr' _ H) as (evs & -> & Hp).
  exists evs. split; [reflexivity | ].
  intros id tok ans Hin.
  inversion Hp; subst; clear Hp; try discriminate.
  match goal with
  | Ho : outcome_map _ ?o = Returned r |- _ => destruct o; inversion Ho; subst
  end.
  simpl in Hx. inversion Hx; subst; clear Hx. simpl.
  apply in_app_or in Hin. destruct Hin as [Hin | Hin].
  { invert_runs; simpl in Hin; intuition discriminate. }
  simpl in Hin. destruct Hin as [Hin | Hin]; [discriminate | ].
  apply in_app_or in Hin. destruct Hin as [Hin | Hin].
  { invert_runs; simpl in Hin; intuition discriminate. }
  simpl in Hin. destruct Hin as [Hin | Hin]; [discriminate | ].
  invert_runs; simpl in Hin;
    repeat match goal with
           | Hin : _ \/ _ |- _ => destruct Hin as [Hin | Hin]
           | Hin : False |- _ => contradiction
           | Hin : EvFetch _ _ = EvFetch _ _ |- _ => inversion Hin; clear Hin; subst
           end;
    split; reflexivity.
Qed.

(** The normalizer requests of any of the listed runs carry the input. *)
Lemma pipeline_run_openai (meta : Meta) (evs : list Event) (out : Outcome Estimate)
    (k : string) (m : Meta) (ans : FetchResult) :
  pipeline_run B env meta evs out ->
  In (EvFetch (OpenAIChatReq k m) ans) evs -> m = meta.
Proof.
  intros Hp Hin.
  invert_runs; simpl in Hin;
    repeat match goal with
           | Hin : _ \/ _ |- _ => destruct Hin as [Hin | Hin]
           | Hin : False |- _ => contradiction
           | Hin : _ = EvFetch (OpenAIChatReq _ _) _ |- _ =>
               inversion Hin; clear Hin; subst
           end;
    auto.
Qed.

(** X26: metadata with nothing to search by (no artist, title, catno or
    barcode after normalization; a label alone does not count) gives the
    no-results estimate with a count of 0, after the pause and without any
    request to Discogs. *)
Theorem unsearchable_metadata (meta clean : Meta) (tr0 tr1 : list Event) :
  run w tr0 (aiNormalize B env meta) = (Returned clean, tr1) ->
  truthy (artist clean) = false ->
  truthy (title clean) = false ->
  truthy (catno clean) = false ->
  truthy (barcode clean) = false ->
  exists r x,
    run w tr0 (estimateFromMetadata B env meta) = (Returned r, tr1 ++ [EvSleep 150]) /\
    null_prices r /\
    extras r = ExtrasNone x /\
    note x = "no results" /\ query x = clean /\ search_count x = VNum 0%float.
Proof.
  intros Hn Ha Ht Hc Hb.
  assert (Hq : search_params B clean = []).
  { unfold search_params. rewrite Ha, Ht, Hc, Hb. reflexivity. }
  rewrite run_estimateFromMetadata, Hn, run_estimateFromClean, run_discogsSearch, Hq.
  simpl. eexists. eexists. split; [reflexivity | ].
  repeat split.
Qed.

End Pipeline.

End PipelineRuns.

(* ================================================================== *)
(** ** What the worker does with a job *)

Module WorkerRuns.

Import Estimate Worker Spec Scenario Runs Facts EstimateSpec PipelineRuns.

Section Processor.

Variable B : Builtins.
Variable env : Env.
Variable w : World.

(** Every run of the processor on an 'estimate' job is one of [job_run]. *)
Lemma run_job_run (job : JobQueue.Job) (tr tr' : list Event) (out : Outcome value) :
  JobQueue.name job = "estimate" ->
  run w tr (processor B env job) = (out, tr') ->
  exists evs, tr' = tr ++ evs /\ job_run B env job evs out.
Proof.
  intros Hname. unfold processor. rewrite Hname. simpl.
  destruct (get (JobQueue.data job) "recordId") as [e | rid] eqn:Hrid; simpl.
  { intros H; inversion H; subst. exists []. rewrite app_nil_r.
    split; [reflexivity | apply job_no_payload; exact Hrid]. }
  destruct (db w tr select_record [rid]) as [ | rows]; simpl.
  { intros H; inversion H; subst. eexists. split; [reflexivity | ].
    apply job_select_failed; exact Hrid. }
  destruct rows as [ | record rest]; simpl.
  { intros H; inversion H; subst. eexists. split; [reflexivity | ].
    apply job_record_missing; exact Hrid. }
  destruct (nullish record) eqn:Hrec.
  { destruct record; try discriminate; simpl;
      intros H; inversion H; subst; eexists; (split; [reflexivity | ]);
      apply job_row_unreadable; auto. }
  rewrite !(get_not_nullish record _ Hrec). simpl.
  fold (meta_of_row record).
  rewrite run_bind.
  destruct (run w (tr ++ [EvQuery select_record [rid] (QRows (record :: rest))])
              (estimateFromMetadata B env (meta_of_row record))) as [[r | e] tr1] eqn:Hp;
    destruct (run_pipeline_run B env w _ _ tr1 _ Hp) as (pevs & -> & Hpr).
  2:{ intros H; inversion H; subst. eexists.
      split; [rewrite <- app_assoc; reflexivity | ].
      apply job_pipeline_threw; assumption. }
  simpl. fold (snapshot_params rid r).
  destruct (db w _ insert_estimate (snapshot_params rid r)) as [ | rows]; simpl.
  - intros H; inversion H; subst. eexists.
    split; [rewrite <- !app_assoc; reflexivity | ].
    apply job_insert_failed; assumption.
  - intros H; inversion H; subst. eexists.
    split; [rewrite <- !app_assoc; reflexivity | ].
    apply job_stored; assumption.
Qed.

Lemma count_app (f : Event -> bool) (a b : list Event) :
  count f (a ++ b) = (count f a + count f b)%nat.
Proof. unfold count. rewrite filter_app, length_app. reflexivity. Qed.

Lemma count_none (f g : Event -> bool) (evs : list Event) :
  (forall ev, f ev = true -> g ev = true) ->
  existsb g evs = false -> count f evs = 0%nat.
Proof.
  intros Hfg. induction evs as [ | ev rest IH]; simpl; [reflexivity | ].
  intros H. apply Bool.orb_false_iff in H. destruct H as [Hg Hrest].
  unfold count in *. simpl.
  destruct (f ev) eqn:Hf; [rewrite (Hfg ev Hf) in Hg; discriminate | ].
  apply IH. exact Hrest.
Qed.

Lemma insert_is_query (ev : Event) : is_insert ev = true -> is_query ev = true.
Proof. destruct ev; simpl; intros H; (discriminate || reflexivity). Qed.

Lemma select_is_query (ev : Event) : is_select ev = true -> is_query ev = true.
Proof. destruct ev; simpl; intros H; (discriminate || reflexivity). Qed.

Lemma pipeline_run_no_query (meta : Meta) (evs : list Event) (out : Outcome Estimate) :
  pipeline_run B env meta evs out -> existsb is_query evs = false.
Proof. intros Hp. invert_runs; reflexivity. Qed.

(** X9: a job of any other kind than 'estimate' is a no-op: the processor
    returns [{ok: true}] and makes no query and no request. *)
Theorem other_kinds_are_noops (job : JobQueue.Job) (tr : list Event) :
  JobQueue.name job <> "estimate" ->
  run w tr (processor B env job) = (Returned (VObj [("ok", VBool true)]), tr).
Proof.
  intros Hname. unfold processor.
  destruct (String.eqb_spec (JobQueue.name job) "estimate") as [Heq | _];
    [contradiction | reflexivity].
Qed.

(** X10: the processor reports a job done only after the snapshot insert
    has succeeded, as the last thing it did; the estimate it reports is the
    one it stored. *)
Theorem done_only_after_snapshot (job : JobQueue.Job) (tr tr' : list Event) (v : value) :
  JobQueue.name job = "estimate" ->
  run w tr (processor B env job) = (Returned v, tr') ->
  exists rid r rows,
    get (JobQueue.data job) "recordId" = inr rid /\
    last tr' (EvSleep 0)
      = EvQuery insert_estimate (snapshot_params rid r) (QRows rows) /\
    v = job_done rid r.
Proof.
  intros Hname H.
  destruct (run_job_run job tr tr' _ Hname H) as (evs & -> & Hj).
  inversion Hj; subst.
  exists rid, out, rows. split; [assumption | ]. split; [ | reflexivity].
  rewrite app_comm_cons, app_assoc. apply last_snoc.
Qed.

(** X11: a run of the processor reads the record at most once and writes
    at most one snapshot; it writes none when the record cannot be loaded
    or the pipeline throws. *)
Theorem at_most_one_snapshot (job : JobQueue.Job) (tr tr' : list Event)
    (out : Outcome value) :
  JobQueue.name job = "estimate" ->
  run w tr (processor B env job) = (out, tr') ->
  exists evs,
    tr' = tr ++ evs /\
    (count is_select evs <= 1)%nat /\
    (count is_insert evs <= 1)%nat /\
    (forall e, out = Thrown e -> e <> QueryFailed -> count is_insert evs = 0%nat).
Proof.
  intros Hname H.
  destruct (run_job_run job tr tr' _ Hname H) as (evs & -> & Hj).
  exists evs. split; [reflexivity | ].
  inversion Hj; subst;
    try (cbv [count]; simpl; repeat split; auto;
         intros e0 He Hne; first [reflexivity | inversion He; subst; contradiction]);
    match goal with
    | Hp : pipeline_run _ _ _ ?pevs _ |- _ =>
        pose proof (pipeline_run_no_query _ _ _ Hp) as Hq;
        pose proof (count_none is_insert is_query pevs insert_is_query Hq) as Hi;
        pose proof (count_none is_select is_query pevs select_is_query Hq) as Hs
    end.
  - change (EvQuery select_record [rid] (QRows (record :: rest)) :: pevs)
      with ([EvQuery select_record [rid] (QRows (record :: rest))] ++ pevs).
    rewrite !count_app, Hi, Hs. cbv [count]; simpl. repeat split; auto.
  - change (EvQuery select_record [rid] (QRows (record :: rest)) :: pevs ++
            [EvQuery insert_estimate (snapshot_params rid out0) QRejected])
      with ([EvQuery select_record [rid] (QRows (record :: rest))] ++ pevs ++
            [EvQuery insert_estimate (snapshot_params rid out0) QRejected]).
    rewrite !count_app, Hi, Hs. cbv [count]; simpl. repeat split; auto.
    intros e He Hne. inversion He; subst. contradiction.
  - change (EvQuery select_record [rid] (QRows (record :: rest)) :: pevs ++
            [EvQuery insert_estimate (snapshot_params rid out0) (QRows rows)])
      with ([EvQuery select_record [rid] (QRows (record :: rest))] ++ pevs ++
            [EvQuery insert_estimate (snapshot_params rid out0) (QRows rows)]).
    rewrite !count_app, Hi, Hs. cbv [count]; simpl. repeat split; auto.
    intros e He. discriminate He.
Qed.

(** X12: the processor calls no external service before it has loaded the
    record: a run with a request starts with a successful read of a row;
    when the read finds no row the job fails with the record's id and
    nothing else happens. *)
Theorem record_loaded_first (job : JobQueue.Job) (tr tr' : list Event)
    (out : Outcome value) :
  JobQueue.name job = "estimate" ->
  run w tr (processor B env job) = (out, tr') ->
  exists evs,
    tr' = tr ++ evs /\
    (existsb is_fetch evs = true ->
     exists rid record rest,
       hd (EvSleep 0) evs = EvQuery select_record [rid] (QRows (record :: rest))) /\
    (forall rid ps,
       hd (EvSleep 0) evs = EvQuery select_record ps (QRows []) ->
       get (JobQueue.data job) "recordId" = inr rid ->
       out = Thrown (RecordNotFound rid) /\ List.length evs = 1%nat).
Proof.
  intros Hname H.
  destruct (run_job_run job tr tr' _ Hname H) as (evs & -> & Hj).
  exists evs. split; [reflexivity | ].
  inversion Hj; subst; simpl; split;
    try (intros; discriminate);
    try (intros _; eauto).
  intros rid0 ps _ Hrid. rewrite Hrid in *.
  match goal with Hg : inr _ = inr _ |- _ => inversion Hg; subst end.
  split; reflexivity.
Qed.

(** X27: what the worker hands to the normalizer is the metadata of the
    row it loaded, its artist, title, label, catno and barcode, and
    nothing else of the row. *)
Theorem worker_sends_row_metadata (job : JobQueue.Job) (tr tr' : list Event)
    (out : Outcome value) :
  JobQueue.name job = "estimate" ->
  run w tr (processor B env job) = (out, tr') ->
  exists evs,
    tr' = tr ++ evs /\
    forall k m ans,
      In (EvFetch (OpenAIChatReq k m) ans) evs ->
      exists rid record rest,
        hd (EvSleep 0) evs = EvQuery select_record [rid] (QRows (record :: rest)) /\
        m = meta_of_row record.
Proof.
  intros Hname H.
  destruct (run_job_run job tr tr' _ Hname H) as (evs & -> & Hj).
  exists evs. split; [reflexivity | ].
  intros k m ans Hin.
  inversion Hj; subst; simpl in Hin;
    try (intuition discriminate);
    destruct Hin as [Hin | Hin]; try discriminate;
    exists rid, record, rest; (split; [reflexivity | ]).
  - eapply pipeline_run_openai; eassumption.
  - apply in_app_or in Hin. destruct Hin as [Hin | [Hin | []]]; [ | discriminate].
    eapply pipeline_run_openai; eassumption.
  - apply in_app_or in Hin. destruct Hin as [Hin | [Hin | []]]; [ | discriminate].
    eapply pipeline_run_openai; eassumption.
Qed.

End Processor.

End WorkerRuns.

(* ================================================================== *)
(** ** Start-up: the database pool and the Redis guard *)

Module BootSpec.

Import Ascii Boot.

Lemma prefix_append (p s : string) :
  String.prefix p s = true <-> exists rest, s = String.append p rest.
Proof.
  revert s. induction p as [ | a p IH]; intros s.
  - split; [intros _; exists s; reflexivity | destruct s; reflexivity].
  - destruct s as [ | b s]; simpl.
    + split; [discriminate | intros [rest H]; discriminate].
    + destruct (Ascii.ascii_dec a b) as [-> | Hne].
      * rewrite IH. split; intros [rest H]; exists rest.
        -- rewrite H. reflexivity.
        -- inversion H. reflexivity.
      * split; [discriminate | ].
        intros [rest H]. inversion H. subst. contradiction Hne. reflexivity.
Qed.

(** X14: the queue and the worker start only on a Redis URL that begins
    with rediss://; an unset URL, and any other scheme, stop the module
    with an error. *)
Theorem redis_requires_tls (REDIS_URL : option string) (u : string) :
  connection REDIS_URL = inr u <->
  REDIS_URL = Some u /\ exists rest, u = String.append "rediss://" rest.
Proof.
  unfold connection, startsWith.
  destruct REDIS_URL as [url | ].
  - destruct (String.prefix "rediss://" url) eqn:Hp; simpl.
    + apply prefix_append in Hp. split.
      * intros H; inversion H; subst. split; [reflexivity | exact Hp].
      * intros [H _]; inversion H; reflexivity.
    + split; [discriminate | ].
      intros [H Hrest]; inversion H; subst.
      pose proof (proj2 (prefix_append "rediss://" u) Hrest) as Hq.
      rewrite Hq in Hp. discriminate.
  - simpl. split; [discriminate | intros [H _]; discriminate].
Qed.

Lemma lower_is (lo up c : ascii) :
  (lo = "f" /\ up = "F" \/ lo = "a" /\ up = "A" \/ lo = "l" /\ up = "L" \/
   lo = "s" /\ up = "S" \/ lo = "e" /\ up = "E")%char ->
  Ascii.eqb (toLowerCase_char c) lo = either lo up c.
Proof.
  intros [[-> ->] | [[-> ->] | [[-> ->] | [[-> ->] | [-> ->]]]]];
    destruct c as [[] [] [] [] [] [] [] []]; reflexivity.
Qed.

Lemma lower_false (s : string) :
  String.eqb (toLowerCase s) "false" = spells_false s.
Proof.
  destruct s as [ | c1 [ | c2 [ | c3 [ | c4 [ | c5 [ | c6 s]]]]]]; simpl;
    try reflexivity;
    repeat match goal with
           | |- context [Ascii.eqb (toLowerCase_char ?c) ?lo] =>
               rewrite (lower_is lo _ c) by (simpl; tauto)
           end;
    repeat match goal with
           | |- context [either ?lo ?up ?c] => destruct (either lo up c); simpl
           end;
    try reflexivity.
Qed.

(** X15: the pool talks to the database without TLS exactly when
    DATABASE_SSL spells false, in any mix of capitals; unset, empty or set
    to anything else, TLS is on, and then without certificate check. *)
Theorem ssl_off_only_for_false (DATABASE_URL DATABASE_SSL : option string) :
  (ssl (pool DATABASE_URL DATABASE_SSL) = SslOff <->
   exists v, DATABASE_SSL = Some v /\ spells_false v = true) /\
  (ssl (pool DATABASE_URL DATABASE_SSL) = SslUnverified <->
   needsSSL DATABASE_SSL = true).
Proof.
  unfold pool; simpl. split.
  - destruct DATABASE_SSL as [v | ]; simpl.
    + rewrite lower_false.
      destruct (String.eqb_spec v "") as [-> | Hne]; simpl.
      * split; [discriminate | intros (v & H & Hs); inversion H; subst; discriminate].
      * destruct (spells_false v) eqn:Hs; simpl.
        -- split; [intros _; exists v; auto | reflexivity].
        -- split; [discriminate | ].
           intros (v' & H & Hs'); inversion H; subst. rewrite Hs in Hs'. discriminate.
    + split; [discriminate | intros (v & H & _); discriminate].
  - destruct (needsSSL DATABASE_SSL); split; (reflexivity || discriminate).
Qed.

End BootSpec.

(* ================================================================== *)
(** ** The routes of server.js *)

Module ServerSpec.

Import Estimate Spec Scenario Runs Server Routes Facts.

(** *** Cleaning a posted field *)

Lemma trimStart_head (s : string) (c : Ascii.ascii) (r : string) :
  trimStart s = String c r -> is_space c = false.
Proof.
  induction s as [ | a s IH]; simpl; [discriminate | ].
  destruct (is_space a) eqn:Ha; [exact IH | ].
  intros H; inversion H; subst. exact Ha.
Qed.

Lemma trimEnd_head (s : string) (c : Ascii.ascii) (r : string) :
  trimEnd s = String c r -> exists r0, s = String c r0.
Proof.
  destruct s as [ | a s]; simpl; [discriminate | ].
  destruct (trimEnd s); [destruct (is_space a); [discriminate | ] | ];
    intros H; inversion H; subst; eauto.
Qed.

Lemma trim_head (s : string) (c : Ascii.ascii) (r : string) :
  trim s = String c r -> is_space c = false.
Proof.
  unfold trim. intros H.
  destruct (trimEnd_head _ _ _ H) as [r0 Hr0].
  exact (trimStart_head s c r0 Hr0).
Qed.

Lemma trimStart_fixed (c : Ascii.ascii) (r : string) :
  is_space c = false -> trimStart (String c r) = String c r.
Proof. intros H. simpl. rewrite H. reflexivity. Qed.

Lemma trimEnd_idem (s : string) : trimEnd (trimEnd s) = trimEnd s.
Proof.
  induction s as [ | a s IH]; simpl; [reflexivity | ].
  destruct (trimEnd s) as [ | b t] eqn:Ht.
  - destruct (is_space a) eqn:Ha; simpl; [reflexivity | rewrite Ha; reflexivity].
  - simpl in *. rewrite IH. reflexivity.
Qed.

Lemma trim_idem (s : string) : trim (trim s) = trim s.
Proof.
  destruct (trim s) as [ | c r] eqn:Ht; [reflexivity | ].
  unfold trim at 1. rewrite (trimStart_fixed c r (trim_head s c r Ht)).
  rewrite <- Ht. unfold trim. apply trimEnd_idem.
Qed.

Lemma slice0_length (n : nat) (s : string) :
  (String.length (slice0 n s) <= n)%nat.
Proof.
  unfold slice0. revert s. induction n as [ | n IH]; intros s.
  - destruct s; simpl; auto.
  - destruct s as [ | c s]; simpl; [apply Nat.le_0_l | ].
    apply le_n_S. apply IH.
Qed.

Lemma slice0_prefix (n : nat) (s : string) : String.prefix (slice0 n s) s = true.
Proof.
  unfold slice0. revert s. induction n as [ | n IH]; intros s.
  - destruct s; reflexivity.
  - destruct s as [ | c s]; simpl; [reflexivity | ].
    destruct (Ascii.ascii_dec c c); [apply IH | contradiction].
Qed.

Lemma slice0_short (n : nat) (s : string) :
  (String.length s <= n)%nat -> slice0 n s = s.
Proof.
  unfold slice0. revert s. induction n as [ | n IH]; intros s Hl.
  - destruct s; [reflexivity | simpl in Hl; inversion Hl].
  - destruct s as [ | c s]; simpl; [reflexivity | ].
    rewrite IH; [reflexivity | simpl in Hl; apply le_S_n; exact Hl].
Qed.

Lemma slice0_head (n : nat) (s : string) (c : Ascii.ascii) (r : string) :
  slice0 n s = String c r -> exists r0, s = String c r0.
Proof.
  unfold slice0. destruct n, s; simpl; try discriminate.
  intros H; inversion H; subst; eauto.
Qed.

(** The same on code units. *)

Lemma text_trimStart_head (t : Text.text) (c : N) (r : Text.text) :
  Text.trimStart t = c :: r -> Text.is_space c = false.
Proof.
  induction t as [ | a t IH]; simpl; [discriminate | ].
  destruct (Text.is_space a) eqn:Ha; [exact IH | ].
  intros H; inversion H; subst. exact Ha.
Qed.

Lemma text_trimEnd_head (t : Text.text) (c : N) (r : Text.text) :
  Text.trimEnd t = c :: r -> exists r0, t = c :: r0.
Proof.
  destruct t as [ | a t]; simpl; [discriminate | ].
  destruct (Text.trimEnd t); [destruct (Text.is_space a); [discriminate | ] | ];
    intros H; inversion H; subst; eauto.
Qed.

Lemma text_trim_head (t : Text.text) (c : N) (r : Text.text) :
  Text.trim t = c :: r -> Text.is_space c = false.
Proof.
  unfold Text.trim. intros H.
  destruct (text_trimEnd_head _ _ _ H) as [r0 Hr0].
  exact (text_trimStart_head t c r0 Hr0).
Qed.

Lemma text_trimEnd_last (t : Text.text) : forall (r : Text.text) (c : N),
  Text.trimEnd t = r ++ [c] -> Text.is_space c = false.
Proof.
  induction t as [ | a t IH]; intros r c; simpl.
  - destruct r; discriminate.
  - destruct (Text.trimEnd t) as [ | x xs] eqn:Ht.
    + destruct (Text.is_space a) eqn:Ha.
      * destruct r; discriminate.
      * destruct r as [ | b r]; simpl; intros H; inversion H; subst.
        -- exact Ha.
        -- destruct r; discriminate.
    + destruct r as [ | b r]; simpl; intros H; inversion H as [[Ha Hr]].
      exact (IH r c Hr).
Qed.

Lemma text_trimStart_split (t : Text.text) :
  exists a, t = a ++ Text.trimStart t /\ forallb Text.is_space a = true.
Proof.
  induction t as [ | u t (a & Ha & Hs)]; simpl.
  - exists []. split; reflexivity.
  - destruct (Text.is_space u) eqn:Hu.
    + exists (u :: a). simpl. rewrite Hu, Hs. split; [f_equal; exact Ha | reflexivity].
    + exists []. split; reflexivity.
Qed.

Lemma text_trimEnd_split (t : Text.text) :
  exists b, t = Text.trimEnd t ++ b /\ forallb Text.is_space b = true.
Proof.
  induction t as [ | u t (b & Hb & Hs)]; simpl.
  - exists []. split; reflexivity.
  - destruct (Text.trimEnd t) as [ | x xs] eqn:Ht.
    + simpl in Hb. subst t. destruct (Text.is_space u) eqn:Hu.
      * exists (u :: b). simpl. rewrite Hu, Hs. split; reflexivity.
      * exists b. split; [reflexivity | exact Hs].
    + exists b. split; [ | exact Hs]. simpl. f_equal. exact Hb.
Qed.

Lemma text_trimStart_fixed (c : N) (r : Text.text) :
  Text.is_space c = false -> Text.trimStart (c :: r) = c :: r.
Proof. intros H. simpl. rewrite H. reflexivity. Qed.

Lemma text_trimEnd_idem (t : Text.text) :
  Text.trimEnd (Text.trimEnd t) = Text.trimEnd t.
Proof.
  induction t as [ | a t IH]; simpl; [reflexivity | ].
  destruct (Text.trimEnd t) as [ | b r] eqn:Ht.
  - destruct (Text.is_space a) eqn:Ha; simpl; [reflexivity | rewrite Ha; reflexivity].
  - simpl in *. rewrite IH. reflexivity.
Qed.

Lemma text_trim_idem (t : Text.text) : Text.trim (Text.trim t) = Text.trim t.
Proof.
  destruct (Text.trim t) as [ | c r] eqn:Ht; [reflexivity | ].
  unfold Text.trim at 1. rewrite (text_trimStart_fixed c r (text_trim_head t c r Ht)).
  rewrite <- Ht. unfold Text.trim. apply text_trimEnd_idem.
Qed.

(** The strings of the model are the texts below 256: [Server.trim] and
    [Server.slice0] are [Text.trim] and [Text.slice0] on them. *)
Lemma is_space_units (c : Ascii.ascii) :
  is_space c = Text.is_space (Ascii.N_of_ascii c).
Proof. destruct c as [[] [] [] [] [] [] [] []]; reflexivity. Qed.

Lemma units_trimStart (s : string) :
  Text.units (trimStart s) = Text.trimStart (Text.units s).
Proof.
  induction s as [ | c s IH]; [reflexivity | ].
  change (Text.units (String c s)) with (Ascii.N_of_ascii c :: Text.units s).
  simpl. rewrite <- is_space_units.
  destruct (is_space c); [exact IH | reflexivity].
Qed.

Lemma units_nil (s : string) : Text.units s = [] -> s = EmptyString.
Proof. destruct s; [reflexivity | discriminate]. Qed.

Lemma units_trimEnd (s : string) :
  Text.units (trimEnd s) = Text.trimEnd (Text.units s).
Proof.
  induction s as [ | c s IH]; [reflexivity | ].
  change (Text.units (String c s)) with (Ascii.N_of_ascii c :: Text.units s).
  simpl. rewrite <- IH, <- is_space_units.
  destruct (trimEnd s) as [ | b t]; [destruct (is_space c) | ]; reflexivity.
Qed.

Lemma units_slice0 (n : nat) (s : string) :
  Text.units (slice0 n s) = Text.slice0 n (Text.units s).
Proof.
  unfold slice0, Text.slice0. revert s.
  induction n as [ | n IH]; intros s.
  - destruct s; reflexivity.
  - destruct s as [ | c s]; [reflexivity | ].
    change (Text.units (String c s)) with (Ascii.N_of_ascii c :: Text.units s).
    simpl. rewrite <- IH. reflexivity.
Qed.

Lemma units_clean (s : string) :
  Text.units (slice0 300 (trim s)) = Text.clean (Text.units s).
Proof.
  unfold Text.clean, Text.trim, trim.
  rewrite units_slice0, units_trimEnd, units_trimStart. reflexivity.
Qed.

Lemma units_inj (s t : string) : Text.units s = Text.units t -> s = t.
Proof.
  revert t. induction s as [ | c s IH]; intros [ | d t]; try discriminate;
    [reflexivity | ].
  change (Text.units (String c s)) with (Ascii.N_of_ascii c :: Text.units s).
  change (Text.units (String d t)) with (Ascii.N_of_ascii d :: Text.units t).
  intros H. inversion H as [[Hc Hs]].
  rewrite (IH t Hs). f_equal.
  rewrite <- (Ascii.ascii_N_embedding c), <- (Ascii.ascii_N_embedding d), Hc.
  reflexivity.
Qed.

(** X16: what [clean] stores for a posted field.  A text, of any code
    units, is trimmed and cut: trimming removes a run of white space and
    line terminators at either end and leaves none there; the cut keeps the
    first 300 code units of the trimmed text, all of it when it is
    shorter.  On the strings of the model [clean] is that function; a
    missing field becomes null; any other value is kept as it is. *)
Theorem clean_result :
  (forall u : Text.text,
     exists a b rest,
       u = a ++ Text.trim u ++ b /\
       forallb Text.is_space a = true /\
       forallb Text.is_space b = true /\
       (forall c r, Text.trim u = c :: r -> Text.is_space c = false) /\
       (forall r c, Text.trim u = r ++ [c] -> Text.is_space c = false) /\
       Text.trim u = Text.clean u ++ rest /\
       List.length (Text.clean u) = Nat.min 300 (List.length (Text.trim u)) /\
       (forall c r, Text.clean u = c :: r -> Text.is_space c = false)) /\
  (forall s : string,
     exists t, clean (VStr s) = VStr t /\ Text.units t = Text.clean (Text.units s)) /\
  clean VUndefined = VNull /\
  (forall v : value, is_string v = false -> v <> VUndefined -> clean v = v).
Proof.
  split; [ | split; [ | split]].
  - intros u.
    destruct (text_trimStart_split u) as (a & Ha & Hsa).
    destruct (text_trimEnd_split (Text.trimStart u)) as (b & Hb & Hsb).
    exists a, b, (skipn 300 (Text.trim u)).
    split; [unfold Text.trim; rewrite <- Hb; exact Ha | ].
    split; [exact Hsa | ]. split; [exact Hsb | ].
    split; [exact (text_trim_head u) | ].
    split; [intros r c; unfold Text.trim; apply text_trimEnd_last | ].
    split; [symmetry; apply firstn_skipn | ].
    split; [apply length_firstn | ].
    intros c r H. unfold Text.clean, Text.slice0 in H.
    destruct (Text.trim u) as [ | c0 r0] eqn:Ht; [discriminate | ].
    simpl in H. inversion H; subst. exact (text_trim_head u c r0 Ht).
  - intros s. exists (slice0 300 (trim s)). split; [reflexivity | apply units_clean].
  - reflexivity.
  - intros v Hs Hu. destruct v; try reflexivity; [contradiction | discriminate].
Qed.

(** X17: on a text whose trimmed form fits in 300 code units [clean]
    trims and nothing more, and cleaning twice changes nothing; on a
    longer text the cut can leave white space at the end, which a second
    cleaning removes. *)
Theorem clean_twice :
  (forall u : Text.text, (List.length (Text.trim u) <= 300)%nat ->
     Text.clean u = Text.trim u /\
     Text.clean (Text.clean u) = Text.clean u) /\
  (forall s : string, (List.length (Text.trim (Text.units s)) <= 300)%nat ->
     clean (VStr s) = VStr (trim s) /\
     clean (clean (VStr s)) = clean (VStr s)) /\
  Text.clean (Text.clean (Text.units long_text)) <> Text.clean (Text.units long_text) /\
  clean (clean (VStr long_text)) <> clean (VStr long_text).
Proof.
  assert (T : forall u : Text.text, (List.length (Text.trim u) <= 300)%nat ->
            Text.clean u = Text.trim u /\
            Text.clean (Text.clean u) = Text.clean u).
  { intros u Hl. unfold Text.clean, Text.slice0.
    rewrite firstn_all2 by exact Hl.
    split; [reflexivity | ].
    rewrite text_trim_idem. apply firstn_all2. exact Hl. }
  split; [exact T | ].
  split.
  - intros s Hl. destruct (T _ Hl) as [H1 H2].
    rewrite <- units_clean in H1, H2. rewrite <- units_clean in H2.
    unfold Text.trim in H1.
    rewrite <- units_trimStart, <- units_trimEnd in H1.
    apply units_inj in H1. apply units_inj in H2.
    cbn [clean]. split; f_equal; [exact H1 | exact H2].
  - split; vm_compute; discriminate.
Qed.

(** The wider white space is stripped: a title padded with an ideographic
    space and an em space. *)
Example clean_padded_title :
  Text.clean Text.padded_title = [0x30EC; 0x30B3; 0x30FC; 0x30C9]%N.
Proof. reflexivity. Qed.

(** *** POST /api/records *)

Section Routes.

Variable B : Builtins.
Variable w : World.

Lemma truthy_body (v : value) : truthy (js_or v (VObj [])) = true.
Proof. unfold js_or. destruct (truthy v) eqn:Hv; [exact Hv | reflexivity]. Qed.

Lemma run_create_record (req : HttpRequest) (tr : list Event) :
  run w tr (create_record req) =
  if acceptable_image_url (posted req "image_url") then
    let ans := db w tr insert_record (record_params req) in
    (Returned
       match ans with
       | QRows (row :: _) =>
           if nullish row then server_error
           else Json 200 (VObj [("id", opt_get row "id")])
       | _ => server_error
       end,
     tr ++ [EvQuery insert_record (record_params req) ans])
  else (Returned (Json 400 (error_body "image_url required")), tr).
Proof.
  unfold create_record. rewrite run_try_catch.
  cbv zeta. rewrite !(get_truthy _ _ (truthy_body (body req))).
  cbn [lift bind]. fold (posted req "image_url") (posted req "artist")
    (posted req "title") (posted req "label") (posted req "catno")
    (posted req "barcode").
  unfold acceptable_image_url.
  destruct (truthy (posted req "image_url")); simpl; [ | reflexivity].
  destruct (is_string (posted req "image_url")); simpl; [ | reflexivity].
  fold (record_params req).
  change [clean (posted req "image_url"); clean (posted req "artist");
          clean (posted req "title"); clean (posted req "label");
          clean (posted req "catno"); clean (posted req "barcode")]
    with (record_params req).
  destruct (db w tr insert_record (record_params req)) as [ | rows]; simpl;
    [reflexivity | ].
  destruct rows as [ | row rest]; simpl; [reflexivity | ].
  destruct (nullish row) eqn:Hrow.
  - destruct row; try discriminate; reflexivity.
  - rewrite (get_not_nullish row "id" Hrow). reflexivity.
Qed.

(** X18: POST /api/records never throws.  Without a non-empty text as
    image_url it answers 400 and does not touch the database; otherwise it
    makes exactly one insert, of the six cleaned fields, and answers with
    the id of the first row the database returned; it answers 500 when the
    insert failed, returned no row, or returned null as the row. *)
Theorem create_record_replies (req : HttpRequest) (tr : list Event) :
  exists reply evs,
    run w tr (create_record req) = (Returned reply, tr ++ evs) /\
    (acceptable_image_url (posted req "image_url") = false ->
       reply = Json 400 (error_body "image_url required") /\ evs = []) /\
    (acceptable_image_url (posted req "image_url") = true ->
       let ans := db w tr insert_record (record_params req) in
       evs = [EvQuery insert_record (record_params req) ans] /\
       (forall row rest, ans = QRows (row :: rest) -> nullish row = false ->
          reply = Json 200 (VObj [("id", opt_get row "id")])) /\
       (forall row rest, ans = QRows (row :: rest) -> nullish row = true ->
          reply = server_error) /\
       (ans = QRows [] -> reply = server_error) /\
       (ans = QRejected -> reply = server_error)).
Proof.
  rewrite run_create_record.
  destruct (acceptable_image_url (posted req "image_url")).
  - cbv zeta. eexists. eexists. split; [reflexivity | ].
    split; [discriminate | ]. intros _.
    split; [reflexivity | ].
    destruct (db w tr insert_record (record_params req)) as [ | [ | row rest]].
    + split; [discriminate | ]. split; [discriminate | ]. split; reflexivity.
    + split; [discriminate | ]. split; [discriminate | ]. split; reflexivity.
    + split; [ | split; [ | split; discriminate]].
      * intros row' rest' E Hn. inversion E; subst. rewrite Hn. reflexivity.
      * intros row' rest' E Hn. inversion E; subst. rewrite Hn. reflexivity.
  - exists (Json 400 (error_body "image_url required")), [].
    rewrite app_nil_r. split; [reflexivity | ].
    split; [auto | discriminate].
Qed.

(** X19: the image_url is tested before it is cleaned: a text of white
    space only passes the test and is stored as the empty text. *)
Theorem blank_image_url_is_stored (req : HttpRequest) (s : string) (tr : list Event) :
  posted req "image_url" = VStr s ->
  s <> "" ->
  trim s = "" ->
  exists reply rest ans,
    run w tr (create_record req)
      = (Returned reply, tr ++ [EvQuery insert_record (VStr "" :: rest) ans]).
Proof.
  intros Hs Hne Ht. rewrite run_create_record.
  unfold acceptable_image_url. rewrite Hs. simpl.
  destruct (String.eqb_spec s "") as [-> | _]; [contradiction | ]. simpl.
  unfold record_params. simpl. rewrite Hs. simpl. rewrite Ht.
  eexists. eexists. eexists. reflexivity.
Qed.

(** *** The estimate routes *)

Lemma run_request_estimate (q : JobQueue.Queue) (redis : option error)
    (req : HttpRequest) (tr : list Event) :
  run w tr (request_estimate B q redis req) =
  let n := record_id B req in
  if bad_record_id n then (Returned (Json 400 (error_body "bad_record_id"), q), tr)
  else
    let ans := db w tr select_exists [VNum n] in
    let tr' := tr ++ [EvQuery select_exists [VNum n] ans] in
    match ans with
    | QRejected => (Returned (server_error, q), tr')
    | QRows [] => (Returned (Json 404 (error_body "record_not_found"), q), tr')
    | QRows (_ :: _) =>
        match redis with
        | Some _ => (Returned (server_error, q), tr')
        | None =>
            (Returned (Enqueued (JobQueue.id (fst (JobQueue.enqueue q "estimate"
                                                     (estimate_payload n)))),
                       snd (JobQueue.enqueue q "estimate" (estimate_payload n))),
             tr')
        end
    end.
Proof.
  unfold request_estimate. rewrite run_try_catch. cbv zeta.
  fold (record_id B req).
  destruct (bad_record_id (record_id B req)); [reflexivity | ].
  simpl.
  destruct (db w tr select_exists [VNum (record_id B req)]) as [ | rows]; simpl;
    [reflexivity | ].
  destruct rows as [ | row rest]; simpl; [reflexivity | ].
  destruct redis; reflexivity.
Qed.

(** X20: POST /api/records/:id/estimate never throws, and adds a job to the
    queue only when it answers that it did: then the id is valid, the
    database returned a row for it, and the one job added is an 'estimate'
    job for that id with the retry options of [enqueue].  On every other
    answer the queue is as it was. *)
Theorem job_only_for_existing_record (q : JobQueue.Queue) (redis : option error)
    (req : HttpRequest) (tr : list Event) :
  exists reply q' evs,
    run w tr (request_estimate B q redis req) = (Returned (reply, q'), tr ++ evs) /\
    ((forall jid, reply <> Enqueued jid) -> q' = q) /\
    (forall jid, reply = Enqueued jid ->
       exists job row rest,
         JobQueue.jobs q' = JobQueue.jobs q ++ [job] /\
         JobQueue.id job = jid /\
         JobQueue.name job = "estimate" /\
         JobQueue.data job = estimate_payload (record_id B req) /\
         JobQueue.attempts (JobQueue.opts job) = 5 /\
         bad_record_id (record_id B req) = false /\
         redis = None /\
         evs = [EvQuery select_exists [VNum (record_id B req)] (QRows (row :: rest))]).
Proof.
  rewrite run_request_estimate. cbv zeta.
  destruct (bad_record_id (record_id B req)) eqn:Hbad.
  { exists (Json 400 (error_body "bad_record_id")), q, []. rewrite app_nil_r.
    split; [reflexivity | ]. split; [reflexivity | discriminate]. }
  destruct (db w tr select_exists [VNum (record_id B req)]) as [ | [ | row rest]] eqn:Hdb.
  - eexists. eexists. eexists. split; [reflexivity | ].
    split; [reflexivity | discriminate].
  - eexists. eexists. eexists. split; [reflexivity | ].
    split; [reflexivity | discriminate].
  - destruct redis as [e | ].
    + eexists. eexists. eexists. split; [reflexivity | ].
      split; [reflexivity | discriminate].
    + eexists. eexists. eexists. split; [reflexivity | ].
      split.
      * intros Hno. exfalso. eapply Hno. reflexivity.
      * intros jid Hj. inversion Hj; subst.
        eexists. exists row, rest. simpl.
        repeat split; reflexivity.
Qed.

Lemma run_latest_estimate (req : HttpRequest) (tr : list Event) :
  run w tr (latest_estimate B req) =
  let n := record_id B req in
  if bad_record_id n then (Returned (Json 400 (error_body "bad_record_id")), tr)
  else
    let ans := db w tr select_latest [VNum n] in
    (Returned
       match ans with
       | QRejected => server_error
       | QRows [] => NoContent
       | QRows (row :: _) => Json 200 row
       end,
     tr ++ [EvQuery select_latest [VNum n] ans]).
Proof.
  unfold latest_estimate. rewrite run_try_catch. cbv zeta.
  fold (record_id B req).
  destruct (bad_record_id (record_id B req)); [reflexivity | ].
  simpl.
  destruct (db w tr select_latest [VNum (record_id B req)]) as [ | rows]; simpl;
    [reflexivity | ].
  destruct rows; reflexivity.
Qed.

(** X21: an id that is not a finite number above zero is refused by both
    estimate routes with 400, before any query is made and with the queue
    untouched. *)
Theorem bad_ids_are_refused (q : JobQueue.Queue) (redis : option error)
    (req : HttpRequest) (tr : list Event) :
  bad_record_id (record_id B req) = true ->
  run w tr (request_estimate B q redis req)
    = (Returned (Json 400 (error_body "bad_record_id"), q), tr) /\
  run w tr (latest_estimate B req)
    = (Returned (Json 400 (error_body "bad_record_id")), tr).
Proof.
  intros Hbad. rewrite run_request_estimate, run_latest_estimate.
  cbv zeta. rewrite Hbad. split; reflexivity.
Qed.

(** X22: GET /api/records/:id/estimate never throws and makes at most one
    query; for a valid id it answers 204 exactly when the database returned
    no row, and otherwise with the first row returned. *)
Theorem latest_estimate_replies (req : HttpRequest) (tr : list Event) :
  bad_record_id (record_id B req) = false ->
  exists reply ans,
    run w tr (latest_estimate B req)
      = (Returned reply, tr ++ [EvQuery select_latest [VNum (record_id B req)] ans]) /\
    (reply = NoContent <-> ans = QRows []) /\
    (forall row rest, ans = QRows (row :: rest) -> reply = Json 200 row) /\
    (ans = QRejected -> reply = server_error).
Proof.
  intros Hok. rewrite run_latest_estimate. cbv zeta. rewrite Hok.
  eexists. eexists. split; [reflexivity | ].
  destruct (db w tr select_latest [VNum (record_id B req)]) as [ | [ | row rest]].
  - split; [split; discriminate | ]. split; [discriminate | reflexivity].
  - split; [split; reflexivity | ]. split; discriminate.
  - split; [split; discriminate | ].
    split; [intros r0 rest0 H; inversion H; reflexivity | discriminate].
Qed.

(** *** GET /api/records *)

Lemma ltb_asym (x y : float) : PrimFloat.ltb x y = true -> PrimFloat.ltb y x = false.
Proof.
  rewrite !ltb_spec. unfold SFltb.
  rewrite (SFcompare_antisym (Prim2SF x) (Prim2SF y)).
  destruct (SFcompare (Prim2SF x) (Prim2SF y)) as [[ | | ] | ]; simpl;
    intros H; try discriminate; reflexivity.
Qed.

Lemma ltb_irrefl (x : float) : PrimFloat.ltb x x = false.
Proof.
  destruct (PrimFloat.ltb x x) eqn:H; [ | reflexivity].
  rewrite (ltb_asym x x H) in H. discriminate.
Qed.

Lemma ltb_nan_r (x : float) : PrimFloat.ltb x PrimFloat.nan = false.
Proof.
  rewrite ltb_spec. unfold SFltb.
  change (Prim2SF PrimFloat.nan) with S754_nan.
  destruct (Prim2SF x); reflexivity.
Qed.

Lemma Math_min_cap (a b : float) : PrimFloat.ltb b (Math_min a b) = false.
Proof.
  unfold Math_min.
  destruct (PrimFloat.is_nan a || PrimFloat.is_nan b); [apply ltb_nan_r | ].
  destruct (PrimFloat.ltb a b) eqn:Hab; [exact (ltb_asym a b Hab) | ].
  destruct (PrimFloat.ltb b a) eqn:Hba; [apply ltb_irrefl | ].
  destruct (PrimFloat.is_zero a && PrimFloat.get_sign b);
    [apply ltb_irrefl | exact Hba].
Qed.

Lemma run_list_records (req : HttpRequest) (tr : list Event) :
  run w tr (list_records B req) =
  if nullish (query req) then (Returned server_error, tr)
  else
    let ps := [VNum (page_after B req); VNum (page_limit B req)] in
    let ans := db w tr select_page ps in
    (Returned
       match ans with
       | QRejected => server_error
       | QRows rows =>
           if existsb nullish (match rows with [] => [] | _ => [last rows VUndefined] end)
           then server_error
           else page rows
       end,
     tr ++ [EvQuery select_page ps ans]).
Proof.
  unfold list_records. rewrite run_try_catch.
  destruct (nullish (query req)) eqn:Hq.
  { destruct (query req); try discriminate; reflexivity. }
  rewrite !(get_not_nullish (query req) _ Hq). cbn [lift bind].
  fold (page_after B req) (page_limit B req). simpl.
  destruct (db w tr select_page [VNum (page_after B req); VNum (page_limit B req)])
    as [ | rows]; simpl; [reflexivity | ].
  destruct rows as [ | row rest]; [reflexivity | ].
  remember (row :: rest) as rows eqn:Hrows.
  assert (Hlen : (0 <? List.length rows)%nat = true) by (subst; reflexivity).
  rewrite Hlen. cbn [existsb orb].
  destruct (nullish (last rows VUndefined)) eqn:Hl.
  - destruct (last rows VUndefined); try discriminate; subst; reflexivity.
  - rewrite (get_not_nullish _ "id" Hl). subst. reflexivity.
Qed.

(** X23: GET /api/records never throws and never asks the database for
    more than 200 rows: the limit it passes is not above 200 whatever the
    request says, and it is 100, after id 0, when the request says
    nothing. *)
Theorem page_size_is_capped (req : HttpRequest) (tr : list Event) :
  exists reply evs,
    run w tr (list_records B req) = (Returned reply, tr ++ evs) /\
    (forall sql ps, In (sql, ps) (queries evs) ->
       sql = select_page /\
       ps = [VNum (page_after B req); VNum (page_limit B req)] /\
       PrimFloat.ltb 200%float (page_limit B req) = false) /\
    (truthy (opt_get (query req) "limit") = false -> page_limit B req = 100%float) /\
    (truthy (opt_get (query req) "after") = false -> page_after B req = 0%float).
Proof.
  rewrite run_list_records.
  destruct (nullish (query req)) eqn:Hq.
  - exists server_error, []. rewrite app_nil_r. split; [reflexivity | ].
    split; [intros sql ps []| ].
    unfold page_limit, page_after, js_or.
    split; intros ->; reflexivity.
  - cbv zeta. eexists. eexists. split; [reflexivity | ].
    split.
    + intros sql ps [H | []]. inversion H; subst.
      split; [reflexivity | ]. split; [reflexivity | ].
      unfold page_limit. apply Math_min_cap.
    + unfold page_limit, page_after, js_or.
      split; intros ->; reflexivity.
Qed.

(** X24: when the database returns rows (objects), the page holds them all
    and its cursor is the id of the last of them, null for an empty page. *)
Theorem page_cursor (req : HttpRequest) (tr : list Event) (rows : list value) :
  nullish (query req) = false ->
  db w tr select_page [VNum (page_after B req); VNum (page_limit B req)] = QRows rows ->
  Forall (fun row => nullish row = false) rows ->
  run w tr (list_records B req) =
  (Returned (page rows),
   tr ++ [EvQuery select_page [VNum (page_after B req); VNum (page_limit B req)]
            (QRows rows)]).
Proof.
  intros Hq Hdb Hrows. rewrite run_list_records, Hq. cbv zeta. rewrite Hdb.
  destruct rows as [ | row rest]; [reflexivity | ].
  assert (Hl : nullish (last (row :: rest) VUndefined) = false).
  { assert (Hin : In (last (row :: rest) VUndefined) (row :: rest)).
    { destruct (exists_last (l := row :: rest)) as (l' & a & ->); [discriminate | ].
      rewrite last_last. apply in_or_app. right. left. reflexivity. }
    exact (proj1 (Forall_forall _ _) Hrows _ Hin). }
  cbn [existsb]. rewrite Hl. reflexivity.
Qed.

(** *** POST /admin/init *)

Lemma run_admin_init (INIT_TOKEN : option string) (req : HttpRequest) (tr : list Event) :
  truthy (header req "x-init-token") = true \/ nullish (query req) = false ->
  run w tr (admin_init INIT_TOKEN req) =
  if no_key INIT_TOKEN
     || differs (presented_token req) (match INIT_TOKEN with Some t => t | None => "" end)
  then (Returned (Json 403 (error_body "forbidden")), tr)
  else
    let ans := db w tr create_tables [] in
    (Returned
       match ans with
       | QRejected => InitFailed QueryFailed
       | QRows _ => Json 200 (VObj [("ok", VBool true)])
       end,
     tr ++ [EvQuery create_tables [] ans]).
Proof.
  intros Hreq. unfold admin_init, presented_token, js_or.
  destruct (truthy (header req "x-init-token")) eqn:Hh; cbn [bind].
  - destruct (no_key INIT_TOKEN || differs _ _); [reflexivity | ].
    rewrite run_try_catch. simpl.
    destruct (db w tr create_tables []); reflexivity.
  - destruct Hreq as [Hreq | Hq]; [discriminate | ].
    rewrite (get_not_nullish (query req) "token" Hq). cbn [lift bind].
    destruct (no_key INIT_TOKEN || differs _ _); [reflexivity | ].
    rewrite run_try_catch. simpl.
    destruct (db w tr create_tables []); reflexivity.
Qed.

(** X25: POST /admin/init runs its statements only for a request that
    presents, in the header or else in the query, exactly the text of a
    configured, non-empty INIT_TOKEN; while INIT_TOKEN is unset or empty
    every request is answered 403 and the database is left alone. *)
Theorem init_is_locked (INIT_TOKEN : option string) (req : HttpRequest)
    (tr : list Event) :
  truthy (header req "x-init-token") = true \/ nullish (query req) = false ->
  exists reply evs,
    run w tr (admin_init INIT_TOKEN req) = (Returned reply, tr ++ evs) /\
    (no_key INIT_TOKEN = true ->
       reply = Json 403 (error_body "forbidden") /\ evs = []) /\
    (evs <> [] ->
       exists t ans,
         INIT_TOKEN = Some t /\ t <> "" /\ presented_token req = VStr t /\
         evs = [EvQuery create_tables [] ans]) /\
    (reply <> Json 403 (error_body "forbidden") -> evs <> []).
Proof.
  intros Hreq. rewrite (run_admin_init INIT_TOKEN req tr Hreq).
  destruct (no_key INIT_TOKEN) eqn:Hno; simpl.
  { exists (Json 403 (error_body "forbidden")), []. rewrite app_nil_r.
    split; [reflexivity | ]. split; [auto | ].
    split; [intros H; contradiction | intros H; contradiction]. }
  destruct INIT_TOKEN as [t | ]; [ | discriminate]. simpl in Hno.
  destruct (differs (presented_token req) t) eqn:Hd.
  { exists (Json 403 (error_body "forbidden")), []. rewrite app_nil_r.
    split; [reflexivity | ]. split; [discriminate | ].
    split; [intros H; contradiction | intros H; contradiction]. }
  cbv zeta. eexists. eexists. split; [reflexivity | ].
  split; [discriminate | ]. split; [ | intros _; discriminate].
  intros _. exists t, (db w tr create_tables []).
  split; [reflexivity | ].
  split; [intros ->; discriminate | ].
  split; [ | reflexivity].
  unfold differs in Hd.
  destruct (presented_token req) as [ | | b | n | s | l | f]; try discriminate.
  destruct (String.eqb s t) eqn:He; [ | discriminate].
  apply String.eqb_eq in He. rewrite He. reflexivity.
Qed.

End Routes.

End ServerSpec.

(* ================================================================== *)
(** ** The further statements at concrete runs *)

Module MoreCases.

Import Estimate Worker Spec Scenario Runs Server Routes Facts EstimateSpec.
Import PipelineRuns WorkerRuns ServerSpec.


(** A run with a key: one request of each kind, the normalizer first. *)
Lemma request_budget_witness :
  exists evs,
    snd rewritten_run = [] ++ evs /\
    (count is_openai evs <= 1)%nat /\
    (count is_search evs <= 1)%nat /\
    (count is_stats evs <= 1)%nat /\
    count is_query evs = 0%nat /\
    before is_openai is_discogs evs = true /\
    before is_search is_stats evs = true.
Proof.
  apply (request_budget host env_ai w_ai_reply meta_noisy [] (snd rewritten_run)
           (fst rewritten_run)).
  reflexivity.
Defined.

(** The statistics request gets no response: the run throws. *)
Lemma unanswered_request_throws_witness :
  exists evs,
    snd unreachable_run = [] ++ evs /\
    (existsb is_rejected evs = true <-> fst unreachable_run = Thrown FetchFailed) /\
    (existsb is_rejected evs = true ->
     exists rq, last evs (EvSleep 0) = EvFetch rq Rejected).
Proof.
  apply (unanswered_request_throws host env_plain w_stats_unreachable meta_ab []
           (snd unreachable_run) (fst unreachable_run)).
  reflexivity.
Defined.

(** With a key, the one request to the normalizer carries the input. *)
Lemma normalizer_requests_witness :
  exists evs,
    snd rewritten_run = [] ++ evs /\
    (no_key (OPENAI_API_KEY env_ai) = true -> count is_openai evs = 0%nat) /\
    (forall k m ans,
       In (EvFetch (OpenAIChatReq k m) ans) evs ->
       m = meta_noisy /\ OPENAI_API_KEY env_ai = Some k /\ k <> "").
Proof.
  apply (normalizer_requests host env_ai w_ai_reply meta_noisy [] (snd rewritten_run)
           (fst rewritten_run)).
  reflexivity.
Defined.

(** A search answered 500. *)
Lemma thrown_errors_witness :
  DiscogsSearchError 500 "internal error" = FetchFailed \/
  DiscogsSearchError 500 "internal error" = SyntaxError \/
  DiscogsSearchError 500 "internal error" = TypeError \/
  exists rq res,
    DiscogsSearchError 500 "internal error" = DiscogsSearchError (status res) (text res) /\
    ok res = false /\
    is_search (EvFetch rq (Resolved res)) = true /\
    last (snd refused_run) (EvSleep 0) = EvFetch rq (Resolved res).
Proof.
  apply (thrown_errors host env_plain w_search_refused meta_ab [] (snd refused_run)).
  reflexivity.
Defined.

(** A search answer that carries a message and no result list. *)
Lemma malformed_search_answer_witness :
  (nullish (opt_get (VObj [("message", VStr "try later")]) "results") = true ->
     run w_no_result_list [] (estimateFromMetadata host env_plain meta_ab)
       = (Returned (unmatched meta_ab (VObj [("message", VStr "try later")])),
          searched query_ab (http 200 "" (Some (VObj [("message", VStr "try later")]))))) /\
  (nullish (opt_get (VObj [("message", VStr "try later")]) "results") = false ->
   (forall items, opt_get (VObj [("message", VStr "try later")]) "results" <> VArr items) ->
     run w_no_result_list [] (estimateFromMetadata host env_plain meta_ab)
       = (Thrown TypeError,
          searched query_ab (http 200 "" (Some (VObj [("message", VStr "try later")]))))).
Proof.
  apply (malformed_search_answer host env_plain w_no_result_list meta_ab meta_ab
           (VObj [("message", VStr "try later")]) [] []); reflexivity.
Defined.

(** The reply with an empty title: the title stays the input's. *)
Lemma normalizer_never_blanks_witness :
  (artist (normalized host meta_noisy (chat_body reply_text)) = artist meta_noisy \/
   truthy (artist (normalized host meta_noisy (chat_body reply_text))) = true) /\
  (title (normalized host meta_noisy (chat_body reply_text)) = title meta_noisy \/
   truthy (title (normalized host meta_noisy (chat_body reply_text))) = true).
Proof.
  apply (normalizer_never_blanks host env_ai w_ai_reply meta_noisy
           (normalized host meta_noisy (chat_body reply_text)) []
           (asked_ai meta_noisy (http 200 "" (Some (chat_body reply_text))))).
  reflexivity.
Defined.

(** The priced run asks for the statistics of release 42 and reports 42. *)
Lemma stats_of_reported_release_witness :
  exists evs,
    snd priced_run = [] ++ evs /\
    forall id tok ans,
      In (EvFetch (DiscogsStatsReq id tok) ans) evs ->
      id = ToString host (VNum 42%float) /\ tok = DISCOGS_TOKEN env_plain.
Proof.
  apply (stats_of_reported_release host env_plain w_priced meta_ab [] (snd priced_run)
           (priced host release42 (stats_body 10%float 8%float))
           {| Matched.release_id := VNum 42%float;
              Matched.title := VStr "Title B";
              Matched.country := VUndefined;
              Matched.year := VUndefined;
              Matched.label := VUndefined;
              Matched.catno := VUndefined;
              Matched.community_have := VUndefined;
              Matched.community_want := VUndefined;
              Matched.num_for_sale := VNum 8%float |});
    reflexivity.
Defined.

(** A job of kind 'cleanup'. *)
Lemma other_kinds_are_noops_witness :
  run w_worker_priced [] (processor host env_plain cleanup_job)
    = (Returned (VObj [("ok", VBool true)]), []).
Proof.
  apply (other_kinds_are_noops host env_plain w_worker_priced cleanup_job []).
  discriminate.
Defined.

(** A job that goes through: the insert is the last event. *)
Lemma done_only_after_snapshot_witness :
  exists rid r rows,
    get (JobQueue.data estimate_job) "recordId" = inr rid /\
    last (snd stored_job_run) (EvSleep 0)
      = EvQuery insert_estimate (snapshot_params rid r) (QRows rows) /\
    job_done (VNum 1%float) (priced host release42 (stats_body 10%float 8%float))
      = job_done rid r.
Proof.
  apply (done_only_after_snapshot host env_plain w_worker_priced estimate_job []
           (snd stored_job_run)); reflexivity.
Defined.

Lemma at_most_one_snapshot_witness :
  exists evs,
    snd stored_job_run = [] ++ evs /\
    (count is_select evs <= 1)%nat /\
    (count is_insert evs <= 1)%nat /\
    (forall e, fst stored_job_run = Thrown e -> e <> QueryFailed ->
               count is_insert evs = 0%nat).
Proof.
  apply (at_most_one_snapshot host env_plain w_worker_priced estimate_job []
           (snd stored_job_run) (fst stored_job_run)); reflexivity.
Defined.

(** A job whose record is gone. *)
Lemma record_loaded_first_witness :
  exists evs,
    snd missing_record_run = [] ++ evs /\
    (existsb is_fetch evs = true ->
     exists rid record rest,
       hd (EvSleep 0) evs = EvQuery select_record [rid] (QRows (record :: rest))) /\
    (forall rid ps,
       hd (EvSleep 0) evs = EvQuery select_record ps (QRows []) ->
       get (JobQueue.data estimate_job) "recordId" = inr rid ->
       fst missing_record_run = Thrown (RecordNotFound rid) /\ List.length evs = 1%nat).
Proof.
  apply (record_loaded_first host env_plain w_worker_no_record estimate_job []
           (snd missing_record_run) (fst missing_record_run)); reflexivity.
Defined.

(** An image_url of three spaces. *)
Lemma blank_image_url_is_stored_witness :
  exists reply rest ans,
    run (db_rows [row_id 7%float]) [] (create_record post_blank_url)
      = (Returned reply, [] ++ [EvQuery insert_record (VStr "" :: rest) ans]).
Proof.
  apply (blank_image_url_is_stored (db_rows [row_id 7%float]) post_blank_url "   " []).
  - reflexivity.
  - discriminate.
  - reflexivity.
Defined.

(** The ids abc and -3. *)
Lemma bad_ids_are_refused_witness :
  (run db_down [] (request_estimate host (JobQueue.new_Queue JobQueue.JOB_QUEUE) None
                     (for_record "abc"))
     = (Returned (Json 400 (error_body "bad_record_id"),
                  JobQueue.new_Queue JobQueue.JOB_QUEUE), []) /\
   run db_down [] (latest_estimate host (for_record "abc"))
     = (Returned (Json 400 (error_body "bad_record_id")), [])) /\
  bad_record_id (record_id host_numbers (for_record "-3")) = true.
Proof.
  split.
  - apply (bad_ids_are_refused host db_down (JobQueue.new_Queue JobQueue.JOB_QUEUE)
             None (for_record "abc") []).
    reflexivity.
  - reflexivity.
Defined.

(** A record without estimate yet. *)
Lemma latest_estimate_replies_witness :
  exists reply ans,
    run (db_rows []) [] (latest_estimate host_numbers (for_record "1"))
      = (Returned reply,
         [] ++ [EvQuery select_latest [VNum (record_id host_numbers (for_record "1"))] ans]) /\
    (reply = NoContent <-> ans = QRows []) /\
    (forall row rest, ans = QRows (row :: rest) -> reply = Json 200 row) /\
    (ans = QRejected -> reply = server_error).
Proof.
  apply (latest_estimate_replies host_numbers (db_rows []) (for_record "1") []).
  reflexivity.
Defined.

(** A page of two rows, asked with limit 5000. *)
Lemma page_cursor_witness :
  run (db_rows [row_id 1%float; row_id 2%float]) []
      (list_records host_numbers (page_request (VStr "5000")))
  = (Returned (Json 200 (VObj [("items", VArr [row_id 1%float; row_id 2%float]);
                               ("nextCursor", VNum 2%float)])),
     [] ++ [EvQuery select_page [VNum 0%float; VNum 200%float]
              (QRows [row_id 1%float; row_id 2%float])]).
Proof.
  apply (page_cursor host_numbers (db_rows [row_id 1%float; row_id 2%float])
           (page_request (VStr "5000")) [] [row_id 1%float; row_id 2%float]).
  - reflexivity.
  - reflexivity.
  - repeat constructor.
Defined.

(** The right token in the header. *)
Lemma init_is_locked_witness :
  exists reply evs,
    run (db_rows []) [] (admin_init (Some "s3cret") (init_request (VStr "s3cret")))
      = (Returned reply, [] ++ evs) /\
    (no_key (Some "s3cret") = true ->
       reply = Json 403 (error_body "forbidden") /\ evs = []) /\
    (evs <> [] ->
       exists t ans,
         Some "s3cret" = Some t /\ t <> "" /\
         presented_token (init_request (VStr "s3cret")) = VStr t /\
         evs = [EvQuery create_tables [] ans]) /\
    (reply <> Json 403 (error_body "forbidden") -> evs <> []).
Proof.
  apply (init_is_locked (db_rows []) (Some "s3cret") (init_request (VStr "s3cret")) []).
  left. reflexivity.
Defined.

(** A record of which only the label is known. *)
Lemma unsearchable_metadata_witness :
  exists r x,
    run w_priced [] (estimateFromMetadata host env_plain meta_label_only)
      = (Returned r, [] ++ [EvSleep 150]) /\
    null_prices r /\
    extras r = ExtrasNone x /\
    note x = "no results" /\ Estimate.query x = meta_label_only /\ search_count x = VNum 0%float.
Proof.
  apply (unsearchable_metadata host env_plain w_priced meta_label_only meta_label_only
           [] []); reflexivity.
Defined.

(** A job run with a key: the normalizer sees the row's five fields. *)
Lemma worker_sends_row_metadata_witness :
  exists evs,
    snd ai_job_run = [] ++ evs /\
    forall k m ans,
      In (EvFetch (OpenAIChatReq k m) ans) evs ->
      exists rid record rest,
        hd (EvSleep 0) evs = EvQuery select_record [rid] (QRows (record :: rest)) /\
        m = meta_of_row record.
Proof.
  apply (worker_sends_row_metadata host env_ai w_worker_ai estimate_job []
           (snd ai_job_run) (fst ai_job_run)); reflexivity.
Defined.

End MoreCases.
